(** * The [aws_vpc_peering_connection] resource

    A shallow embedding of
    [internal/service/ec2/vpc_peering_connection.go]: the create, read,
    update and delete handlers of the resource, the status poller
    [vpcPeeringConnectionRefreshState] and the waiter built on it.

    The handlers are written in a small state monad.  The state holds the
    [*schema.ResourceData] the handlers mutate, the remote side behind the
    EC2 client, and a record of the calls issued through the client.  A Go
    [return] in the middle of a function is an outcome of its own, so the
    definitions keep the order of the statements of the source.  A nil
    pointer dereference is a panic, a third outcome.  [log.Printf] has no
    effect on any of this and is left out. *)

From Stdlib Require Import String Ascii ZArith List Bool Lia.
From stdpp Require Import base option list strings gmap fin_maps.

Local Open Scope string_scope.
Local Open Scope Z_scope.

(** ** Go values the file relies on *)

(** [strings.Contains]. *)
Fixpoint strings_Contains (s substr : string) : bool :=
  if String.prefix substr s then true
  else match s with
       | EmptyString => false
       | String _ s' => strings_Contains s' substr
       end.

(** [time.Duration], in nanoseconds. *)
Definition Duration := Z.
Definition time_Minute : Duration := 60 * 1000000000.

(** Go's [error] values, as far as this file builds or inspects them.
    - [awserr_New code message]: an [awserr.Error] returned by the SDK;
    - [errors_New text]: [errors.New];
    - [fmt_Errorf format args err]: [fmt.Errorf] with the string arguments
      [args] followed by at most one error argument;
    - the three errors of the plugin SDK's state poller;
    - [resource_NotFoundError]: the SDK's "not found" error. *)
#[warnings="-register-all"]
Inductive error : Type :=
| awserr_New (code message : string)
| errors_New (text : string)
| fmt_Errorf (format : string) (args : list string) (err : option error)
| resource_NotFoundError (message : string)
| resource_TimeoutError (lastState : string) (expected : list string)
| resource_UnexpectedStateError (state : string) (expected : list string).

(** [errors.Unwrap]: [fmt.Errorf] wraps its error argument when the verb
    is [%w]. *)
Definition errors_Unwrap (e : error) : option error :=
  match e with
  | fmt_Errorf format _ (Some e') =>
      if strings_Contains format "%w" then Some e' else None
  | _ => None
  end.

(** [errors.As] with an [awserr.Error] target: the first AWS error of the
    chain, as its code and message. *)
Fixpoint as_awserr (e : error) : option (string * string) :=
  match e with
  | awserr_New code message => Some (code, message)
  | fmt_Errorf format _ (Some e') =>
      if strings_Contains format "%w" then as_awserr e' else None
  | _ => None
  end.

(** [tfawserr.ErrCodeEquals] and [tfawserr.ErrMessageContains]; both take
    a possibly nil error. *)
Definition ErrCodeEquals (err : option error) (code : string) : bool :=
  match err with
  | Some e =>
      match as_awserr e with
      | Some (c, _) => String.eqb c code
      | None => false
      end
  | None => false
  end.

Definition ErrMessageContains (err : option error) (code message : string) : bool :=
  match err with
  | Some e =>
      match as_awserr e with
      | Some (c, m) => String.eqb c code && strings_Contains m message
      | None => false
      end
  | None => false
  end.

Arguments ErrCodeEquals : simpl never.
Arguments ErrMessageContains : simpl never.

(** [aws.StringValue] and [aws.BoolValue]. *)
Definition aws_StringValue (p : option string) : string :=
  match p with Some s => s | None => "" end.
Definition aws_BoolValue (p : option bool) : bool :=
  match p with Some b => b | None => false end.

(** Modelled from the spec: the constant
    [ErrCodeInvalidVpcPeeringConnectionIDNotFound] is declared in another
    file of the package; its value is the error code the spec names for a
    connection that is already gone. *)
Definition ErrCodeInvalidVpcPeeringConnectionIDNotFound : string :=
  "InvalidVpcPeeringConnectionID.NotFound".

(** ** The EC2 API types *)

Module ec2.
Definition VpcPeeringConnectionStateReasonCodeInitiatingRequest := "initiating-request".
Definition VpcPeeringConnectionStateReasonCodePendingAcceptance := "pending-acceptance".
Definition VpcPeeringConnectionStateReasonCodeActive := "active".
Definition VpcPeeringConnectionStateReasonCodeDeleted := "deleted".
Definition VpcPeeringConnectionStateReasonCodeFailed := "failed".
Definition VpcPeeringConnectionStateReasonCodeProvisioning := "provisioning".
Definition ResourceTypeVpcPeeringConnection := "vpc-peering-connection".

(** Pointer fields are options; only the fields the file reads are kept. *)
Record VpcPeeringConnectionStateReason := {
  Code : option string;
  Message : option string }.

Record VpcPeeringConnectionOptionsDescription := {
  AllowDnsResolutionFromRemoteVpc : option bool;
  AllowEgressFromLocalClassicLinkToRemoteVpc : option bool;
  AllowEgressFromLocalVpcToRemoteClassicLink : option bool }.

Record VpcPeeringConnectionVpcInfo := {
  OwnerId : option string;
  PeeringOptions : option VpcPeeringConnectionOptionsDescription;
  Region : option string;
  VpcId : option string }.

Record Tag := { Key : option string; Value : option string }.

Record VpcPeeringConnection := {
  AccepterVpcInfo : option VpcPeeringConnectionVpcInfo;
  RequesterVpcInfo : option VpcPeeringConnectionVpcInfo;
  Status : option VpcPeeringConnectionStateReason;
  Tags : list Tag;
  VpcPeeringConnectionId : option string }.

Record TagSpecification := {
  ResourceType : option string;
  SpecTags : list Tag }.

Record CreateVpcPeeringConnectionInput := {
  PeerOwnerId : option string;
  PeerRegion : option string;
  PeerVpcId : option string;
  TagSpecifications : list TagSpecification;
  CreateVpcId : option string }.

Record CreateVpcPeeringConnectionOutput := {
  CreatedVpcPeeringConnection : option VpcPeeringConnection }.

Record DescribeVpcPeeringConnectionsInput := {
  VpcPeeringConnectionIds : list (option string) }.

Record DescribeVpcPeeringConnectionsOutput := {
  VpcPeeringConnections : list (option VpcPeeringConnection) }.

Record AcceptVpcPeeringConnectionInput := {
  AcceptVpcPeeringConnectionId : option string }.

Record AcceptVpcPeeringConnectionOutput := {
  AcceptedVpcPeeringConnection : option VpcPeeringConnection }.

Record DeleteVpcPeeringConnectionInput := {
  DeleteVpcPeeringConnectionId : option string }.

Record PeeringConnectionOptionsRequest := {
  ReqAllowDnsResolutionFromRemoteVpc : option bool;
  ReqAllowEgressFromLocalClassicLinkToRemoteVpc : option bool;
  ReqAllowEgressFromLocalVpcToRemoteClassicLink : option bool }.

Record ModifyVpcPeeringConnectionOptionsInput := {
  AccepterPeeringConnectionOptions : option PeeringConnectionOptionsRequest;
  RequesterPeeringConnectionOptions : option PeeringConnectionOptionsRequest;
  ModifyVpcPeeringConnectionId : option string }.
End ec2.

(** ** [schema.ResourceData]

    The resource's schema (lines 36 to 71 of the source) gives every
    attribute a type; a value of the resource data is one of these. *)

Inductive ValueType := TypeString | TypeBool | TypeList | TypeMap.

Inductive Value :=
| VNil
| VString (s : string)
| VBool (b : bool)
| VList (l : list (option (gmap string bool)))
| VMap (m : gmap string string).

#[global] Instance Value_eq_dec : EqDecision Value.
Proof. solve_decision. Defined.

(** The [Schema] map of [ResourceVPCPeeringConnection]: the type of each
    attribute. *)
Definition Schema (key : string) : option ValueType :=
  if String.eqb key "accept_status" then Some TypeString
  else if String.eqb key "accepter" then Some TypeList
  else if String.eqb key "auto_accept" then Some TypeBool
  else if String.eqb key "peer_owner_id" then Some TypeString
  else if String.eqb key "peer_region" then Some TypeString
  else if String.eqb key "peer_vpc_id" then Some TypeString
  else if String.eqb key "requester" then Some TypeList
  else if String.eqb key "tags" then Some TypeMap
  else if String.eqb key "tags_all" then Some TypeMap
  else if String.eqb key "vpc_id" then Some TypeString
  else None.

Definition zero (t : ValueType) : Value :=
  match t with
  | TypeString => VString ""
  | TypeBool => VBool false
  | TypeList => VList []
  | TypeMap => VMap ∅
  end.

Definition is_zero (v : Value) : bool :=
  match v with
  | VNil => true
  | VString s => String.eqb s ""
  | VBool b => negb b
  | VList l => match l with [] => true | _ => false end
  | VMap m => bool_decide (m = ∅)
  end.

(** The attributes of the resource, typed as the schema declares them. *)
Record Attrs := {
  accept_status : string;
  accepter : list (option (gmap string bool));
  auto_accept : bool;
  peer_owner_id : string;
  peer_region : string;
  peer_vpc_id : string;
  requester : list (option (gmap string bool));
  tags : gmap string string;
  tags_all : gmap string string;
  vpc_id : string }.

Definition attr (a : Attrs) (key : string) : Value :=
  if String.eqb key "accept_status" then VString (accept_status a)
  else if String.eqb key "accepter" then VList (accepter a)
  else if String.eqb key "auto_accept" then VBool (auto_accept a)
  else if String.eqb key "peer_owner_id" then VString (peer_owner_id a)
  else if String.eqb key "peer_region" then VString (peer_region a)
  else if String.eqb key "peer_vpc_id" then VString (peer_vpc_id a)
  else if String.eqb key "requester" then VList (requester a)
  else if String.eqb key "tags" then VMap (tags a)
  else if String.eqb key "tags_all" then VMap (tags_all a)
  else if String.eqb key "vpc_id" then VString (vpc_id a)
  else VNil.

(** Writing one attribute; [None] when the key is not in the schema or
    the value is not of the attribute's type. *)
Definition set_attr (a : Attrs) (key : string) (v : Value) : option Attrs :=
  let st := accept_status a in let ac := accepter a in let au := auto_accept a in
  let po := peer_owner_id a in let pr := peer_region a in let pv := peer_vpc_id a in
  let rq := requester a in let tg := tags a in let ta := tags_all a in
  let vi := vpc_id a in
  match v with
  | VString s =>
      if String.eqb key "accept_status" then Some (Build_Attrs s ac au po pr pv rq tg ta vi)
      else if String.eqb key "peer_owner_id" then Some (Build_Attrs st ac au s pr pv rq tg ta vi)
      else if String.eqb key "peer_region" then Some (Build_Attrs st ac au po s pv rq tg ta vi)
      else if String.eqb key "peer_vpc_id" then Some (Build_Attrs st ac au po pr s rq tg ta vi)
      else if String.eqb key "vpc_id" then Some (Build_Attrs st ac au po pr pv rq tg ta s)
      else None
  | VBool b =>
      if String.eqb key "auto_accept" then Some (Build_Attrs st ac b po pr pv rq tg ta vi)
      else None
  | VList l =>
      if String.eqb key "accepter" then Some (Build_Attrs st l au po pr pv rq tg ta vi)
      else if String.eqb key "requester" then Some (Build_Attrs st ac au po pr pv l tg ta vi)
      else None
  | VMap m =>
      if String.eqb key "tags" then Some (Build_Attrs st ac au po pr pv rq m ta vi)
      else if String.eqb key "tags_all" then Some (Build_Attrs st ac au po pr pv rq tg m vi)
      else None
  | VNil => None
  end.

Inductive TimeoutKey := TimeoutCreate | TimeoutUpdate | TimeoutDelete.

(** The resource data a handler receives: the identifier, whether the
    resource is being created, the attributes of the prior state and the
    current ones (the planned values, overwritten by [Set]), and the
    timeouts of the configuration. *)
Record ResourceData := {
  rd_id : string;
  rd_new : bool;
  rd_state : Attrs;
  rd_attrs : Attrs;
  rd_timeouts : TimeoutKey -> option Duration }.

Definition Id (d : ResourceData) : string := rd_id d.
Definition IsNewResource (d : ResourceData) : bool := rd_new d.
Definition Get (d : ResourceData) (key : string) : Value := attr (rd_attrs d) key.

(** [d.GetOk]: the value, and whether it is set to a non-zero value. *)
Definition GetOk (d : ResourceData) (key : string) : Value * bool :=
  let v := Get d key in (v, negb (is_zero v)).

Definition GetChange (d : ResourceData) (key : string) : Value * Value :=
  (attr (rd_state d) key, attr (rd_attrs d) key).

Definition HasChange (d : ResourceData) (key : string) : bool :=
  let '(o, n) := GetChange d key in negb (bool_decide (o = n)).

Definition HasChanges (d : ResourceData) (keys : list string) : bool :=
  existsb (HasChange d) keys.

(** [d.Timeout]: the configured timeout, or the default the resource
    declares (one minute for each operation, lines 30 to 34). *)
Definition Timeout (d : ResourceData) (key : TimeoutKey) : Duration :=
  match rd_timeouts d key with
  | Some t => t
  | None => 1 * time_Minute
  end.

Definition SetId (d : ResourceData) (v : string) : ResourceData :=
  {| rd_id := v; rd_new := rd_new d; rd_state := rd_state d;
     rd_attrs := rd_attrs d; rd_timeouts := rd_timeouts d |}.

(** [vpcPeeringConnectionOptionsSchema] (lines 77 to 101): the
    attributes of the one element of [accepter] and of [requester], three
    booleans that are false by default. *)
Definition vpcPeeringConnectionOptionsSchema : list string :=
  ["allow_classic_link_to_remote_vpc"; "allow_remote_vpc_dns_resolution";
   "allow_vpc_to_remote_classic_link"].

(** Writing one element of such a list: each entry of the map is written
    under its own address, and an entry the nested schema does not have is
    refused ([None]).  The element reads back from what was written: nil
    when nothing was (a nil or an empty map), and else a map with every
    attribute of the nested schema, one that was not written being
    false. *)
Definition write_element (e : option (gmap string bool))
  : option (option (gmap string bool)) :=
  match e with
  | None => Some None
  | Some m =>
      if bool_decide (map_Forall (fun key _ => key ∈ vpcPeeringConnectionOptionsSchema) m)
      then Some (if bool_decide (m = ∅) then None
                 else Some (list_to_map
                              ((fun key => (key, default false (m !! key)))
                                 <$> vpcPeeringConnectionOptionsSchema)))
      else None
  end.

Fixpoint write_elements (l : list (option (gmap string bool)))
  : option (list (option (gmap string bool))) :=
  match l with
  | [] => Some []
  | e :: l =>
      match write_element e, write_elements l with
      | Some e', Some l' => Some (e' :: l')
      | _, _ => None
      end
  end.

(** The value as the resource data holds it once it is written; only
    the lists have a nested schema. *)
Definition write_value (v : Value) : option Value :=
  match v with
  | VList l =>
      match write_elements l with
      | Some l' => Some (VList l')
      | None => None
      end
  | _ => Some v
  end.

(** [d.Set]: a nil value (a nil pointer, or [nil] itself) writes the zero
    value of the attribute; a value of another type than the schema
    declares, or a list element with an entry outside the nested schema,
    is refused with an error and nothing is written. *)
Definition Set_ (d : ResourceData) (key : string) (value : option Value)
  : ResourceData * option error :=
  match Schema key with
  | None => (d, Some (fmt_Errorf "Invalid address to set: %s" [key] None))
  | Some t =>
      let v := match value with Some v => v | None => zero t end in
      match write_value v with
      | Some v' =>
          match set_attr (rd_attrs d) key v' with
          | Some a =>
              ({| rd_id := rd_id d; rd_new := rd_new d; rd_state := rd_state d;
                  rd_attrs := a; rd_timeouts := rd_timeouts d |}, None)
          | None => (d, Some (fmt_Errorf "%s: invalid value type" [key] None))
          end
      | None => (d, Some (fmt_Errorf "%s: invalid address to set" [key] None))
      end
  end.

(** Go's type assertions on the values read back from the resource data;
    [None] is the panic of a failed assertion. *)
Definition as_string (v : Value) : option string :=
  match v with VString s => Some s | _ => None end.
Definition as_list (v : Value) : option (list (option (gmap string bool))) :=
  match v with VList l => Some l | _ => None end.
Definition as_map (v : Value) : option (gmap string string) :=
  match v with VMap m => Some m | _ => None end.

(** ** The provider's client and what lies outside this file *)

(** Modelled from the spec: the tag types of [internal/tags] are declared
    outside this file; tags are a key-value mapping, with a default-tags
    configuration merged over them and an ignore configuration. *)
Definition KeyValueTags := gmap string string.
Record DefaultConfig := { dc_Tags : gmap string string }.
Record IgnoreConfig := { ic_Keys : gmap string string; ic_KeyPrefixes : list string }.

(** [conns.AWSClient], without its EC2 connection (see [Host]). *)
Record AWSClient := {
  AccountID : string;
  DefaultTagsConfig : DefaultConfig;
  IgnoreTagsConfig : IgnoreConfig }.

(** Everything the file calls and does not define, over a remote side of
    type [W]: the operations of the EC2 client [conn], the package's
    helpers of other files ([FindVPCPeeringConnectionByID], [UpdateTags],
    the waiters of the create and delete handlers, the expansion of the
    peering options, the tag helpers, [tfresource.NotFound]), and the
    number of polls that fit in a timeout. *)
Record Host {W : Type} := {
  api_CreateVpcPeeringConnection :
    ec2.CreateVpcPeeringConnectionInput -> W ->
    (option ec2.CreateVpcPeeringConnectionOutput * option error) * W;
  api_DescribeVpcPeeringConnections :
    ec2.DescribeVpcPeeringConnectionsInput -> W ->
    (option ec2.DescribeVpcPeeringConnectionsOutput * option error) * W;
  api_AcceptVpcPeeringConnection :
    ec2.AcceptVpcPeeringConnectionInput -> W ->
    (option ec2.AcceptVpcPeeringConnectionOutput * option error) * W;
  api_ModifyVpcPeeringConnectionOptions :
    ec2.ModifyVpcPeeringConnectionOptionsInput -> W -> option error * W;
  api_DeleteVpcPeeringConnection :
    ec2.DeleteVpcPeeringConnectionInput -> W -> option error * W;
  pkg_FindVPCPeeringConnectionByID :
    string -> W -> (option ec2.VpcPeeringConnection * option error) * W;
  pkg_UpdateTags : string -> Value -> Value -> W -> option error * W;
  pkg_WaitVPCPeeringConnectionActive :
    string -> Duration -> W -> (option ec2.VpcPeeringConnection * option error) * W;
  pkg_WaitVPCPeeringConnectionDeleted :
    string -> Duration -> W -> (option ec2.VpcPeeringConnection * option error) * W;
  expandVPCPeeringConnectionOptions :
    list (option (gmap string bool)) -> bool -> option ec2.PeeringConnectionOptionsRequest;
  ec2TagSpecificationsFromKeyValueTags :
    KeyValueTags -> string -> list ec2.TagSpecification;
  tfresource_NotFound : option error -> bool;
  tftags_New : gmap string string -> KeyValueTags;
  MergeTags : DefaultConfig -> KeyValueTags -> KeyValueTags;
  KeyValueTags_of : list ec2.Tag -> KeyValueTags;
  IgnoreAWS : KeyValueTags -> KeyValueTags;
  IgnoreConfig_ : KeyValueTags -> IgnoreConfig -> KeyValueTags;
  RemoveDefaultConfig : KeyValueTags -> DefaultConfig -> KeyValueTags;
  Map : KeyValueTags -> gmap string string;
  pollBudget : Duration -> nat }.

Arguments Host W : clear implicits.

(** The calls issued through the client, in the order they are made. *)
Inductive Call :=
| Call_CreateVpcPeeringConnection (input : ec2.CreateVpcPeeringConnectionInput)
| Call_DescribeVpcPeeringConnections (input : ec2.DescribeVpcPeeringConnectionsInput)
| Call_AcceptVpcPeeringConnection (input : ec2.AcceptVpcPeeringConnectionInput)
| Call_ModifyVpcPeeringConnectionOptions (input : ec2.ModifyVpcPeeringConnectionOptionsInput)
| Call_DeleteVpcPeeringConnection (input : ec2.DeleteVpcPeeringConnectionInput)
| Call_FindVPCPeeringConnectionByID (id : string)
| Call_UpdateTags (id : string) (o n : Value)
| Call_WaitVPCPeeringConnectionActive (id : string) (timeout : Duration)
| Call_WaitVPCPeeringConnectionDeleted (id : string) (timeout : Duration).

Definition is_Accept (c : Call) : bool :=
  match c with Call_AcceptVpcPeeringConnection _ => true | _ => false end.
Definition is_Modify (c : Call) : bool :=
  match c with Call_ModifyVpcPeeringConnectionOptions _ => true | _ => false end.
Definition is_Create (c : Call) : bool :=
  match c with Call_CreateVpcPeeringConnection _ => true | _ => false end.
Definition is_Describe (c : Call) : bool :=
  match c with Call_DescribeVpcPeeringConnections _ => true | _ => false end.
Definition is_Find (c : Call) : bool :=
  match c with Call_FindVPCPeeringConnectionByID _ => true | _ => false end.
Definition is_UpdateTags (c : Call) : bool :=
  match c with Call_UpdateTags _ _ _ => true | _ => false end.
Definition not_Modify (c : Call) : bool := negb (is_Modify c).

(** ** The monad of the handlers *)

Section Monad.
Context {W : Type}.

(** What a handler runs on: the resource data [d], the remote side and
    the calls made so far. *)
Record St := {
  rd : ResourceData;
  world : W;
  calls : list Call }.

(** A statement either goes on with a value, returns [r] from the
    enclosing function, or panics. *)
Inductive Outcome (R A : Type) :=
| Next (a : A) (s : St)
| Return (r : R) (s : St)
| Panic (s : St).
Global Arguments Next {R A} a s.
Global Arguments Return {R A} r s.
Global Arguments Panic {R A} s.

Definition Body (R A : Type) := St -> Outcome R A.

Definition pure {R A} (a : A) : Body R A := fun s => Next a s.
Definition bind {R A B} (m : Body R A) (k : A -> Body R B) : Body R B :=
  fun s =>
    match m s with
    | Next a s' => k a s'
    | Return r s' => Return r s'
    | Panic s' => Panic s'
    end.
Definition return_ {R A} (r : R) : Body R A := fun s => Return r s.
Definition panic {R A} : Body R A := fun s => Panic s.

(** The result of a function call: its value and the state it leaves,
    or a panic. *)
Inductive Result (A : Type) :=
| Val (a : A) (s : St)
| Panicked (s : St).
Global Arguments Val {A} a s.
Global Arguments Panicked {A} s.

Definition Fn (A : Type) := St -> Result A.

(** A function is its body run to its [return]. *)
Definition func {R} (body : Body R R) : Fn R :=
  fun s =>
    match body s with
    | Next r s' | Return r s' => Val r s'
    | Panic s' => Panicked s'
    end.

(** Calling a function from a body. *)
Definition call {R A} (f : Fn A) : Body R A :=
  fun s =>
    match f s with
    | Val a s' => Next a s'
    | Panicked s' => Panic s'
    end.

Definition final {A} (r : Result A) : St :=
  match r with Val _ s | Panicked s => s end.

(** The resource data. *)
Definition get_d {R} : Body R ResourceData := fun s => Next (rd s) s.
Definition d_SetId {R} (v : string) : Body R unit :=
  fun s => Next tt {| rd := SetId (rd s) v; world := world s; calls := calls s |}.
Definition d_Set {R} (key : string) (value : option Value) : Body R (option error) :=
  fun s =>
    let '(d', err) := Set_ (rd s) key value in
    Next err {| rd := d'; world := world s; calls := calls s |}.

(** A dereference of a pointer and a type assertion: nil, or a value of
    another type, panics. *)
Definition deref {R A} (p : option A) : Body R A :=
  match p with Some a => pure a | None => panic end.

(** A call through the client: it is recorded, and the remote side
    answers and moves on. *)
Definition remote {R A} (c : Call) (op : W -> A * W) : Body R A :=
  fun s =>
    let '(a, w') := op (world s) in
    Next a {| rd := rd s; world := w'; calls := calls s ++ [c] |}.

Definition ostate {R A} (o : Outcome R A) : St :=
  match o with Next _ s | Return _ s | Panic s => s end.

(** The calls a run has added to those made before it. *)
Definition issued (s s' : St) : list Call := drop (length (calls s)) (calls s').

(** From [s] to [s'] only calls of the kind [P] were issued. *)
Definition grows (P : Call -> bool) (s s' : St) : Prop :=
  exists l, calls s' = (calls s ++ l)%list /\ forallb P l = true.

(** A body, or a function, that only issues calls of the kind [P]. *)
Definition traces {R A} (P : Call -> bool) (m : Body R A) : Prop :=
  forall s, exists l, calls (ostate (m s)) = (calls s ++ l)%list /\ forallb P l = true.
Definition traces_fn {A} (P : Call -> bool) (f : Fn A) : Prop :=
  forall s, exists l, calls (final (f s)) = (calls s ++ l)%list /\ forallb P l = true.
End Monad.

Arguments St W : clear implicits.
Arguments Body W R A : clear implicits.
Arguments Fn W A : clear implicits.
Arguments Result W A : clear implicits.
Arguments Outcome W R A : clear implicits.

Declare Scope go_scope.
Delimit Scope go_scope with go.
Notation "'let*' x ':=' c 'in' k" := (bind c (fun x => k))
  (at level 10, x pattern, c at level 200, k at level 200, only parsing) : go_scope.

Local Open Scope go_scope.

(** ** The resource *)

Section Resource.
Context {W : Type} (conn : Host W).

Abbreviation Body := (Body W).
Abbreviation Fn := (Fn W).

(** *** The calls of the file, recorded *)

Definition conn_CreateVpcPeeringConnection {R} (input : ec2.CreateVpcPeeringConnectionInput)
  : Body R (option ec2.CreateVpcPeeringConnectionOutput * option error) :=
  remote (Call_CreateVpcPeeringConnection input) (api_CreateVpcPeeringConnection conn input).

Definition conn_DescribeVpcPeeringConnections {R} (input : ec2.DescribeVpcPeeringConnectionsInput)
  : Body R (option ec2.DescribeVpcPeeringConnectionsOutput * option error) :=
  remote (Call_DescribeVpcPeeringConnections input) (api_DescribeVpcPeeringConnections conn input).

Definition conn_AcceptVpcPeeringConnection {R} (input : ec2.AcceptVpcPeeringConnectionInput)
  : Body R (option ec2.AcceptVpcPeeringConnectionOutput * option error) :=
  remote (Call_AcceptVpcPeeringConnection input) (api_AcceptVpcPeeringConnection conn input).

Definition conn_ModifyVpcPeeringConnectionOptions {R} (input : ec2.ModifyVpcPeeringConnectionOptionsInput)
  : Body R (option error) :=
  remote (Call_ModifyVpcPeeringConnectionOptions input) (api_ModifyVpcPeeringConnectionOptions conn input).

Definition conn_DeleteVpcPeeringConnection {R} (input : ec2.DeleteVpcPeeringConnectionInput)
  : Body R (option error) :=
  remote (Call_DeleteVpcPeeringConnection input) (api_DeleteVpcPeeringConnection conn input).

Definition FindVPCPeeringConnectionByID {R} (id : string)
  : Body R (option ec2.VpcPeeringConnection * option error) :=
  remote (Call_FindVPCPeeringConnectionByID id) (pkg_FindVPCPeeringConnectionByID conn id).

Definition UpdateTags {R} (id : string) (o n : Value) : Body R (option error) :=
  remote (Call_UpdateTags id o n) (pkg_UpdateTags conn id o n).

Definition WaitVPCPeeringConnectionActive {R} (id : string) (timeout : Duration)
  : Body R (option ec2.VpcPeeringConnection * option error) :=
  remote (Call_WaitVPCPeeringConnectionActive id timeout)
         (pkg_WaitVPCPeeringConnectionActive conn id timeout).

Definition WaitVPCPeeringConnectionDeleted {R} (id : string) (timeout : Duration)
  : Body R (option ec2.VpcPeeringConnection * option error) :=
  remote (Call_WaitVPCPeeringConnectionDeleted id timeout)
         (pkg_WaitVPCPeeringConnectionDeleted conn id timeout).

(** *** The status poller (lines 324 to 360) *)

Definition RefreshResult : Type :=
  option ec2.VpcPeeringConnection * string * option error.

Definition vpcPeeringConnectionRefreshState (id : string) : Fn RefreshResult :=
  func (
    let* (resp, err) :=
      conn_DescribeVpcPeeringConnections {| ec2.VpcPeeringConnectionIds := [Some id] |} in
    let* _ :=
      match err with
      | Some _ =>
          if ErrMessageContains err "InvalidVpcPeeringConnectionID.NotFound" ""
          then return_ (None, ec2.VpcPeeringConnectionStateReasonCodeDeleted, None)
          else return_ (None, "", err)
      | None => pure tt
      end in
    let* pc :=
      match resp with
      | None => return_ (None, "", None)
      | Some resp =>
          match ec2.VpcPeeringConnections resp with
          | [] => return_ (None, "", None)
          | None :: _ =>
              (* Sometimes AWS just has consistency issues and doesn't see
                 our peering connection yet. Return an empty state. *)
              return_ (None, "", None)
          | Some pc :: _ => pure pc
          end
      end in
    let* status :=
      match ec2.Status pc with
      | None => return_ (None, "", None)
      | Some status => pure status
      end in
    let statusCode := aws_StringValue (ec2.Code status) in
    (* A VPC Peering Connection can exist in a failed state; short
       circuit before the time out would occur. *)
    if String.eqb statusCode ec2.VpcPeeringConnectionStateReasonCodeFailed
    then return_ (None, statusCode, Some (errors_New (aws_StringValue (ec2.Message status))))
    else return_ (Some pc, statusCode, None)).

(** *** [resource.StateChangeConf] and its [WaitForState]

    The plugin SDK's poller, for the fields this file sets (the others
    keep their defaults: twenty not-found checks, one occurrence of the
    target).  The timeout is the number of polls the host lets through
    before it elapses. *)

Record StateChangeConf := {
  Pending : list string;
  Target : list string;
  Refresh : Fn RefreshResult;
  StateTimeout : Duration }.

Definition NotFoundChecks : nat := 20.

Definition one_of (state : string) (allowed : list string) : bool :=
  existsb (String.eqb state) allowed.

Fixpoint waitLoop (conf : StateChangeConf) (budget notfoundTick : nat) (lastState : string)
  : Fn (option ec2.VpcPeeringConnection * option error) :=
  match budget with
  | O => fun s => Val (None, Some (resource_TimeoutError lastState (Target conf))) s
  | S budget' =>
      func (
        let* (res, currentState, err) := call (Refresh conf) in
        let* _ := match err with
                  | Some _ => return_ (res, err)
                  | None => pure tt
                  end in
        match res with
        | None =>
            match Target conf with
            | [] => return_ (None, None)
            | _ :: _ =>
                let notfoundTick := S notfoundTick in
                if Nat.ltb NotFoundChecks notfoundTick
                then return_ (None, Some (resource_NotFoundError "couldn't find resource"))
                else let* r := call (waitLoop conf budget' notfoundTick currentState) in return_ r
            end
        | Some _ =>
            if one_of currentState (Target conf) then return_ (res, None)
            else if one_of currentState (Pending conf) then
              let* r := call (waitLoop conf budget' O currentState) in return_ r
            else match Pending conf with
                 | _ :: _ =>
                     return_ (res, Some (resource_UnexpectedStateError currentState (Target conf)))
                 | [] => let* r := call (waitLoop conf budget' O currentState) in return_ r
                 end
        end)
  end.

Definition WaitForState (conf : StateChangeConf)
  : Fn (option ec2.VpcPeeringConnection * option error) :=
  waitLoop conf (pollBudget conn (StateTimeout conf)) O "".

(** *** Lines 362 to 381 *)

Definition vpcPeeringConnectionWaitUntilAvailable (id : string) (timeout : Duration)
  : Fn (option error) :=
  func (
    let stateConf :=
      {| Pending := [ec2.VpcPeeringConnectionStateReasonCodeInitiatingRequest;
                     ec2.VpcPeeringConnectionStateReasonCodeProvisioning];
         Target := [ec2.VpcPeeringConnectionStateReasonCodePendingAcceptance;
                    ec2.VpcPeeringConnectionStateReasonCodeActive];
         Refresh := vpcPeeringConnectionRefreshState id;
         StateTimeout := timeout |} in
    let* (_, err) := call (WaitForState stateConf) in
    match err with
    | Some e =>
        return_ (Some (fmt_Errorf
          "Error waiting for VPC Peering Connection (%s) to become available: %s" [id] (Some e)))
    | None => return_ None
    end).

(** *** Lines 296 to 309 *)

Definition resourceVPCPeeringConnectionAccept (id : string) : Fn (string * option error) :=
  func (
    let req := {| ec2.AcceptVpcPeeringConnectionId := Some id |} in
    let* (resp, err) := conn_AcceptVpcPeeringConnection req in
    let* _ := match err with
              | Some _ => return_ ("", err)
              | None => pure tt
              end in
    let* resp := deref resp in
    let* pc := deref (ec2.AcceptedVpcPeeringConnection resp) in
    let* status := deref (ec2.Status pc) in
    return_ (aws_StringValue (ec2.Code status), None)).

(** *** Lines 383 to 403 *)

Definition flattenVpcPeeringConnectionOptionsDescription
    (apiObject : option ec2.VpcPeeringConnectionOptionsDescription)
  : option (gmap string bool) :=
  match apiObject with
  | None => None
  | Some apiObject =>
      let tfMap : gmap string bool := ∅ in
      let tfMap :=
        let v := ec2.AllowDnsResolutionFromRemoteVpc apiObject in
        match v with
        | Some _ => <["allow_remote_vpc_dns_resolution" := aws_BoolValue v]> tfMap
        | None => tfMap
        end in
      let tfMap :=
        let v := ec2.AllowEgressFromLocalClassicLinkToRemoteVpc apiObject in
        match v with
        | Some _ => <["allow_classic_link_to_remote_vpc" := aws_BoolValue v]> tfMap
        | None => tfMap
        end in
      let tfMap :=
        let v := ec2.AllowEgressFromLocalVpcToRemoteClassicLink apiObject in
        match v with
        | Some _ => <["allow_vpc_to_remote_classic_link" := aws_BoolValue v]> tfMap
        | None => tfMap
        end in
      Some tfMap
  end.

(** *** The read handler (lines 142 to 202) *)

Definition set_error (format : string) (err : option error) : Body (option error) unit :=
  match err with
  | Some e => return_ (Some (fmt_Errorf format [] (Some e)))
  | None => pure tt
  end.

Definition resourceVPCPeeringConnectionRead (meta : AWSClient) : Fn (option error) :=
  func (
    let defaultTagsConfig := DefaultTagsConfig meta in
    let ignoreTagsConfig := IgnoreTagsConfig meta in
    let* d := get_d in
    let* (pc, err) := FindVPCPeeringConnectionByID (Id d) in
    let* _ := if negb (IsNewResource d) && tfresource_NotFound conn err
              then let* _ := d_SetId "" in return_ None
              else pure tt in
    let* _ := match err with
              | Some e =>
                  return_ (Some (fmt_Errorf
                    "error reading EC2 VPC Peering Connection (%s): %w" [Id d] (Some e)))
              | None => pure tt
              end in
    let* pc := deref pc in
    let* status := deref (ec2.Status pc) in
    let* _ := d_Set "accept_status" (VString <$> ec2.Code status) in
    let* accepter := deref (ec2.AccepterVpcInfo pc) in
    let* _ := d_Set "peer_region" (VString <$> ec2.Region accepter) in
    let accountID := AccountID meta in
    let* weAreAccepter :=
      if String.eqb accountID (aws_StringValue (ec2.OwnerId accepter))
      then let* requester := deref (ec2.RequesterVpcInfo pc) in
           pure (negb (String.eqb accountID (aws_StringValue (ec2.OwnerId requester))))
      else pure false in
    let* _ :=
      if weAreAccepter then
        (* We're the accepter. *)
        let* requester := deref (ec2.RequesterVpcInfo pc) in
        let* _ := d_Set "peer_owner_id" (VString <$> ec2.OwnerId requester) in
        let* _ := d_Set "peer_vpc_id" (VString <$> ec2.VpcId requester) in
        d_Set "vpc_id" (VString <$> ec2.VpcId accepter)
      else
        (* We're the requester. *)
        let* _ := d_Set "peer_owner_id" (VString <$> ec2.OwnerId accepter) in
        let* _ := d_Set "peer_vpc_id" (VString <$> ec2.VpcId accepter) in
        let* requester := deref (ec2.RequesterVpcInfo pc) in
        d_Set "vpc_id" (VString <$> ec2.VpcId requester) in
    let* _ :=
      match ec2.PeeringOptions accepter with
      | Some _ =>
          let* err := d_Set "accepter"
            (Some (VList [flattenVpcPeeringConnectionOptionsDescription
                            (ec2.PeeringOptions accepter)])) in
          set_error "error setting accepter: %w" err
      | None => let* _ := d_Set "accepter" None in pure tt
      end in
    let* requester := deref (ec2.RequesterVpcInfo pc) in
    let* _ :=
      match ec2.PeeringOptions requester with
      | Some _ =>
          let* err := d_Set "requester"
            (Some (VList [flattenVpcPeeringConnectionOptionsDescription
                            (ec2.PeeringOptions requester)])) in
          set_error "error setting requester: %w" err
      | None => let* _ := d_Set "requester" None in pure tt
      end in
    let tags := IgnoreConfig_ conn (IgnoreAWS conn (KeyValueTags_of conn (ec2.Tags pc)))
                              ignoreTagsConfig in
    let* err := d_Set "tags"
      (Some (VMap (Map conn (RemoveDefaultConfig conn tags defaultTagsConfig)))) in
    let* _ := set_error "error setting tags: %w" err in
    let* err := d_Set "tags_all" (Some (VMap (Map conn tags))) in
    let* _ := set_error "error setting tags_all: %w" err in
    return_ None).

(** *** The update handler (lines 204 to 266), in the order of its
    statements: the tags, the refresh of the status, the acceptance, the
    peering options, the read. *)

(** Lines 207 to 213. *)
Definition update_tags : Body (option error) unit :=
  let* d := get_d in
  if HasChange d "tags_all" && negb (IsNewResource d) then
    let '(o, n) := GetChange d "tags_all" in
    let* err := UpdateTags (Id d) o n in
    match err with
    | Some e =>
        return_ (Some (fmt_Errorf
          "error updating EC2 VPC Peering Connection (%s) tags: %s" [Id d] (Some e)))
    | None => pure tt
    end
  else pure tt.

(** Lines 215 to 224: the connection and its status code. *)
Definition update_refresh : Body (option error) (ec2.VpcPeeringConnection * string) :=
  let* d := get_d in
  let* (pcRaw, statusCode, err) := call (vpcPeeringConnectionRefreshState (Id d)) in
  let* _ := match err with
            | Some e =>
                return_ (Some (fmt_Errorf
                  "Error reading VPC Peering Connection: %s" [] (Some e)))
            | None => pure tt
            end in
  match pcRaw with
  | None => let* _ := d_SetId "" in return_ None
  | Some pc => pure (pc, statusCode)
  end.

(** Lines 226 to 237: the status code after them. *)
Definition update_accept (statusCode : string) : Body (option error) string :=
  let* d := get_d in
  if snd (GetOk d "auto_accept")
     && String.eqb statusCode ec2.VpcPeeringConnectionStateReasonCodePendingAcceptance
  then
    let* (statusCode, err) := call (resourceVPCPeeringConnectionAccept (Id d)) in
    let* _ := match err with
              | Some e =>
                  return_ (Some (fmt_Errorf
                    "Unable to accept VPC Peering Connection: %s" [] (Some e)))
              | None => pure tt
              end in
    let* err := call (vpcPeeringConnectionWaitUntilAvailable (Id d) (Timeout d TimeoutUpdate)) in
    let* _ := match err with
              | Some e =>
                  return_ (Some (fmt_Errorf
                    "Error waiting for VPC Peering Connection to become available: %s" []
                    (Some e)))
              | None => pure tt
              end in
    pure statusCode
  else pure statusCode.

Definition not_active_error (id : string) : error :=
  fmt_Errorf
    ("Unable to modify peering options. The VPC Peering Connection "
     ++ "%q is not active. Please set `auto_accept` attribute to `true`, "
     ++ "or activate VPC Peering Connection manually.") [id] None.

(** Lines 239 to 263. *)
Definition update_options (pc : ec2.VpcPeeringConnection) (statusCode : string)
  : Body (option error) unit :=
  let* d := get_d in
  if HasChanges d ["accepter"; "requester"] then
    if String.eqb statusCode ec2.VpcPeeringConnectionStateReasonCodeActive
       || String.eqb statusCode ec2.VpcPeeringConnectionStateReasonCodeProvisioning
    then
      let* requester := deref (ec2.RequesterVpcInfo pc) in
      let* accepter := deref (ec2.AccepterVpcInfo pc) in
      let crossRegionPeering :=
        negb (String.eqb (aws_StringValue (ec2.Region requester))
                         (aws_StringValue (ec2.Region accepter))) in
      let* accepterOptions :=
        if HasChange d "accepter"
        then let* l := deref (as_list (Get d "accepter")) in
             pure (expandVPCPeeringConnectionOptions conn l crossRegionPeering)
        else pure None in
      let* requesterOptions :=
        if HasChange d "requester"
        then let* l := deref (as_list (Get d "requester")) in
             pure (expandVPCPeeringConnectionOptions conn l crossRegionPeering)
        else pure None in
      let req :=
        {| ec2.AccepterPeeringConnectionOptions := accepterOptions;
           ec2.RequesterPeeringConnectionOptions := requesterOptions;
           ec2.ModifyVpcPeeringConnectionId := Some (Id d) |} in
      let* err := conn_ModifyVpcPeeringConnectionOptions req in
      match err with
      | Some e =>
          return_ (Some (fmt_Errorf
            "error modifying VPC Peering Connection (%s) Options: %s" [Id d] (Some e)))
      | None => pure tt
      end
    else return_ (Some (not_active_error (Id d)))
  else pure tt.

Definition resourceVPCPeeringConnectionUpdate (meta : AWSClient) : Fn (option error) :=
  func (
    let* _ := update_tags in
    let* (pcRaw, statusCode) := update_refresh in
    let* statusCode := update_accept statusCode in
    let* _ := update_options pcRaw statusCode in
    let* r := call (resourceVPCPeeringConnectionRead meta) in
    return_ r).

(** *** The delete handler (lines 268 to 294) *)

Definition resourceVPCPeeringConnectionDelete (meta : AWSClient) : Fn (option error) :=
  func (
    let* d := get_d in
    let* err := conn_DeleteVpcPeeringConnection
                  {| ec2.DeleteVpcPeeringConnectionId := Some (Id d) |} in
    let* _ := if ErrCodeEquals err ErrCodeInvalidVpcPeeringConnectionIDNotFound
              then return_ None else pure tt in
    let* _ := if ErrMessageContains err "InvalidStateTransition" "to deleting"
              then return_ None else pure tt in
    let* _ := match err with
              | Some e =>
                  return_ (Some (fmt_Errorf
                    "error deleting EC2 VPC Peering Connection (%s): %w" [Id d] (Some e)))
              | None => pure tt
              end in
    let* (_, err) := WaitVPCPeeringConnectionDeleted (Id d) (Timeout d TimeoutDelete) in
    let* _ := match err with
              | Some e =>
                  return_ (Some (fmt_Errorf
                    "error waiting for EC2 VPC Peering Connection (%s) delete: %s" [Id d]
                    (Some e)))
              | None => pure tt
              end in
    return_ None).

(** *** The create handler (lines 103 to 140) *)

Definition peer_region_error : error :=
  fmt_Errorf
    "`peer_region` cannot be set whilst `auto_accept` is `true` when creating an EC2 VPC Peering Connection"
    [] None.

Definition resourceVPCPeeringConnectionCreate (meta : AWSClient) : Fn (option error) :=
  func (
    let defaultTagsConfig := DefaultTagsConfig meta in
    let* d := get_d in
    let* tagsMap := deref (as_map (Get d "tags")) in
    let tags := MergeTags conn defaultTagsConfig (tftags_New conn tagsMap) in
    let* peerVpcId := deref (as_string (Get d "peer_vpc_id")) in
    let* vpcId := deref (as_string (Get d "vpc_id")) in
    let tagSpecifications :=
      ec2TagSpecificationsFromKeyValueTags conn tags ec2.ResourceTypeVpcPeeringConnection in
    let* peerOwnerId :=
      let '(v, ok) := GetOk d "peer_owner_id" in
      if ok then let* v := deref (as_string v) in pure (Some v) else pure None in
    let* peerRegion :=
      let '(v, ok) := GetOk d "peer_region" in
      if ok then
        let* _ := if snd (GetOk d "auto_accept")
                  then return_ (Some peer_region_error)
                  else pure tt in
        let* v := deref (as_string v) in pure (Some v)
      else pure None in
    let input :=
      {| ec2.PeerOwnerId := peerOwnerId;
         ec2.PeerRegion := peerRegion;
         ec2.PeerVpcId := Some peerVpcId;
         ec2.TagSpecifications := tagSpecifications;
         ec2.CreateVpcId := Some vpcId |} in
    let* (output, err) := conn_CreateVpcPeeringConnection input in
    let* _ := match err with
              | Some e =>
                  return_ (Some (fmt_Errorf
                    "error creating EC2 VPC Peering Connection: %w" [] (Some e)))
              | None => pure tt
              end in
    let* output := deref output in
    let* pc := deref (ec2.CreatedVpcPeeringConnection output) in
    let* _ := d_SetId (aws_StringValue (ec2.VpcPeeringConnectionId pc)) in
    let* d := get_d in
    let* (_, err) := WaitVPCPeeringConnectionActive (Id d) (Timeout d TimeoutCreate) in
    let* _ := match err with
              | Some e =>
                  return_ (Some (fmt_Errorf
                    "error waiting for EC2 VPC Peering Connection (%s) create: %w" [Id d]
                    (Some e)))
              | None => pure tt
              end in
    let* r := call (resourceVPCPeeringConnectionUpdate meta) in
    return_ r).

(** *** Vocabulary of the statements *)

(** The state a call through the client leaves. *)
Definition after (s : St W) (w' : W) (c : Call) : St W :=
  {| rd := rd s; world := w'; calls := calls s ++ [c] |}.

Definition describe_input (id : string) : ec2.DescribeVpcPeeringConnectionsInput :=
  {| ec2.VpcPeeringConnectionIds := [Some id] |}.

(** The wait of the update handler: its pending and target statuses. *)
Definition available_conf (id : string) (timeout : Duration) : StateChangeConf :=
  {| Pending := ["initiating-request"; "provisioning"];
     Target := ["pending-acceptance"; "active"];
     Refresh := vpcPeeringConnectionRefreshState id;
     StateTimeout := timeout |}.

(** The condition of line 226. *)
Definition accepting (d : ResourceData) (statusCode : string) : bool :=
  snd (GetOk d "auto_accept") && String.eqb statusCode "pending-acceptance".

(** A function that always returns, leaves the resource data alone and
    only calls [DescribeVpcPeeringConnections]. *)
Definition polls {A} (f : Fn A) : Prop :=
  forall s, exists r s',
    f s = Val r s' /\ rd s' = rd s
    /\ exists l, calls s' = (calls s ++ l)%list /\ forallb is_Describe l = true.

(** The answers the poller takes for a connection that is not visible
    yet: a nil response, no connection, a nil first connection, or a
    first connection with a nil [Status]. *)
Definition not_visible_yet (resp : option ec2.DescribeVpcPeeringConnectionsOutput) : Prop :=
  resp = None
  ∨ (∃ r, resp = Some r ∧ ec2.VpcPeeringConnections r = [])
  ∨ (∃ r rest, resp = Some r ∧ ec2.VpcPeeringConnections r = None :: rest)
  ∨ (∃ r pc rest, resp = Some r ∧ ec2.VpcPeeringConnections r = Some pc :: rest
                  ∧ ec2.Status pc = None).

End Resource.

Arguments StateChangeConf W : clear implicits.

(** * A simulated remote side

    One connection, or none, behind the client: enough to run the
    handlers on concrete inputs. *)

Module Sim.
Definition World := option ec2.VpcPeeringConnection.

Definition info (owner vpc region : string) : ec2.VpcPeeringConnectionVpcInfo :=
  {| ec2.OwnerId := Some owner; ec2.PeeringOptions := None;
     ec2.Region := Some region; ec2.VpcId := Some vpc |}.

(** The connection [pcx-1] between two accounts, in a given status. *)
Definition pcx (code message : string) : ec2.VpcPeeringConnection :=
  {| ec2.AccepterVpcInfo := Some (info "222222222222" "vpc-b" "eu-west-1");
     ec2.RequesterVpcInfo := Some (info "111111111111" "vpc-a" "eu-west-1");
     ec2.Status := Some {| ec2.Code := Some code; ec2.Message := Some message |};
     ec2.Tags := [];
     ec2.VpcPeeringConnectionId := Some "pcx-1" |}.

Definition not_found : error :=
  awserr_New "InvalidVpcPeeringConnectionID.NotFound"
             "The vpcPeeringConnection ID 'pcx-1' does not exist".

Definition invalid_transition : error :=
  awserr_New "InvalidStateTransition"
    "Invalid state transition for pcx-1, attempted to transition from failed to deleting".

Definition describe (w : World)
  : (option ec2.DescribeVpcPeeringConnectionsOutput * option error) * World :=
  match w with
  | Some pc => ((Some {| ec2.VpcPeeringConnections := [Some pc] |}, None), w)
  | None => ((None, Some not_found), w)
  end.

(** Accepting moves a connection pending acceptance to [active]. *)
Definition accept (w : World)
  : (option ec2.AcceptVpcPeeringConnectionOutput * option error) * World :=
  match w with
  | Some _ =>
      let pc := pcx "active" "Active" in
      ((Some {| ec2.AcceptedVpcPeeringConnection := Some pc |}, None), Some pc)
  | None => ((None, Some not_found), w)
  end.

(** Deleting a failed connection is refused, a missing one not found. *)
Definition delete (w : World) : option error * World :=
  match w with
  | Some pc =>
      match ec2.Status pc with
      | Some st =>
          if String.eqb (aws_StringValue (ec2.Code st)) "failed"
          then (Some invalid_transition, w)
          else if String.eqb (aws_StringValue (ec2.Code st)) "rejected"
          then (Some (awserr_New "OperationNotPermitted" "not allowed"), w)
          else (None, None)
      | None => (None, None)
      end
  | None => (Some not_found, w)
  end.

Definition find (w : World) : (option ec2.VpcPeeringConnection * option error) * World :=
  match w with
  | Some pc => ((Some pc, None), w)
  | None => ((None, Some (resource_NotFoundError "not found")), w)
  end.

Definition is_not_found (err : option error) : bool :=
  match err with
  | Some (resource_NotFoundError _) => true
  | _ => false
  end.

Definition host : Host World :=
  {| api_CreateVpcPeeringConnection := fun _ _ =>
       let pc := pcx "pending-acceptance" "Pending Acceptance" in
       ((Some {| ec2.CreatedVpcPeeringConnection := Some pc |}, None), Some pc);
     api_DescribeVpcPeeringConnections := fun _ => describe;
     api_AcceptVpcPeeringConnection := fun _ => accept;
     api_ModifyVpcPeeringConnectionOptions := fun _ w => (None, w);
     api_DeleteVpcPeeringConnection := fun _ => delete;
     pkg_FindVPCPeeringConnectionByID := fun _ => find;
     pkg_UpdateTags := fun _ _ _ w => (None, w);
     pkg_WaitVPCPeeringConnectionActive := fun _ _ w => ((w, None), w);
     pkg_WaitVPCPeeringConnectionDeleted := fun _ _ w => ((None, None), w);
     expandVPCPeeringConnectionOptions := fun _ _ => None;
     ec2TagSpecificationsFromKeyValueTags := fun _ _ => [];
     tfresource_NotFound := is_not_found;
     tftags_New := fun m => m;
     MergeTags := fun _ m => m;
     KeyValueTags_of := fun _ => ∅;
     IgnoreAWS := fun m => m;
     IgnoreConfig_ := fun m _ => m;
     RemoveDefaultConfig := fun m _ => m;
     Map := fun m => m;
     pollBudget := fun _ => 3%nat |}.

Definition meta : AWSClient :=
  {| AccountID := "111111111111";
     DefaultTagsConfig := {| dc_Tags := ∅ |};
     IgnoreTagsConfig := {| ic_Keys := ∅; ic_KeyPrefixes := [] |} |}.

(** The client of the account on the accepter's side. *)
Definition accepter_meta : AWSClient :=
  {| AccountID := "222222222222";
     DefaultTagsConfig := {| dc_Tags := ∅ |};
     IgnoreTagsConfig := {| ic_Keys := ∅; ic_KeyPrefixes := [] |} |}.

(** The attributes of a configuration: the two VPCs, the peer's region
    when it is set, and [auto_accept]. *)
Definition attrs (region : string) (auto : bool) (opts : list (option (gmap string bool)))
  : Attrs :=
  {| accept_status := ""; accepter := opts; auto_accept := auto;
     peer_owner_id := ""; peer_region := region; peer_vpc_id := "vpc-b";
     requester := []; tags := ∅; tags_all := ∅; vpc_id := "vpc-a" |}.

Definition data (id : string) (prior planned : Attrs) : ResourceData :=
  {| rd_id := id; rd_new := false; rd_state := prior; rd_attrs := planned;
     rd_timeouts := fun _ => None |}.

Definition start (d : ResourceData) (w : World) : St World :=
  {| rd := d; world := w; calls := [] |}.

(** The inputs the handlers are run on. *)

Definition plain : Attrs := attrs "" false [].

Definition idle : ResourceData := data "pcx-1" plain plain.

Definition failed_pcx := pcx "failed" "Failed due to incorrect VPC-ID".

(** A connection the remote side does not show the status of yet. *)
Definition blank_pcx : ec2.VpcPeeringConnection :=
  {| ec2.AccepterVpcInfo := None; ec2.RequesterVpcInfo := None;
     ec2.Status := None; ec2.Tags := [];
     ec2.VpcPeeringConnectionId := Some "pcx-1" |}.

Definition cross_region : ResourceData :=
  data "" (attrs "" false []) (attrs "eu-west-1" true []).

Definition pending_pcx := pcx "pending-acceptance" "Pending Acceptance".

(** A resource with [auto_accept], nothing to change. *)
Definition auto : ResourceData :=
  data "pcx-1" (attrs "" true []) (attrs "" true []).

Definition options : list (option (gmap string bool)) := [Some ∅].

(** A resource whose accepter options change, without [auto_accept]. *)
Definition changed : ResourceData :=
  data "pcx-1" (attrs "" false []) (attrs "" false options).

Definition active_pcx := pcx "active" "Active".

(** A resource about to be created, with [auto_accept]. *)
Definition fresh : ResourceData :=
  {| rd_id := ""; rd_new := true; rd_state := attrs "" false [];
     rd_attrs := attrs "" true []; rd_timeouts := fun _ => None |}.
End Sim.

(** * Vocabulary for the behaviour of the handlers beyond the statements above *)

Section Cases.
Context {W : Type} (conn : Host W).

(** A successful answer of [DescribeVpcPeeringConnections] whose first
    connection is [pc], with the status [status]. *)
Definition shows (resp : option ec2.DescribeVpcPeeringConnectionsOutput)
    (pc : ec2.VpcPeeringConnection) (status : ec2.VpcPeeringConnectionStateReason) : Prop :=
  exists r rest,
    resp = Some r /\ ec2.VpcPeeringConnections r = Some pc :: rest
    /\ ec2.Status pc = Some status.

Definition code_of (status : ec2.VpcPeeringConnectionStateReason) : string :=
  aws_StringValue (ec2.Code status).

(** The error [vpcPeeringConnectionWaitUntilAvailable] returns for a
    wait that failed with [e]. *)
Definition wait_error (id : string) (e : error) : error :=
  fmt_Errorf "Error waiting for VPC Peering Connection (%s) to become available: %s"
             [id] (Some e).

(** The statuses a wait for availability stops at without an error. *)
Definition available_targets : list string := ["pending-acceptance"; "active"].

(** The kinds of calls of the update handler. *)
Definition update_call (c : Call) : bool :=
  is_UpdateTags c || is_Describe c || is_Accept c || is_Modify c || is_Find c.

Definition not_UpdateTags (c : Call) : bool := negb (is_UpdateTags c).

(** The update handler after its tag step (lines 215 to 265). *)
Definition update_rest (meta : AWSClient) : Body W (option error) (option error) :=
  bind (update_refresh conn)
    (fun x => let '(pcRaw, statusCode) := x in
       bind (update_accept conn statusCode)
         (fun statusCode =>
            bind (update_options conn pcRaw statusCode)
              (fun _ => bind (call (resourceVPCPeeringConnectionRead conn meta))
                          (fun r => return_ r)))).

(** What a handler leaves of the resource data it was given: whether
    the resource is new, the prior state, the timeouts and the
    [auto_accept] of the configuration are kept, and the identifier is
    kept or cleared. *)
Definition keeps_config (s s' : St W) : Prop :=
  rd_new (rd s') = rd_new (rd s)
  /\ rd_state (rd s') = rd_state (rd s)
  /\ rd_timeouts (rd s') = rd_timeouts (rd s)
  /\ auto_accept (rd_attrs (rd s')) = auto_accept (rd_attrs (rd s))
  /\ (rd_id (rd s') = rd_id (rd s) \/ rd_id (rd s') = "").

Definition steps {R A} (m : Body W R A) : Prop :=
  forall s, keeps_config s (ostate (m s)).
Definition steps_fn {A} (f : Fn W A) : Prop :=
  forall s, keeps_config s (final (f s)).

(** The request of the create handler (lines 108 to 124), for a
    configuration that passes the check of [peer_region] against
    [auto_accept]. *)
Definition create_input (meta : AWSClient) (d : ResourceData)
  : ec2.CreateVpcPeeringConnectionInput :=
  let a := rd_attrs d in
  {| ec2.PeerOwnerId :=
       if snd (GetOk d "peer_owner_id") then Some (peer_owner_id a) else None;
     ec2.PeerRegion :=
       if snd (GetOk d "peer_region") then Some (peer_region a) else None;
     ec2.PeerVpcId := Some (peer_vpc_id a);
     ec2.TagSpecifications :=
       ec2TagSpecificationsFromKeyValueTags conn
         (MergeTags conn (DefaultTagsConfig meta) (tftags_New conn (tags a)))
         ec2.ResourceTypeVpcPeeringConnection;
     ec2.CreateVpcId := Some (vpc_id a) |}.

(** The request of the update handler (lines 242 to 252), for a
    connection between the regions of [requester] and [accepter]. *)
Definition modify_request (d : ResourceData)
    (requesterInfo accepterInfo : ec2.VpcPeeringConnectionVpcInfo)
  : ec2.ModifyVpcPeeringConnectionOptionsInput :=
  let crossRegionPeering :=
    negb (String.eqb (aws_StringValue (ec2.Region requesterInfo))
                     (aws_StringValue (ec2.Region accepterInfo))) in
  {| ec2.AccepterPeeringConnectionOptions :=
       if HasChange d "accepter"
       then expandVPCPeeringConnectionOptions conn (accepter (rd_attrs d)) crossRegionPeering
       else None;
     ec2.RequesterPeeringConnectionOptions :=
       if HasChange d "requester"
       then expandVPCPeeringConnectionOptions conn (requester (rd_attrs d)) crossRegionPeering
       else None;
     ec2.ModifyVpcPeeringConnectionId := Some (Id d) |}.

(** What the resource data holds of the peering options a side reports:
    nil when the side reports none of the three, and else a map with
    the three attributes, an option that is not reported being false. *)
Definition stored_element (o : ec2.VpcPeeringConnectionOptionsDescription)
  : option (gmap string bool) :=
  match ec2.AllowDnsResolutionFromRemoteVpc o,
        ec2.AllowEgressFromLocalClassicLinkToRemoteVpc o,
        ec2.AllowEgressFromLocalVpcToRemoteClassicLink o with
  | None, None, None => None
  | dns, classic, vpc =>
      Some (list_to_map
              [("allow_classic_link_to_remote_vpc", aws_BoolValue classic);
               ("allow_remote_vpc_dns_resolution", aws_BoolValue dns);
               ("allow_vpc_to_remote_classic_link", aws_BoolValue vpc)])
  end.

(** The list the read handler leaves in [accepter] or [requester] for
    one side: one element, or none when the side has no peering
    options. *)
Definition stored_options (side : ec2.VpcPeeringConnectionVpcInfo)
  : list (option (gmap string bool)) :=
  match ec2.PeeringOptions side with
  | Some o => [stored_element o]
  | None => []
  end.

(** The test of line 162: the caller owns the accepter's side and not
    the requester's. *)
Definition we_are_accepter (meta : AWSClient)
    (accepterInfo requesterInfo : ec2.VpcPeeringConnectionVpcInfo) : bool :=
  String.eqb (AccountID meta) (aws_StringValue (ec2.OwnerId accepterInfo))
  && negb (String.eqb (AccountID meta) (aws_StringValue (ec2.OwnerId requesterInfo))).

(** The attributes after a read that found the connection [pc] with the
    status [status] and its two sides: all are written from the
    connection, but [auto_accept], which is kept. *)
Definition read_attrs (meta : AWSClient) (pc : ec2.VpcPeeringConnection)
    (status : ec2.VpcPeeringConnectionStateReason)
    (accepterInfo requesterInfo : ec2.VpcPeeringConnectionVpcInfo) (a : Attrs) : Attrs :=
  let weAreAccepter := we_are_accepter meta accepterInfo requesterInfo in
  let peer := if weAreAccepter then requesterInfo else accepterInfo in
  let own := if weAreAccepter then accepterInfo else requesterInfo in
  let tags := IgnoreConfig_ conn (IgnoreAWS conn (KeyValueTags_of conn (ec2.Tags pc)))
                            (IgnoreTagsConfig meta) in
  {| accept_status := aws_StringValue (ec2.Code status);
     accepter := stored_options accepterInfo;
     auto_accept := auto_accept a;
     peer_owner_id := aws_StringValue (ec2.OwnerId peer);
     peer_region := aws_StringValue (ec2.Region accepterInfo);
     peer_vpc_id := aws_StringValue (ec2.VpcId peer);
     requester := stored_options requesterInfo;
     tags := Map conn (RemoveDefaultConfig conn tags (DefaultTagsConfig meta));
     tags_all := Map conn tags;
     vpc_id := aws_StringValue (ec2.VpcId own) |}.

Definition with_attrs (d : ResourceData) (a : Attrs) : ResourceData :=
  {| rd_id := rd_id d; rd_new := rd_new d; rd_state := rd_state d;
     rd_attrs := a; rd_timeouts := rd_timeouts d |}.
End Cases.

(** * Remote sides that fail

    The simulated remote side with some of its operations replaced, to
    run the handlers into their error paths. *)

Module Faulty.
Import Sim.

Definition throttled : error :=
  awserr_New "RequestLimitExceeded" "Request limit exceeded.".

Definition denied : error :=
  awserr_New "UnauthorizedOperation" "You are not authorized to perform this operation.".

Definition timed_out : error :=
  resource_TimeoutError "provisioning" ["active"; "pending-acceptance"].

(** The simulated remote side, with the given create, describe, accept,
    tag and wait operations. *)
Definition remote_side
    (create : World → (option ec2.CreateVpcPeeringConnectionOutput * option error) * World)
    (describe : World
                → (option ec2.DescribeVpcPeeringConnectionsOutput * option error) * World)
    (accept : World → (option ec2.AcceptVpcPeeringConnectionOutput * option error) * World)
    (update_tags : World → option error * World)
    (wait_active : World → (option ec2.VpcPeeringConnection * option error) * World)
  : Host World :=
  {| api_CreateVpcPeeringConnection := fun _ => create;
     api_DescribeVpcPeeringConnections := fun _ => describe;
     api_AcceptVpcPeeringConnection := fun _ => accept;
     api_ModifyVpcPeeringConnectionOptions := fun _ w => (None, w);
     api_DeleteVpcPeeringConnection := fun _ => delete;
     pkg_FindVPCPeeringConnectionByID := fun _ => find;
     pkg_UpdateTags := fun _ _ _ => update_tags;
     pkg_WaitVPCPeeringConnectionActive := fun _ _ => wait_active;
     pkg_WaitVPCPeeringConnectionDeleted := fun _ _ w => ((None, None), w);
     expandVPCPeeringConnectionOptions := fun _ _ => None;
     ec2TagSpecificationsFromKeyValueTags := fun _ _ => [];
     tfresource_NotFound := is_not_found;
     tftags_New := fun m => m;
     MergeTags := fun _ m => m;
     KeyValueTags_of := fun _ => ∅;
     IgnoreAWS := fun m => m;
     IgnoreConfig_ := fun m _ => m;
     RemoveDefaultConfig := fun m _ => m;
     Map := fun m => m;
     pollBudget := fun _ => 3%nat |}.

Definition created (w : World)
  : (option ec2.CreateVpcPeeringConnectionOutput * option error) * World :=
  ((Some {| ec2.CreatedVpcPeeringConnection := Some pending_pcx |}, None),
   Some pending_pcx).

Definition waited (w : World) : (option ec2.VpcPeeringConnection * option error) * World :=
  ((w, None), w).

Definition tagged (w : World) : option error * World := (None, w).

(** A remote side that cannot be asked for the connections. *)
Definition unreachable : Host World :=
  remote_side created (fun w => ((None, Some throttled), w)) accept tagged waited.

(** A remote side that shows the connection but lets the caller
    neither create, accept nor tag. *)
Definition read_only : Host World :=
  remote_side (fun w => ((None, Some denied), w)) describe
              (fun w => ((None, Some denied), w)) (fun w => (Some denied, w)) waited.

(** A remote side where accepting leaves the connection pending, and
    a created connection does not get active in time. *)
Definition stuck : Host World :=
  remote_side created describe
    (fun w => ((Some {| ec2.AcceptedVpcPeeringConnection := Some pending_pcx |}, None), w))
    tagged (fun w => ((None, Some timed_out), w)).

Definition rejected_pcx := pcx "rejected" "Rejected by 222222222222".

Definition provisioning_pcx := pcx "provisioning" "Provisioning".

(** An active connection whose accepter allows the DNS resolution and
    reports nothing else, and whose requester reports no option. *)
Definition resolving_pcx : ec2.VpcPeeringConnection :=
  {| ec2.AccepterVpcInfo :=
       Some {| ec2.OwnerId := Some "222222222222";
               ec2.PeeringOptions :=
                 Some {| ec2.AllowDnsResolutionFromRemoteVpc := Some true;
                         ec2.AllowEgressFromLocalClassicLinkToRemoteVpc := None;
                         ec2.AllowEgressFromLocalVpcToRemoteClassicLink := None |};
               ec2.Region := Some "eu-west-1"; ec2.VpcId := Some "vpc-b" |};
     ec2.RequesterVpcInfo :=
       Some {| ec2.OwnerId := Some "111111111111";
               ec2.PeeringOptions :=
                 Some {| ec2.AllowDnsResolutionFromRemoteVpc := None;
                         ec2.AllowEgressFromLocalClassicLinkToRemoteVpc := None;
                         ec2.AllowEgressFromLocalVpcToRemoteClassicLink := None |};
               ec2.Region := Some "eu-west-1"; ec2.VpcId := Some "vpc-a" |};
     ec2.Status := Some {| ec2.Code := Some "active"; ec2.Message := Some "Active" |};
     ec2.Tags := [];
     ec2.VpcPeeringConnectionId := Some "pcx-1" |}.

(** A resource whose tags change. *)
Definition retagged : ResourceData :=
  data "pcx-1" plain
    {| accept_status := ""; accepter := []; auto_accept := false;
       peer_owner_id := ""; peer_region := ""; peer_vpc_id := "vpc-b";
       requester := []; tags := {["Name" := "peer"]}; tags_all := {["Name" := "peer"]};
       vpc_id := "vpc-a" |}.


(** A resource about to be created, without [auto_accept]. *)
Definition unborn : ResourceData :=
  {| rd_id := ""; rd_new := true; rd_state := plain; rd_attrs := plain;
     rd_timeouts := fun _ => None |}.
End Faulty.

(** * Properties *)

Local Open Scope list_scope.

Section Properties.
Context {W : Type} (conn : Host W).

Abbreviation Body := (Body W).
Abbreviation Fn := (Fn W).

(** ** The record of calls *)

Section Traces.
Context {R : Type} (P : Call → bool).

Lemma traces_pure {A} (a : A) : traces P (pure a : Body R A).
Proof. intros s. exists []. simpl. by rewrite app_nil_r. Qed.

Lemma traces_return {A} (r : R) : traces P (return_ r : Body R A).
Proof. intros s. exists []. simpl. by rewrite app_nil_r. Qed.

Lemma traces_panic {A} : traces P (panic : Body R A).
Proof. intros s. exists []. simpl. by rewrite app_nil_r. Qed.

Lemma traces_get_d : traces P (get_d : Body R ResourceData).
Proof. intros s. exists []. simpl. by rewrite app_nil_r. Qed.

Lemma traces_d_SetId (v : string) : traces P (d_SetId v : Body R unit).
Proof. intros s. exists []. simpl. by rewrite app_nil_r. Qed.

Lemma traces_d_Set (key : string) (v : option Value) :
  traces P (d_Set key v : Body R (option error)).
Proof.
  intros s. exists []. unfold d_Set. destruct (Set_ _ _ _). simpl.
  by rewrite app_nil_r.
Qed.

Lemma traces_deref {A} (p : option A) : traces P (deref p : Body R A).
Proof. destruct p; [apply traces_pure | apply traces_panic]. Qed.

Lemma traces_remote {A} (c : Call) (op : W → A * W) :
  P c = true → traces P (remote c op : Body R A).
Proof.
  intros Hc s. exists [c]. unfold remote. destruct (op _). simpl.
  by rewrite Hc.
Qed.

Lemma traces_bind {A B} (m : Body R A) (k : A → Body R B) :
  traces P m → (∀ a, traces P (k a)) → traces P (bind m k).
Proof.
  intros Hm Hk s. unfold bind. destruct (Hm s) as (l & Hl & HP).
  destruct (m s) as [a s'|r s'|s']; simpl in *; [|by eauto..].
  destruct (Hk a s') as (l' & Hl' & HP').
  exists (l ++ l'). rewrite Hl', Hl, forallb_app, HP, HP'.
  by rewrite app_assoc.
Qed.

Lemma traces_call {A} (f : Fn A) : traces_fn P f → traces P (call f : Body R A).
Proof.
  intros Hf s. unfold call. destruct (Hf s) as (l & Hl & HP).
  destruct (f s); simpl in *; eauto.
Qed.

Lemma traces_func (body : Body R R) : traces P body → traces_fn P (func body).
Proof.
  intros Hb s. unfold func. destruct (Hb s) as (l & Hl & HP).
  destruct (body s); simpl in *; eauto.
Qed.
End Traces.

Lemma traces_weaken {R A} (P Q : Call → bool) (m : Body R A) :
  (∀ c, P c = true → Q c = true) → traces P m → traces Q m.
Proof.
  intros HPQ Hm s. destruct (Hm s) as (l & Hl & HP). exists l. split; [done|].
  rewrite forallb_forall in *. auto.
Qed.

Lemma traces_fn_weaken {A} (P Q : Call → bool) (f : Fn A) :
  (∀ c, P c = true → Q c = true) → traces_fn P f → traces_fn Q f.
Proof.
  intros HPQ Hf s. destruct (Hf s) as (l & Hl & HP). exists l. split; [done|].
  rewrite forallb_forall in *. auto.
Qed.

(** Splits a goal [traces P m] along the statements of [m]. *)
Ltac traces_step :=
  first
    [ match goal with
      | |- traces _ (bind _ _) => apply traces_bind; [|intros]
      | |- traces _ (pure _) => apply traces_pure
      | |- traces _ (return_ _) => apply traces_return
      | |- traces _ panic => apply traces_panic
      | |- traces _ get_d => apply traces_get_d
      | |- traces _ (d_SetId _) => apply traces_d_SetId
      | |- traces _ (d_Set _ _) => apply traces_d_Set
      | |- traces _ (deref _) => apply traces_deref
      | |- traces _ (remote _ _) => apply traces_remote; reflexivity
      | |- traces _ (call _) => apply traces_call
      | |- traces_fn _ (func _) => apply traces_func
      | |- traces _ (match ?x with _ => _ end) => destruct x
      | |- traces _ (if ?b then _ else _) => destruct b
      end ].
Ltac traces_auto := repeat traces_step.

(** ** The status poller *)

Lemma strings_Contains_empty (s : string) : strings_Contains s "" = true.
Proof. destruct s; reflexivity. Qed.

(** The poller is one call of [DescribeVpcPeeringConnections], whatever
    the answer. *)
Lemma refresh_state (id : string) (s : St W) :
  ∃ r, vpcPeeringConnectionRefreshState conn id s
       = Val r (after s (api_DescribeVpcPeeringConnections conn (describe_input id) (world s)).2
                      (Call_DescribeVpcPeeringConnections (describe_input id))).
Proof.
  unfold vpcPeeringConnectionRefreshState, func, bind, conn_DescribeVpcPeeringConnections,
    remote, after, describe_input.
  destruct (api_DescribeVpcPeeringConnections _ _ _) as [[resp err] w']; simpl.
  destruct err as [e|]; simpl.
  - destruct (ErrMessageContains _ _ _); eauto.
  - destruct resp as [resp|]; simpl; eauto.
    destruct (ec2.VpcPeeringConnections resp) as [|[pc|] rest]; simpl; eauto.
    destruct (ec2.Status pc) as [status|]; simpl; eauto.
    destruct (String.eqb _ _); eauto.
Qed.

Lemma ErrMessageContains_empty (err : option error) (code : string) :
  ErrMessageContains err code "" = ErrCodeEquals err code.
Proof.
  unfold ErrMessageContains, ErrCodeEquals.
  destruct err as [e|]; [|reflexivity].
  destruct (as_awserr e) as [[c m]|]; [|reflexivity].
  rewrite strings_Contains_empty. apply andb_true_r.
Qed.

Ltac run_refresh H :=
  unfold vpcPeeringConnectionRefreshState, func, bind,
    conn_DescribeVpcPeeringConnections, remote, after;
  fold (describe_input);
  change {| ec2.VpcPeeringConnectionIds := [Some ?i] |} with (describe_input i);
  rewrite H; cbn [fst snd].

(** C4.  When [DescribeVpcPeeringConnections] fails with an error whose
    AWS code is [InvalidVpcPeeringConnectionID.NotFound], the status
    poller returns a nil object, the status [deleted] and no error. *)
Theorem refresh_state_not_found_is_deleted
    (id : string) (s : St W)
    (resp : option ec2.DescribeVpcPeeringConnectionsOutput) (e : error) (w' : W) :
  api_DescribeVpcPeeringConnections conn (describe_input id) (world s)
    = ((resp, Some e), w') →
  ErrCodeEquals (Some e) "InvalidVpcPeeringConnectionID.NotFound" = true →
  vpcPeeringConnectionRefreshState conn id s
    = Val (None, "deleted", None)
          (after s w' (Call_DescribeVpcPeeringConnections (describe_input id))).
Proof.
  intros Hdescribe Hcode. run_refresh Hdescribe.
  rewrite ErrMessageContains_empty, Hcode. reflexivity.
Qed.

(** C5.  When the first connection of a successful answer reports the
    status code [failed], the status poller returns a nil object, the
    status code [failed], and an error whose text is the connection's
    [Status.Message]. *)
Theorem refresh_state_failed_is_error
    (id : string) (s : St W)
    (resp : ec2.DescribeVpcPeeringConnectionsOutput)
    (pc : ec2.VpcPeeringConnection) (rest : list (option ec2.VpcPeeringConnection))
    (status : ec2.VpcPeeringConnectionStateReason) (w' : W) :
  api_DescribeVpcPeeringConnections conn (describe_input id) (world s)
    = ((Some resp, None), w') →
  ec2.VpcPeeringConnections resp = Some pc :: rest →
  ec2.Status pc = Some status →
  ec2.Code status = Some "failed" →
  vpcPeeringConnectionRefreshState conn id s
    = Val (None, "failed", Some (errors_New (aws_StringValue (ec2.Message status))))
          (after s w' (Call_DescribeVpcPeeringConnections (describe_input id))).
Proof.
  intros Hdescribe Hconns Hstatus Hcode. run_refresh Hdescribe.
  unfold pure. rewrite Hconns, Hstatus, Hcode. reflexivity.
Qed.

(** C6.  When [DescribeVpcPeeringConnections] succeeds and the response
    is nil, holds no connection, holds a nil first connection, or a
    first connection with a nil [Status], the status poller returns a
    nil object, the empty status and no error. *)
Theorem refresh_state_not_visible_is_empty
    (id : string) (s : St W)
    (resp : option ec2.DescribeVpcPeeringConnectionsOutput) (w' : W) :
  api_DescribeVpcPeeringConnections conn (describe_input id) (world s)
    = ((resp, None), w') →
  not_visible_yet resp →
  vpcPeeringConnectionRefreshState conn id s
    = Val (None, "", None)
          (after s w' (Call_DescribeVpcPeeringConnections (describe_input id))).
Proof.
  intros Hdescribe Hresp. run_refresh Hdescribe.
  destruct Hresp as [-> | [(r & -> & Hr) | [(r & rest & -> & Hr) | (r & pc & rest & -> & Hr & Hst)]]];
    unfold pure, return_; try rewrite Hr; try rewrite Hst; reflexivity.
Qed.

Lemma refresh_state_polls (id : string) : polls (vpcPeeringConnectionRefreshState conn id).
Proof.
  intros s. destruct (refresh_state id s) as (r & Hr).
  eexists _, _. split; [exact Hr|]. split; [reflexivity|].
  eexists [_]. split; reflexivity.
Qed.

(** A status the poller reports along with a connection is that
    connection's own. *)
Lemma refresh_state_some (id : string) (s s' : St W) pc code err :
  vpcPeeringConnectionRefreshState conn id s = Val (Some pc, code, err) s' →
  err = None ∧ ∃ status, ec2.Status pc = Some status
                         ∧ code = aws_StringValue (ec2.Code status).
Proof.
  unfold vpcPeeringConnectionRefreshState, func, bind, conn_DescribeVpcPeeringConnections,
    remote.
  destruct (api_DescribeVpcPeeringConnections _ _ _) as [[resp e] w']; cbn [fst snd].
  destruct e as [e|].
  - destruct (ErrMessageContains _ _ _); discriminate.
  - destruct resp as [resp|]; [|discriminate]. unfold pure, return_.
    destruct (ec2.VpcPeeringConnections resp) as [|[pc'|] rest]; try discriminate.
    destruct (ec2.Status pc') as [status|] eqn:Hst; [|discriminate].
    destruct (String.eqb _ _); [discriminate|].
    intros [= -> <- <-]. eauto.
Qed.

(** ** The waiter *)

Lemma waitLoop_polls (conf : StateChangeConf W) :
  polls (Refresh conf) →
  ∀ budget notfoundTick lastState, polls (waitLoop conf budget notfoundTick lastState).
Proof.
  intros Hrefresh budget.
  induction budget as [|budget IH]; intros tick lastState s.
  - simpl. eexists _, s. split; [reflexivity|]. split; [reflexivity|].
    exists []. by rewrite app_nil_r.
  - destruct (Hrefresh s) as ([[res state] err] & s1 & Hs1 & Hrd & l & Hl & HP).
    assert (Hhere : ∀ r, ∃ r' s',
               Val (A := option ec2.VpcPeeringConnection * option error) r s1 = Val r' s'
               ∧ rd s' = rd s
               ∧ ∃ l, calls s' = calls s ++ l ∧ forallb is_Describe l = true)
      by (intros r; eexists _, _; eauto).
    assert (Hagain : ∀ tick' last', ∃ r' s',
               func (bind (call (waitLoop conf budget tick' last')) (λ r, return_ r)) s1
                 = Val r' s'
               ∧ rd s' = rd s
               ∧ ∃ l, calls s' = calls s ++ l ∧ forallb is_Describe l = true).
    { intros tick' last'.
      destruct (IH tick' last' s1) as (r' & s' & Hs' & Hrd' & l' & Hl' & HP').
      exists r', s'. unfold func, bind, call. rewrite Hs'. split; [reflexivity|].
      split; [congruence|]. exists (l ++ l').
      rewrite Hl', Hl, forallb_app, HP, HP'. by rewrite app_assoc. }
    cbn [waitLoop]. unfold func at 1. unfold bind at 1 2. unfold call at 1.
    rewrite Hs1. destruct err as [e|]; [apply Hhere|]. unfold pure.
    destruct res as [pc|].
    + destruct (one_of state (Target conf)); [apply Hhere|].
      destruct (one_of state (Pending conf)); [apply Hagain|].
      destruct (Pending conf); [apply Hagain | apply Hhere].
    + destruct (Target conf); [apply Hhere|].
      destruct (Nat.ltb _ _); [apply Hhere | apply Hagain].
Qed.

Lemma WaitForState_polls (conf : StateChangeConf W) :
  polls (Refresh conf) → polls (WaitForState conn conf).
Proof. intros H. apply waitLoop_polls, H. Qed.

(** A wait for a non-empty set of targets that succeeds has seen a
    connection in one of them. *)
Lemma waitLoop_target (conf : StateChangeConf W) :
  (∀ s pc code err s', Refresh conf s = Val (Some pc, code, err) s' →
     ∃ status, ec2.Status pc = Some status ∧ code = aws_StringValue (ec2.Code status)) →
  Target conf ≠ [] →
  ∀ budget notfoundTick lastState s obj s',
    waitLoop conf budget notfoundTick lastState s = Val (obj, None) s' →
    ∃ pc status, obj = Some pc ∧ ec2.Status pc = Some status
                 ∧ one_of (aws_StringValue (ec2.Code status)) (Target conf) = true.
Proof.
  intros Hsound Htarget budget.
  induction budget as [|budget IH]; intros tick lastState s obj s'.
  - simpl. discriminate.
  - assert (Hagain : ∀ tick' last' s1,
               func (bind (call (waitLoop conf budget tick' last')) (λ r, return_ r)) s1
                 = Val (obj, None) s' →
               ∃ pc status, obj = Some pc ∧ ec2.Status pc = Some status
                 ∧ one_of (aws_StringValue (ec2.Code status)) (Target conf) = true).
    { intros tick' last' s1. unfold func, bind, call.
      destruct (waitLoop conf budget tick' last' s1) as [r s2|s2] eqn:Hloop;
        [|discriminate].
      unfold return_. intros [= -> ->]. eapply IH, Hloop. }
    cbn [waitLoop]. unfold func at 1. unfold bind at 1 2. unfold call at 1.
    destruct (Refresh conf s) as [[[res state] err] s1|s1] eqn:Hrefresh; [|discriminate].
    destruct err as [e|]; [discriminate|]. unfold pure.
    destruct res as [pc|].
    + destruct (Hsound _ _ _ _ _ Hrefresh) as (status & Hstatus & ->).
      destruct (one_of _ (Target conf)) eqn:Hone.
      { intros [= <- <-]. eauto. }
      destruct (one_of _ (Pending conf)); [apply Hagain|].
      destruct (Pending conf); [apply Hagain | discriminate].
    + destruct (Target conf); [done|].
      destruct (Nat.ltb _ _); [discriminate | apply Hagain].
Qed.

(** ** The create handler *)

Lemma issued_app (s s' : St W) (l : list Call) :
  calls s' = calls s ++ l → issued s s' = l.
Proof. intros H. unfold issued. rewrite H. apply drop_app_length. Qed.

(** C9.  When both [peer_region] and [auto_accept] are set to non-zero
    values, the create handler returns the error that [peer_region]
    cannot be set whilst [auto_accept] is true, and leaves the state as
    it found it: no call is made, [CreateVpcPeeringConnection]
    included. *)
Theorem create_refuses_peer_region_with_auto_accept (meta : AWSClient) (s : St W) :
  snd (GetOk (rd s) "peer_region") = true →
  snd (GetOk (rd s) "auto_accept") = true →
  let r := resourceVPCPeeringConnectionCreate conn meta s in
  r = Val (Some (fmt_Errorf
             "`peer_region` cannot be set whilst `auto_accept` is `true` when creating an EC2 VPC Peering Connection"
             [] None)) s
  ∧ existsb is_Create (issued s (final r)) = false.
Proof.
  intros Hregion Hauto r.
  assert (Hr : r = Val (Some peer_region_error) s).
  { subst r. unfold resourceVPCPeeringConnectionCreate, func, bind, get_d.
    cbn [Get attr String.eqb Ascii.eqb Bool.eqb as_map as_string deref pure].
    unfold GetOk in *. cbn [Get attr String.eqb Ascii.eqb Bool.eqb fst snd] in *.
    destruct (negb (is_zero (VString (peer_owner_id (rd_attrs (rd s)))))).
    - cbn [as_string deref pure]. rewrite Hregion, Hauto. reflexivity.
    - cbn [pure]. rewrite Hregion, Hauto. reflexivity. }
  split; [exact Hr|]. rewrite Hr. simpl.
  rewrite (issued_app s s []); [reflexivity | by rewrite app_nil_r].
Qed.

(** ** The delete handler *)

(** C3.  The delete handler returns nil when [DeleteVpcPeeringConnection]
    fails with the code [InvalidVpcPeeringConnectionID.NotFound], or
    with the code [InvalidStateTransition] and a message that contains
    [to deleting]; any other error is returned wrapped; and after a
    delete call without error the handler calls the waiter for the
    deleted state and returns what the wait gives, its error or nil. *)
Theorem delete_tolerates_gone_then_waits
    (meta : AWSClient) (s : St W) (err : option error) (w' : W) :
  let id := Id (rd s) in
  let input := {| ec2.DeleteVpcPeeringConnectionId := Some id |} in
  let s1 := after s w' (Call_DeleteVpcPeeringConnection input) in
  let r := resourceVPCPeeringConnectionDelete conn meta s in
  api_DeleteVpcPeeringConnection conn input (world s) = (err, w') →
  (ErrCodeEquals err "InvalidVpcPeeringConnectionID.NotFound" = true → r = Val None s1)
  ∧ (ErrMessageContains err "InvalidStateTransition" "to deleting" = true → r = Val None s1)
  ∧ (∀ e, err = Some e →
       ErrCodeEquals err "InvalidVpcPeeringConnectionID.NotFound" = false →
       ErrMessageContains err "InvalidStateTransition" "to deleting" = false →
       let wrapped := fmt_Errorf "error deleting EC2 VPC Peering Connection (%s): %w"
                                 [id] (Some e) in
       r = Val (Some wrapped) s1 ∧ errors_Unwrap wrapped = Some e)
  ∧ (err = None →
       ∀ out werr w'',
         pkg_WaitVPCPeeringConnectionDeleted conn id (Timeout (rd s) TimeoutDelete) w'
           = ((out, werr), w'') →
         r = Val match werr with
                 | Some e =>
                     Some (fmt_Errorf
                       "error waiting for EC2 VPC Peering Connection (%s) delete: %s"
                       [id] (Some e))
                 | None => None
                 end
                 (after s1 w'' (Call_WaitVPCPeeringConnectionDeleted
                                  id (Timeout (rd s) TimeoutDelete)))).
Proof.
  intros id input s1 r Hdelete. subst r.
  unfold resourceVPCPeeringConnectionDelete, func, bind, get_d,
    conn_DeleteVpcPeeringConnection, WaitVPCPeeringConnectionDeleted, remote.
  fold id. fold input. rewrite Hdelete.
  change ErrCodeInvalidVpcPeeringConnectionIDNotFound
    with "InvalidVpcPeeringConnectionID.NotFound".
  split; [|split; [|split]].
  - intros ->. reflexivity.
  - intros ->. destruct (ErrCodeEquals _ _); reflexivity.
  - intros e -> -> ->. split; reflexivity.
  - intros -> out werr w'' Hwait. cbn [rd world calls pure].
    unfold ErrCodeEquals, ErrMessageContains. cbn [rd world calls pure].
    fold id. rewrite Hwait. destruct werr; reflexivity.
Qed.

(** ** The update handler *)

Lemma update_tags_next (s s1 : St W) :
  update_tags conn s = Next tt s1 →
  rd s1 = rd s ∧ world s1 = world s ∧ calls s1 = calls s
  ∨ ∃ o n w', s1 = after s w' (Call_UpdateTags (Id (rd s)) o n).
Proof.
  unfold update_tags, bind, get_d, UpdateTags, remote.
  destruct (_ && _).
  - destruct (GetChange _ _) as [o n].
    destruct (pkg_UpdateTags _ _ _ _ _) as [[e|] w']; [discriminate|].
    intros [= <-]. right. eauto.
  - intros [= <-]. auto.
Qed.

Lemma update_tags_issued (s s1 : St W) :
  update_tags conn s = Next tt s1 →
  rd s1 = rd s ∧ ∃ l, calls s1 = calls s ++ l ∧ forallb is_UpdateTags l = true.
Proof.
  intros [(Hrd & _ & Hcalls) | (o & n & w' & ->)]%update_tags_next.
  - split; [done|]. exists []. by rewrite app_nil_r.
  - split; [done|]. eexists [_]. split; reflexivity.
Qed.

Lemma polls_traces {A} (f : Fn A) : polls f → traces_fn is_Describe f.
Proof.
  intros Hf s. destruct (Hf s) as (r & s' & -> & _ & l & Hl & HP). simpl. eauto.
Qed.

Lemma wait_until_available_polls (id : string) (timeout : Duration) :
  polls (vpcPeeringConnectionWaitUntilAvailable conn id timeout).
Proof.
  intros s. unfold vpcPeeringConnectionWaitUntilAvailable, func, bind, call.
  match goal with
  | |- context [WaitForState conn ?c s] => change c with (available_conf conn id timeout)
  end.
  destruct (WaitForState_polls (available_conf conn id timeout)
              (refresh_state_polls id) s) as ([obj err] & s' & Hw & Hrest).
  rewrite Hw.
  destruct err; eexists _, s'; (split; [reflexivity | exact Hrest]).
Qed.

Lemma accept_traces (id : string) :
  traces_fn is_Accept (resourceVPCPeeringConnectionAccept conn id).
Proof.
  unfold resourceVPCPeeringConnectionAccept, conn_AcceptVpcPeeringConnection.
  traces_auto.
Qed.

Lemma read_traces (meta : AWSClient) :
  traces_fn is_Find (resourceVPCPeeringConnectionRead conn meta).
Proof.
  unfold resourceVPCPeeringConnectionRead, FindVPCPeeringConnectionByID, set_error.
  traces_auto.
Qed.

Lemma update_options_traces pc (statusCode : string) :
  traces is_Modify (update_options conn pc statusCode).
Proof.
  unfold update_options, conn_ModifyVpcPeeringConnectionOptions. traces_auto.
Qed.

Lemma update_accept_traces (statusCode : string) :
  traces (λ c, is_Accept c || is_Describe c) (update_accept conn statusCode).
Proof.
  unfold update_accept. traces_auto.
  - eapply traces_fn_weaken, accept_traces. by intros c ->.
  - eapply traces_fn_weaken, polls_traces, wait_until_available_polls.
    intros c ->. apply orb_true_r.
Qed.

(** What the handler does once the status is known and a connection is
    there: lines 226 to 265. *)
Lemma update_tail_traces (meta : AWSClient) pc (statusCode : string) (P : Call → bool) :
  (∀ c, is_Modify c || is_Find c = true → P c = true) →
  traces P (bind (update_options conn pc statusCode)
              (λ _, bind (call (resourceVPCPeeringConnectionRead conn meta))
                      (λ r, return_ r : Body (option error) (option error)))).
Proof.
  intros HP. traces_auto.
  - eapply traces_weaken, update_options_traces. intros c Hc. apply HP. by rewrite Hc.
  - eapply traces_fn_weaken, read_traces. intros c Hc. apply HP. rewrite Hc.
    apply orb_true_r.
Qed.

Lemma bind_assoc {R A B C} (m : Body R A) (k1 : A → Body R B) (k2 : B → Body R C) s :
  bind (bind m k1) k2 s = bind m (λ a, bind (k1 a) k2) s.
Proof. unfold bind. destruct (m s); reflexivity. Qed.

Lemma no_such_call (Q P : Call → bool) (l : list Call) :
  (∀ c, P c = true → Q c = false) → forallb P l = true → existsb Q l = false.
Proof.
  intros HPQ. induction l as [|c l IH]; simpl; [done|].
  intros [Hc Hl]%andb_true_iff. by rewrite (HPQ c Hc), IH.
Qed.

Lemma refresh_state_after (id : string) (s s' : St W) r :
  vpcPeeringConnectionRefreshState conn id s = Val r s' →
  ∃ w', s' = after s w' (Call_DescribeVpcPeeringConnections (describe_input id)).
Proof.
  intros H. destruct (refresh_state id s) as (r' & Hr'). rewrite Hr' in H.
  injection H as _ <-. eauto.
Qed.

Lemma refresh_state_pending (id : string) (s s' : St W) pcRaw err :
  vpcPeeringConnectionRefreshState conn id s
    = Val (pcRaw, "pending-acceptance", err) s' →
  err = None ∧ ∃ pc, pcRaw = Some pc.
Proof.
  destruct pcRaw as [pc|].
  - intros [-> _]%refresh_state_some. eauto.
  - unfold vpcPeeringConnectionRefreshState, func, bind, conn_DescribeVpcPeeringConnections,
      remote.
    destruct (api_DescribeVpcPeeringConnections _ _ _) as [[resp e] w']; cbn [fst snd].
    destruct e as [e|].
    + destruct (ErrMessageContains _ _ _); discriminate.
    + destruct resp as [resp|]; [|discriminate]. unfold pure, return_.
      destruct (ec2.VpcPeeringConnections resp) as [|[pc'|] rest]; try discriminate.
      destruct (ec2.Status pc') as [status|]; [|discriminate].
      destruct (String.eqb _ _) eqn:Hfailed; [|discriminate].
      apply String.eqb_eq in Hfailed. rewrite Hfailed. discriminate.
Qed.

Lemma accept_state (id : string) (s : St W) :
  ∃ w', final (resourceVPCPeeringConnectionAccept conn id s)
        = after s w' (Call_AcceptVpcPeeringConnection
                        {| ec2.AcceptVpcPeeringConnectionId := Some id |}).
Proof.
  unfold resourceVPCPeeringConnectionAccept, func, bind, conn_AcceptVpcPeeringConnection,
    remote, after.
  destruct (api_AcceptVpcPeeringConnection _ _ _) as [[resp err] w']. exists w'.
  destruct err; [reflexivity|]. unfold pure, deref.
  destruct resp as [resp|]; [|reflexivity]. unfold pure.
  destruct (ec2.AcceptedVpcPeeringConnection resp) as [pc|]; [|reflexivity].
  destruct (ec2.Status pc); reflexivity.
Qed.

Lemma update_refresh_eq (s : St W) :
  update_refresh conn s
  = match vpcPeeringConnectionRefreshState conn (Id (rd s)) s with
    | Val (_, _, Some e) s' =>
        Return (Some (fmt_Errorf "Error reading VPC Peering Connection: %s" [] (Some e))) s'
    | Val (None, _, None) s' =>
        Return None {| rd := SetId (rd s') ""; world := world s'; calls := calls s' |}
    | Val (Some pc, statusCode, None) s' => Next (pc, statusCode) s'
    | Panicked s' => Panic s'
    end.
Proof.
  unfold update_refresh, bind, get_d, call.
  destruct (vpcPeeringConnectionRefreshState _ _ _) as [[[[pc|] code] [e|]] s'|s'];
    reflexivity.
Qed.

Lemma update_accept_eq (statusCode : string) (s : St W) :
  update_accept conn statusCode s
  = if accepting (rd s) statusCode then
      match resourceVPCPeeringConnectionAccept conn (Id (rd s)) s with
      | Val (_, Some e) s' =>
          Return (Some (fmt_Errorf "Unable to accept VPC Peering Connection: %s" []
                                   (Some e))) s'
      | Val (statusCode', None) s' =>
          match vpcPeeringConnectionWaitUntilAvailable
                  conn (Id (rd s)) (Timeout (rd s) TimeoutUpdate) s' with
          | Val (Some e) s'' =>
              Return (Some (fmt_Errorf
                "Error waiting for VPC Peering Connection to become available: %s" []
                (Some e))) s''
          | Val None s'' => Next statusCode' s''
          | Panicked s'' => Panic s''
          end
      | Panicked s' => Panic s'
      end
    else Next statusCode s.
Proof.
  unfold update_accept, accepting, bind, get_d, call.
  change ec2.VpcPeeringConnectionStateReasonCodePendingAcceptance with "pending-acceptance".
  destruct (_ && _); [|reflexivity].
  destruct (resourceVPCPeeringConnectionAccept _ _ _) as [[code [e|]] s'|s'];
    try reflexivity.
  unfold pure.
  destruct (vpcPeeringConnectionWaitUntilAvailable _ _ _ _) as [[e|] s''|s''];
    reflexivity.
Qed.

Lemma wait_until_available_eq (id : string) (timeout : Duration) (s : St W) :
  vpcPeeringConnectionWaitUntilAvailable conn id timeout s
  = match WaitForState conn (available_conf conn id timeout) s with
    | Val (_, Some e) s' =>
        Val (Some (fmt_Errorf
               "Error waiting for VPC Peering Connection (%s) to become available: %s"
               [id] (Some e))) s'
    | Val (_, None) s' => Val None s'
    | Panicked s' => Panicked s'
    end.
Proof.
  unfold vpcPeeringConnectionWaitUntilAvailable, func, bind, call.
  match goal with
  | |- context [WaitForState conn ?c s] => change c with (available_conf conn id timeout)
  end.
  destruct (WaitForState _ _ _) as [[obj [e|]] s'|s']; reflexivity.
Qed.

Lemma bind_Next {R A B} (m : Body R A) (k : A → Body R B) s a s' :
  m s = Next a s' → bind m k s = k a s'.
Proof. unfold bind. by intros ->. Qed.

Lemma bind_Return {R A B} (m : Body R A) (k : A → Body R B) s r s' :
  m s = Return r s' → bind m k s = Return r s'.
Proof. unfold bind. by intros ->. Qed.

Lemma bind_Panic {R A B} (m : Body R A) (k : A → Body R B) s s' :
  m s = Panic s' → bind m k s = Panic s'.
Proof. unfold bind. by intros ->. Qed.

(** The handler from line 226 on, once the connection [pc] and its
    status code are known. *)
Lemma update_from_accept (meta : AWSClient) (s s1 s2 : St W) pc (statusCode : string) :
  update_tags conn s = Next tt s1 →
  update_refresh conn s1 = Next (pc, statusCode) s2 →
  resourceVPCPeeringConnectionUpdate conn meta s
  = func (bind (update_accept conn statusCode)
            (λ statusCode',
               bind (update_options conn pc statusCode')
                 (λ _, bind (call (resourceVPCPeeringConnectionRead conn meta))
                         (λ r, return_ r)))) s2.
Proof.
  intros Htags Hrefresh. unfold resourceVPCPeeringConnectionUpdate, func.
  by rewrite (bind_Next _ _ _ _ _ Htags), (bind_Next _ _ _ _ _ Hrefresh).
Qed.

(** A failure of the tag update ends the handler before the status is
    refreshed: only [UpdateTags] has been called. *)
Lemma update_tags_failure (meta : AWSClient) (s s1 : St W) (e : option error) :
  update_tags conn s = Return e s1 →
  resourceVPCPeeringConnectionUpdate conn meta s = Val e s1
  ∧ ∃ o n, issued s s1 = [Call_UpdateTags (Id (rd s)) o n].
Proof.
  intros Htags. split.
  - unfold resourceVPCPeeringConnectionUpdate, func.
    by rewrite (bind_Return _ _ _ _ _ Htags).
  - revert Htags. unfold update_tags, bind, get_d, UpdateTags, remote.
    destruct (_ && _); [|discriminate].
    destruct (GetChange _ _) as [o n].
    destruct (pkg_UpdateTags _ _ _ _ _) as [[e'|] w']; [|discriminate].
    intros [= _ <-]. exists o, n. by apply issued_app.
Qed.

(** C10.  When the status refresh of the update handler returns a nil
    connection and no error, the handler clears the identifier and
    returns nil; since the handler started it has called neither
    [AcceptVpcPeeringConnection] nor [ModifyVpcPeeringConnectionOptions]
    nor the finder the read handler starts with. *)
Theorem update_clears_id_when_gone
    (meta : AWSClient) (s s1 s2 : St W) (statusCode : string) :
  update_tags conn s = Next tt s1 →
  vpcPeeringConnectionRefreshState conn (Id (rd s)) s1 = Val (None, statusCode, None) s2 →
  let s' := {| rd := SetId (rd s) ""; world := world s2; calls := calls s2 |} in
  resourceVPCPeeringConnectionUpdate conn meta s = Val None s'
  ∧ Id (rd s') = ""
  ∧ existsb is_Accept (issued s s') = false
  ∧ existsb is_Modify (issued s s') = false
  ∧ existsb is_Find (issued s s') = false.
Proof.
  intros Htags Hrefresh s'.
  destruct (update_tags_issued _ _ Htags) as (Hrd & l & Hl & HP).
  rewrite <- Hrd in Hrefresh.
  destruct (refresh_state_after _ _ _ _ Hrefresh) as (w' & Hs2).
  assert (Hs' : calls s' = calls s ++ (l ++ [Call_DescribeVpcPeeringConnections
                                               (describe_input (Id (rd s1)))])).
  { subst s' s2. simpl. by rewrite Hl, app_assoc. }
  split.
  - unfold resourceVPCPeeringConnectionUpdate, func.
    rewrite (bind_Next _ _ _ _ _ Htags).
    erewrite bind_Return; [|rewrite update_refresh_eq, Hrefresh; reflexivity].
    subst s' s2. simpl. by rewrite Hrd.
  - split; [reflexivity|].
    rewrite (issued_app _ _ _ Hs'), !existsb_app. simpl.
    rewrite !(no_such_call _ is_UpdateTags l) by (done || by intros []).
    done.
Qed.

Lemma one_of_available (code : string) :
  one_of code ["pending-acceptance"; "active"] = true →
  code = "pending-acceptance" ∨ code = "active".
Proof.
  unfold one_of. simpl. rewrite orb_false_r.
  intros [H|H]%orb_true_iff; apply String.eqb_eq in H; auto.
Qed.

Lemma accepting_iff (d : ResourceData) (statusCode : string) :
  accepting d statusCode = true
  ↔ snd (GetOk d "auto_accept") = true ∧ statusCode = "pending-acceptance".
Proof. unfold accepting. by rewrite andb_true_iff, String.eqb_eq. Qed.

(** The calls of the handler once it has decided to accept: the
    acceptance comes first. *)
Lemma update_accept_calls (meta : AWSClient) (s : St W) pc (statusCode : string) :
  accepting (rd s) statusCode = true →
  ∃ l c, is_Accept c = true
    ∧ calls (final (func (bind (update_accept conn statusCode)
              (λ statusCode',
                 bind (update_options conn pc statusCode')
                   (λ _, bind (call (resourceVPCPeeringConnectionRead conn meta))
                           (λ r, return_ r)))) s))
      = calls s ++ c :: l.
Proof.
  intros Hacc.
  destruct (accept_state (Id (rd s)) s) as (w' & Hfinal).
  set (tail := λ statusCode' : string,
         bind (update_options conn pc statusCode')
           (λ _, bind (call (resourceVPCPeeringConnectionRead conn meta))
                   (λ r, return_ r : Body (option error) (option error)))).
  assert (Htail : ∀ code s', ∃ l, calls (ostate (tail code s')) = calls s' ++ l).
  { intros code s'.
    destruct (update_tail_traces meta pc code (λ _, true) (λ _ _, eq_refl) s')
      as (l & Hl & _). eauto. }
  set (c := Call_AcceptVpcPeeringConnection
              {| ec2.AcceptVpcPeeringConnectionId := Some (Id (rd s)) |}) in *.
  unfold func, bind at 1. rewrite update_accept_eq, Hacc.
  destruct (resourceVPCPeeringConnectionAccept conn (Id (rd s)) s)
    as [[code [e|]] s1|s1]; simpl in Hfinal; subst s1.
  - by exists [], c.
  - destruct (wait_until_available_polls (Id (rd s)) (Timeout (rd s) TimeoutUpdate)
                (after s w' c)) as (r & s2 & -> & _ & l & Hl & _).
    destruct r as [e|].
    + exists l, c. split; [reflexivity|]. simpl. rewrite Hl. simpl.
      by rewrite <- app_assoc.
    + destruct (Htail code s2) as (l' & Hl').
      exists (l ++ l'), c. split; [reflexivity|].
      destruct (tail code s2); simpl in *; rewrite Hl', Hl; simpl;
        by rewrite <- !app_assoc.
  - by exists [], c.
Qed.

(** C1.  Once the tags are dealt with and the status refreshed, the
    update handler calls [AcceptVpcPeeringConnection] if and only if
    [auto_accept] is set and the refreshed status code is
    [pending-acceptance].  An acceptance that fails returns its error.
    After one that succeeds the handler waits, with the pending statuses
    [initiating-request] and [provisioning], for one of the targets
    [pending-acceptance] and [active]: a wait that fails is returned as
    an error, one that succeeds has seen the connection in one of the
    two targets. *)
Theorem update_accepts_iff_pending_acceptance
    (meta : AWSClient) (s s1 s2 : St W)
    (pcRaw : option ec2.VpcPeeringConnection) (statusCode : string) (err : option error) :
  update_tags conn s = Next tt s1 →
  vpcPeeringConnectionRefreshState conn (Id (rd s)) s1 = Val (pcRaw, statusCode, err) s2 →
  let d := rd s in
  let r := resourceVPCPeeringConnectionUpdate conn meta s in
  (existsb is_Accept (issued s (final r)) = true
     ↔ snd (GetOk d "auto_accept") = true ∧ statusCode = "pending-acceptance")
  ∧ (snd (GetOk d "auto_accept") = true → statusCode = "pending-acceptance" →
     ∀ newStatus aerr s3,
       resourceVPCPeeringConnectionAccept conn (Id d) s2 = Val (newStatus, aerr) s3 →
       match aerr with
       | Some e =>
           r = Val (Some (fmt_Errorf "Unable to accept VPC Peering Connection: %s" []
                                     (Some e))) s3
       | None =>
           ∃ obj werr s4,
             WaitForState conn (available_conf conn (Id d) (Timeout d TimeoutUpdate)) s3
               = Val (obj, werr) s4
             ∧ match werr with
               | Some e =>
                   r = Val (Some (fmt_Errorf
                          "Error waiting for VPC Peering Connection to become available: %s"
                          []
                          (Some (fmt_Errorf
                             "Error waiting for VPC Peering Connection (%s) to become available: %s"
                             [Id d] (Some e))))) s4
               | None =>
                   ∃ pc status,
                     obj = Some pc ∧ ec2.Status pc = Some status
                     ∧ (aws_StringValue (ec2.Code status) = "pending-acceptance"
                        ∨ aws_StringValue (ec2.Code status) = "active")
               end
       end).
Proof.
  intros Htags Hrefresh d r.
  destruct (update_tags_issued _ _ Htags) as (Hrd & l1 & Hl1 & HP1).
  rewrite <- Hrd in Hrefresh.
  destruct (refresh_state_after _ _ _ _ Hrefresh) as (w' & Hs2).
  assert (Hrd2 : rd s2 = d) by (subst s2; exact Hrd).
  assert (Hcalls2 : calls s2 = calls s ++ (l1 ++ [Call_DescribeVpcPeeringConnections
                                                     (describe_input (Id (rd s1)))])).
  { subst s2. simpl. by rewrite Hl1, app_assoc. }
  assert (Hquiet : existsb is_Accept (l1 ++ [Call_DescribeVpcPeeringConnections
                                             (describe_input (Id (rd s1)))]) = false).
  { rewrite existsb_app. simpl.
    by rewrite (no_such_call _ is_UpdateTags l1) by (done || by intros []). }
  assert (Hearly : ∀ v s', calls s' = calls s2 →
            resourceVPCPeeringConnectionUpdate conn meta s = Val v s' →
            ¬ (snd (GetOk d "auto_accept") = true ∧ statusCode = "pending-acceptance") →
            existsb is_Accept (issued s (final r)) = true
            ↔ snd (GetOk d "auto_accept") = true ∧ statusCode = "pending-acceptance").
  { intros v s' Hs' Hr Hno. subst r. rewrite Hr. simpl.
    rewrite Hcalls2 in Hs'. rewrite (issued_app _ _ _ Hs'), Hquiet.
    split; [discriminate | done]. }
  split.
  - destruct err as [e|]; [|destruct pcRaw as [pc|]].
    + eapply Hearly; [reflexivity| |].
      * unfold resourceVPCPeeringConnectionUpdate, func.
        rewrite (bind_Next _ _ _ _ _ Htags).
        erewrite bind_Return; [reflexivity|].
        rewrite update_refresh_eq, Hrefresh. destruct pcRaw; reflexivity.
      * intros [_ ->]. by destruct (refresh_state_pending _ _ _ _ _ Hrefresh).
    + assert (Hnext : update_refresh conn s1 = Next (pc, statusCode) s2)
        by (rewrite update_refresh_eq, Hrefresh; reflexivity).
      subst r. rewrite (update_from_accept meta _ _ _ _ _ Htags Hnext).
      rewrite <- accepting_iff. fold d. rewrite <- Hrd2.
      destruct (accepting (rd s2) statusCode) eqn:Hacc.
      * destruct (update_accept_calls meta s2 pc statusCode Hacc) as (l & c & Hc & Hl).
        rewrite Hcalls2, <- app_assoc in Hl.
        rewrite (issued_app _ _ _ Hl), !existsb_app. simpl. rewrite Hc.
        by rewrite !orb_true_r.
      * unfold func. rewrite bind_Next with (a := statusCode) (s' := s2)
          by (rewrite update_accept_eq, Hacc; reflexivity).
        destruct (update_tail_traces meta pc statusCode (λ c, is_Modify c || is_Find c)
                    (λ _ H, H) s2) as (l & Hl & HP).
        assert (Hfin : calls (final
                   match bind (update_options conn pc statusCode)
                           (λ _, bind (call (resourceVPCPeeringConnectionRead conn meta))
                                   (λ r, return_ r)) s2 with
                   | Next r0 s' | Return r0 s' => Val r0 s'
                   | Panic s' => Panicked s'
                   end) = calls s ++ ((l1 ++ [Call_DescribeVpcPeeringConnections
                                                (describe_input (Id (rd s1)))]) ++ l)).
        { rewrite app_assoc, <- Hcalls2, <- Hl.
          by destruct (bind (update_options conn pc statusCode) _ s2). }
        rewrite (issued_app _ _ _ Hfin), existsb_app, Hquiet. simpl.
        assert (Hno : ∀ c, is_Modify c || is_Find c = true → is_Accept c = false)
          by (intros []; simpl; congruence).
        rewrite (no_such_call is_Accept _ l Hno HP).
        split; discriminate.
    + eapply Hearly; [| |].
      2:{ unfold resourceVPCPeeringConnectionUpdate, func.
          rewrite (bind_Next _ _ _ _ _ Htags).
          erewrite bind_Return; [reflexivity|].
          rewrite update_refresh_eq, Hrefresh. reflexivity. }
      * reflexivity.
      * intros [_ ->]. by destruct (refresh_state_pending _ _ _ _ _ Hrefresh) as (_ & ? & ?).
  - intros Hauto ->.
    destruct (refresh_state_pending _ _ _ _ _ Hrefresh) as (-> & pc & ->).
    assert (Hnext : update_refresh conn s1 = Next (pc, "pending-acceptance") s2)
      by (rewrite update_refresh_eq, Hrefresh; reflexivity).
    assert (Hacc : accepting (rd s2) "pending-acceptance" = true)
      by (rewrite Hrd2; apply accepting_iff; done).
    intros newStatus aerr s3 Haccept. subst r.
    rewrite (update_from_accept meta _ _ _ _ _ Htags Hnext).
    unfold func.
    destruct aerr as [e|].
    + erewrite bind_Return; [reflexivity|].
      rewrite update_accept_eq, Hacc, Hrd2. fold d. rewrite Haccept. reflexivity.
    + destruct (WaitForState_polls (available_conf conn (Id d) (Timeout d TimeoutUpdate))
                  (refresh_state_polls (Id d)) s3) as ([obj werr] & s4 & Hwait & _).
      exists obj, werr, s4. split; [exact Hwait|].
      destruct werr as [e|].
      * erewrite bind_Return; [reflexivity|].
        rewrite update_accept_eq, Hacc, Hrd2. fold d.
        rewrite Haccept, wait_until_available_eq, Hwait. reflexivity.
      * unfold WaitForState in Hwait.
        apply waitLoop_target in Hwait as (pc' & status & -> & Hstatus & Hone);
          [|intros s0 pc0 code0 err0 s0' [_ H]%refresh_state_some; exact H|discriminate].
        apply one_of_available in Hone. eauto.
Qed.

Lemma update_refresh_next (s s' : St W) pc (statusCode : string) :
  update_refresh conn s = Next (pc, statusCode) s' →
  ∃ w', s' = after s w' (Call_DescribeVpcPeeringConnections (describe_input (Id (rd s)))).
Proof.
  rewrite update_refresh_eq.
  destruct (vpcPeeringConnectionRefreshState conn (Id (rd s)) s)
    as [[[[pc'|] code] [e|]] s1|s1] eqn:Hrefresh; try discriminate.
  intros [= _ _ <-]. eapply refresh_state_after, Hrefresh.
Qed.

Lemma update_accept_next (statusCode statusCode' : string) (s s' : St W) :
  update_accept conn statusCode s = Next statusCode' s' →
  rd s' = rd s
  ∧ ∃ l, calls s' = calls s ++ l ∧ forallb (λ c, is_Accept c || is_Describe c) l = true.
Proof.
  intros Hnext. split.
  - rewrite update_accept_eq in Hnext.
    destruct (accepting _ _); [|by injection Hnext as _ <-].
    destruct (accept_state (Id (rd s)) s) as (w' & Hfinal).
    destruct (resourceVPCPeeringConnectionAccept _ _ _) as [[code [e|]] s1|s1];
      try discriminate.
    simpl in Hfinal. subst s1.
    destruct (wait_until_available_polls (Id (rd s)) (Timeout (rd s) TimeoutUpdate)
                (after s w' (Call_AcceptVpcPeeringConnection
                               {| ec2.AcceptVpcPeeringConnectionId := Some (Id (rd s)) |})))
      as (r & s2 & Hwait & Hrd & _).
    rewrite Hwait in Hnext. destruct r; [discriminate|].
    injection Hnext as _ <-. exact Hrd.
  - destruct (update_accept_traces statusCode s) as (l & Hl & HP).
    rewrite Hnext in Hl. eauto.
Qed.

Lemma forallb_weaken (P Q : Call → bool) (l : list Call) :
  (∀ c, P c = true → Q c = true) → forallb P l = true → forallb Q l = true.
Proof. intros HPQ. rewrite !forallb_forall. auto. Qed.

Lemma grows_trans (P : Call → bool) (s1 s2 s3 : St W) :
  grows P s1 s2 → grows P s2 s3 → grows P s1 s3.
Proof.
  intros (l & Hl & HP) (l' & Hl' & HP'). exists (l ++ l').
  by rewrite Hl', Hl, forallb_app, HP, HP', app_assoc.
Qed.

Lemma grows_no_modify (s s' : St W) :
  grows not_Modify s s' → existsb is_Modify (issued s s') = false.
Proof.
  intros (l & Hl & HP). rewrite (issued_app _ _ _ Hl).
  eapply no_such_call, HP. intros c. unfold not_Modify. by destruct (is_Modify c).
Qed.

Lemma update_tags_traces : traces not_Modify (update_tags conn).
Proof. unfold update_tags, UpdateTags. traces_auto. Qed.

Lemma update_refresh_traces : traces not_Modify (update_refresh conn).
Proof.
  unfold update_refresh. traces_auto.
  eapply traces_fn_weaken, polls_traces, refresh_state_polls. by intros [].
Qed.

Lemma update_accept_no_modify (statusCode : string) :
  traces not_Modify (update_accept conn statusCode).
Proof. eapply traces_weaken, update_accept_traces. by intros []. Qed.

(** The state in which the handler gets to the peering options. *)
Lemma update_reaches_options (s s1 s2 s3 : St W) pc (refreshed statusCode : string) :
  update_tags conn s = Next tt s1 →
  update_refresh conn s1 = Next (pc, refreshed) s2 →
  update_accept conn refreshed s2 = Next statusCode s3 →
  rd s3 = rd s ∧ grows not_Modify s s3.
Proof.
  intros Htags Hrefresh Haccept.
  destruct (update_tags_issued _ _ Htags) as (Hrd1 & _).
  destruct (update_refresh_next _ _ _ _ Hrefresh) as (w2 & Hs2).
  destruct (update_accept_next _ _ _ _ Haccept) as (Hrd3 & _).
  split; [rewrite Hrd3; subst s2; exact Hrd1|].
  pose proof (update_tags_traces s) as H1. rewrite Htags in H1.
  pose proof (update_refresh_traces s1) as H2. rewrite Hrefresh in H2.
  pose proof (update_accept_no_modify refreshed s2) as H3. rewrite Haccept in H3.
  eapply grows_trans; [eapply grows_trans|]; [exact H1|exact H2|exact H3].
Qed.

(** With changed options and a status code that is neither [active] nor
    [provisioning], the handler stops there. *)
Lemma update_not_active (meta : AWSClient) (s s1 s2 s3 : St W) pc
    (refreshed statusCode : string) :
  update_tags conn s = Next tt s1 →
  update_refresh conn s1 = Next (pc, refreshed) s2 →
  update_accept conn refreshed s2 = Next statusCode s3 →
  HasChanges (rd s) ["accepter"; "requester"] = true →
  String.eqb statusCode "active" || String.eqb statusCode "provisioning" = false →
  resourceVPCPeeringConnectionUpdate conn meta s
  = Val (Some (not_active_error (Id (rd s)))) s3.
Proof.
  intros Htags Hrefresh Haccept Hchanged Hcode.
  destruct (update_reaches_options _ _ _ _ _ _ _ Htags Hrefresh Haccept) as (Hrd & _).
  rewrite (update_from_accept meta _ _ _ _ _ Htags Hrefresh).
  unfold func. rewrite (bind_Next _ _ _ _ _ Haccept).
  erewrite bind_Return; [reflexivity|].
  unfold update_options, bind, get_d. rewrite Hrd, Hchanged.
  change ec2.VpcPeeringConnectionStateReasonCodeActive with "active".
  change ec2.VpcPeeringConnectionStateReasonCodeProvisioning with "provisioning".
  by rewrite Hcode.
Qed.

(** Over all runs of the update handler: a call of
    [ModifyVpcPeeringConnectionOptions] is only ever issued by a run that
    got to the peering options with changed options and a status code
    [active] or [provisioning]. *)
Lemma update_modifies_only_when_active (meta : AWSClient) (s : St W) :
  existsb is_Modify
    (issued s (final (resourceVPCPeeringConnectionUpdate conn meta s))) = true →
  ∃ s1 s2 s3 pc refreshed statusCode,
    update_tags conn s = Next tt s1
    ∧ update_refresh conn s1 = Next (pc, refreshed) s2
    ∧ update_accept conn refreshed s2 = Next statusCode s3
    ∧ HasChanges (rd s) ["accepter"; "requester"] = true
    ∧ (statusCode = "active" ∨ statusCode = "provisioning").
Proof.
  assert (Hquiet : ∀ s', grows not_Modify s s' →
            existsb is_Modify (issued s s') = true → False).
  { intros s' Hg. by rewrite (grows_no_modify _ _ Hg). }
  pose proof (update_tags_traces s) as H1.
  destruct (update_tags conn s) as [[] s1|e s1|s1] eqn:Htags; simpl in H1.
  2,3: unfold resourceVPCPeeringConnectionUpdate, func;
       first [rewrite (bind_Return _ _ _ _ _ Htags) | rewrite (bind_Panic _ _ _ _ Htags)];
       simpl; intros H; exfalso; exact (Hquiet _ H1 H).
  pose proof (update_refresh_traces s1) as H2.
  destruct (update_refresh conn s1) as [[pc refreshed] s2|e s2|s2] eqn:Hrefresh;
    simpl in H2.
  2,3: unfold resourceVPCPeeringConnectionUpdate, func;
       rewrite (bind_Next _ _ _ _ _ Htags);
       first [rewrite (bind_Return _ _ _ _ _ Hrefresh)
             | rewrite (bind_Panic _ _ _ _ Hrefresh)];
       simpl; intros H; exfalso; exact (Hquiet _ (grows_trans _ _ _ _ H1 H2) H).
  pose proof (update_accept_no_modify refreshed s2) as H3.
  rewrite (update_from_accept meta _ _ _ _ _ Htags Hrefresh). unfold func.
  destruct (update_accept conn refreshed s2) as [statusCode s3|e s3|s3] eqn:Haccept;
    simpl in H3.
  2,3: first [rewrite (bind_Return _ _ _ _ _ Haccept)
             | rewrite (bind_Panic _ _ _ _ Haccept)];
       simpl; intros H; exfalso;
       exact (Hquiet _ (grows_trans _ _ _ _ (grows_trans _ _ _ _ H1 H2) H3) H).
  rewrite (bind_Next _ _ _ _ _ Haccept). intros Hmodify.
  destruct (update_reaches_options _ _ _ _ _ _ _ Htags Hrefresh Haccept) as (Hrd & Hgrows).
  exists s1, s2, s3, pc, refreshed, statusCode.
  destruct (HasChanges (rd s) ["accepter"; "requester"]) eqn:Hchanged.
  - repeat split; try done.
    destruct (String.eqb statusCode "active" || String.eqb statusCode "provisioning")
      eqn:Hcode.
    + apply orb_true_iff in Hcode as [H|H]; apply String.eqb_eq in H; auto.
    + exfalso. apply (Hquiet s3 Hgrows).
      pose proof (update_not_active meta _ _ _ _ _ _ _ Htags Hrefresh Haccept
                    Hchanged Hcode) as Hr.
      rewrite (update_from_accept meta _ _ _ _ _ Htags Hrefresh) in Hr.
      unfold func in Hr. rewrite (bind_Next _ _ _ _ _ Haccept) in Hr.
      destruct (bind (update_options conn pc statusCode) _ s3);
        injection Hr as _ <- || discriminate Hr; exact Hmodify.
  - exfalso. apply (Hquiet (final (resourceVPCPeeringConnectionRead conn meta s3))).
    + eapply grows_trans; [exact Hgrows|].
      eapply (traces_fn_weaken is_Find); [by intros []|apply read_traces].
    + erewrite bind_Next in Hmodify
        by (unfold update_options, bind, get_d; rewrite Hrd, Hchanged; reflexivity).
      unfold bind, call in Hmodify.
      by destruct (resourceVPCPeeringConnectionRead conn meta s3).
Qed.

(** C2.  With the accepter or requester options changed, a run of the
    update handler calls [ModifyVpcPeeringConnectionOptions] only if it
    got to the peering options with a status code (the one the
    acceptance returned, when there was one) that is [active] or
    [provisioning]; and a run that gets to the peering options with any
    other status code returns the error that tells to set [auto_accept]
    or to activate the connection manually, and has not called the
    modify API. *)
Theorem update_options_need_active (meta : AWSClient) (s : St W) :
  HasChanges (rd s) ["accepter"; "requester"] = true →
  let r := resourceVPCPeeringConnectionUpdate conn meta s in
  (existsb is_Modify (issued s (final r)) = true →
     ∃ s1 s2 s3 pc refreshed statusCode,
       update_tags conn s = Next tt s1
       ∧ update_refresh conn s1 = Next (pc, refreshed) s2
       ∧ update_accept conn refreshed s2 = Next statusCode s3
       ∧ (statusCode = "active" ∨ statusCode = "provisioning"))
  ∧ (∀ (s1 s2 s3 : St W) (pc : ec2.VpcPeeringConnection) (refreshed statusCode : string),
       update_tags conn s = Next tt s1 →
       update_refresh conn s1 = Next (pc, refreshed) s2 →
       update_accept conn refreshed s2 = Next statusCode s3 →
       statusCode ≠ "active" → statusCode ≠ "provisioning" →
       r = Val (Some (fmt_Errorf
                  "Unable to modify peering options. The VPC Peering Connection %q is not active. Please set `auto_accept` attribute to `true`, or activate VPC Peering Connection manually."
                  [Id (rd s)] None)) s3
       ∧ existsb is_Modify (issued s s3) = false).
Proof.
  intros Hchanged r. split.
  - intros Hmodify.
    destruct (update_modifies_only_when_active meta s Hmodify)
      as (s1 & s2 & s3 & pc & refreshed & statusCode & Htags & Hrefresh & Haccept & _ & Hcode).
    exists s1, s2, s3, pc, refreshed, statusCode. auto.
  - intros s1 s2 s3 pc refreshed statusCode Htags Hrefresh Haccept Hactive Hprovisioning.
    destruct (update_reaches_options _ _ _ _ _ _ _ Htags Hrefresh Haccept) as (_ & Hgrows).
    split; [|by apply grows_no_modify].
    apply (update_not_active meta _ _ _ _ _ _ _ Htags Hrefresh Haccept Hchanged).
    apply orb_false_iff. by rewrite !String.eqb_neq.
Qed.

(** ** The read handler *)

Lemma Set_string_pointer (d : ResourceData) (key : string) (p : option string) :
  Schema key = Some TypeString →
  Set_ d key (VString <$> p) = Set_ d key (Some (VString (aws_StringValue p))).
Proof. intros H. unfold Set_. rewrite H. by destruct p. Qed.

Lemma d_Set_string {R} (key : string) (p : option string) (s : St W) :
  Schema key = Some TypeString →
  d_Set (R := R) key (VString <$> p) s
  = d_Set key (Some (VString (aws_StringValue p))) s.
Proof. intros H. unfold d_Set. by rewrite Set_string_pointer. Qed.

Lemma bind_d_Set_string {R B} (key : string) (p : option string)
    (k : option error → Body R B) (s : St W) :
  Schema key = Some TypeString →
  bind (d_Set key (VString <$> p)) k s
  = bind (d_Set key (Some (VString (aws_StringValue p)))) k s.
Proof. intros H. unfold bind. by rewrite d_Set_string. Qed.

Lemma bind_d_Set {R B} (key : string) (v : option Value)
    (k : option error → Body R B) (s : St W) :
  bind (d_Set key v) k s
  = k (Set_ (rd s) key v).2
      {| rd := (Set_ (rd s) key v).1; world := world s; calls := calls s |}.
Proof. unfold bind, d_Set. by destruct (Set_ _ _ _). Qed.

Lemma run_d_Set {R} (key : string) (v : option Value) (s : St W) :
  d_Set (R := R) key v s
  = Next (Set_ (rd s) key v).2
      {| rd := (Set_ (rd s) key v).1; world := world s; calls := calls s |}.
Proof. unfold d_Set. by destruct (Set_ _ _ _). Qed.

(** What is written for the flattened options of a side. *)
Lemma write_flattened (o : ec2.VpcPeeringConnectionOptionsDescription) :
  write_element (flattenVpcPeeringConnectionOptionsDescription (Some o))
  = Some (stored_element o).
Proof.
  destruct o as [dns classic vpc].
  unfold write_element, flattenVpcPeeringConnectionOptionsDescription, stored_element.
  cbn [ec2.AllowDnsResolutionFromRemoteVpc ec2.AllowEgressFromLocalClassicLinkToRemoteVpc
       ec2.AllowEgressFromLocalVpcToRemoteClassicLink].
  rewrite bool_decide_true.
  2: { destruct dns, classic, vpc; cbn [aws_BoolValue];
       repeat (apply map_Forall_insert_2; [set_solver|]); apply map_Forall_empty. }
  destruct dns as [dns|], classic as [classic|], vpc as [vpc|]; cbn [aws_BoolValue];
    [rewrite bool_decide_false by apply insert_non_empty..
    |rewrite bool_decide_true by reflexivity];
    reflexivity.
Qed.

Ltac norm_state :=
  cbn [Set_ Schema set_attr zero write_value write_elements
       String.eqb Ascii.eqb Bool.eqb andb fst snd
       rd world calls rd_id rd_new rd_state rd_attrs rd_timeouts
       accept_status accepter auto_accept peer_owner_id peer_region peer_vpc_id
       requester tags tags_all vpc_id].

(** Runs a body statement by statement; stops at a branch on a value
    that is not known. *)
Ltac run_step :=
  first
    [ progress cbv beta iota zeta
    | rewrite bind_assoc
    | rewrite bind_d_Set_string by reflexivity
    | rewrite bind_d_Set; norm_state
    | rewrite d_Set_string by reflexivity
    | rewrite run_d_Set; norm_state
    | rewrite write_flattened; norm_state
    | erewrite bind_Next by reflexivity
    | erewrite bind_Return by reflexivity
    | erewrite bind_Panic by reflexivity ].

(** The read handler on a connection that is found with its status and
    its two sides: it returns nil, and the attributes are those of
    [read_attrs]. *)
Lemma read_found (meta : AWSClient) (s : St W)
    (pc : ec2.VpcPeeringConnection) (status : ec2.VpcPeeringConnectionStateReason)
    (accepterInfo requesterInfo : ec2.VpcPeeringConnectionVpcInfo) (w' : W) :
  pkg_FindVPCPeeringConnectionByID conn (Id (rd s)) (world s) = ((Some pc, None), w') →
  tfresource_NotFound conn None = false →
  ec2.Status pc = Some status →
  ec2.AccepterVpcInfo pc = Some accepterInfo →
  ec2.RequesterVpcInfo pc = Some requesterInfo →
  resourceVPCPeeringConnectionRead conn meta s
  = Val None
        {| rd := with_attrs (rd s)
                   (read_attrs conn meta pc status accepterInfo requesterInfo
                      (rd_attrs (rd s)));
           world := w';
           calls := calls s ++ [Call_FindVPCPeeringConnectionByID (Id (rd s))] |}.
Proof.
  intros Hfind Hnotfound Hstatus Haccepter Hrequester.
  unfold resourceVPCPeeringConnectionRead, func, FindVPCPeeringConnectionByID.
  erewrite bind_Next by reflexivity.
  erewrite bind_Next by (unfold remote; rewrite Hfind; reflexivity).
  cbv beta iota zeta. rewrite Hnotfound, andb_false_r.
  repeat run_step. rewrite Hstatus. repeat run_step.
  rewrite Haccepter. repeat run_step. rewrite Hrequester.
  unfold with_attrs, read_attrs, we_are_accepter, stored_options.
  destruct (String.eqb (AccountID meta) (aws_StringValue (ec2.OwnerId accepterInfo)));
    repeat run_step;
    [destruct (String.eqb (AccountID meta) (aws_StringValue (ec2.OwnerId requesterInfo)));
     cbn [negb andb]; repeat run_step|];
    (destruct (ec2.PeeringOptions accepterInfo); repeat run_step);
    (destruct (ec2.PeeringOptions requesterInfo); repeat run_step);
    reflexivity.
Qed.

(** A read that returns nil without clearing the identifier has found
    the connection with its status and its two sides: on a nil
    connection, status or side the handler panics. *)
Lemma read_success_has_sides
    (meta : AWSClient) (s s' : St W) (found : option ec2.VpcPeeringConnection) (w' : W) :
  pkg_FindVPCPeeringConnectionByID conn (Id (rd s)) (world s) = ((found, None), w') →
  tfresource_NotFound conn None = false →
  resourceVPCPeeringConnectionRead conn meta s = Val None s' →
  ∃ pc status accepterInfo requesterInfo,
    found = Some pc ∧ ec2.Status pc = Some status
    ∧ ec2.AccepterVpcInfo pc = Some accepterInfo
    ∧ ec2.RequesterVpcInfo pc = Some requesterInfo.
Proof.
  intros Hfind Hnotfound.
  unfold resourceVPCPeeringConnectionRead, func, FindVPCPeeringConnectionByID.
  erewrite bind_Next by reflexivity.
  erewrite bind_Next by (unfold remote; rewrite Hfind; reflexivity).
  cbv beta iota zeta. rewrite Hnotfound, andb_false_r.
  repeat run_step.
  destruct found as [pc|]; [|discriminate].
  repeat run_step.
  destruct (ec2.Status pc) as [status|] eqn:Hstatus; [|discriminate].
  repeat run_step.
  destruct (ec2.AccepterVpcInfo pc) as [accepterInfo|] eqn:Haccepter; [|discriminate].
  destruct (ec2.RequesterVpcInfo pc) as [requesterInfo|] eqn:Hrequester;
    [intros _; by eauto 10|].
  repeat run_step. destruct (String.eqb _ _); repeat run_step; discriminate.
Qed.

(** C7.  A read that finds the connection, with its status and its two
    sides, succeeds, and the role follows from the account identifiers
    alone: if the caller's account is the accepter's owner and is not
    the requester's owner, [peer_owner_id] and [peer_vpc_id] hold the
    requester's owner and VPC and [vpc_id] the accepter's VPC; in every
    other case, both owners being the caller included, the peer
    attributes hold the accepter's owner and VPC and [vpc_id] the
    requester's VPC. *)
Theorem read_sets_role_by_account
    (meta : AWSClient) (s : St W)
    (pc : ec2.VpcPeeringConnection) (status : ec2.VpcPeeringConnectionStateReason)
    (accepterInfo requesterInfo : ec2.VpcPeeringConnectionVpcInfo) (w' : W) :
  pkg_FindVPCPeeringConnectionByID conn (Id (rd s)) (world s) = ((Some pc, None), w') →
  tfresource_NotFound conn None = false →
  ec2.Status pc = Some status →
  ec2.AccepterVpcInfo pc = Some accepterInfo →
  ec2.RequesterVpcInfo pc = Some requesterInfo →
  ∃ s',
    resourceVPCPeeringConnectionRead conn meta s = Val None s'
    ∧ let accountID := AccountID meta in
      let d' := rd s' in
      if String.eqb accountID (aws_StringValue (ec2.OwnerId accepterInfo))
         && negb (String.eqb accountID (aws_StringValue (ec2.OwnerId requesterInfo)))
      then Get d' "peer_owner_id" = VString (aws_StringValue (ec2.OwnerId requesterInfo))
           ∧ Get d' "peer_vpc_id" = VString (aws_StringValue (ec2.VpcId requesterInfo))
           ∧ Get d' "vpc_id" = VString (aws_StringValue (ec2.VpcId accepterInfo))
      else Get d' "peer_owner_id" = VString (aws_StringValue (ec2.OwnerId accepterInfo))
           ∧ Get d' "peer_vpc_id" = VString (aws_StringValue (ec2.VpcId accepterInfo))
           ∧ Get d' "vpc_id" = VString (aws_StringValue (ec2.VpcId requesterInfo)).
Proof.
  intros Hfind Hnotfound Hstatus Haccepter Hrequester.
  eexists. split; [exact (read_found meta s _ _ _ _ _ Hfind Hnotfound Hstatus
                            Haccepter Hrequester)|].
  cbv zeta. cbn [rd with_attrs]. unfold Get, read_attrs, we_are_accepter.
  cbn [rd_attrs attr String.eqb Ascii.eqb Bool.eqb peer_owner_id peer_vpc_id vpc_id].
  by destruct (_ && _).
Qed.

End Properties.

(** * Further properties *)

Section More.
Context {W : Type} (conn : Host W).

Abbreviation Body := (Body W).
Abbreviation Fn := (Fn W).

(** ** The status poller, for the answers left *)

Lemma refresh_of_answer (id : string) (s : St W)
    (resp : option ec2.DescribeVpcPeeringConnectionsOutput) (err : option error) (w' : W) :
  api_DescribeVpcPeeringConnections conn (describe_input id) (world s) = ((resp, err), w') →
  vpcPeeringConnectionRefreshState conn id s
  = let s' := after s w' (Call_DescribeVpcPeeringConnections (describe_input id)) in
    match err with
    | Some e =>
        if ErrCodeEquals err "InvalidVpcPeeringConnectionID.NotFound"
        then Val (None, "deleted", None) s'
        else Val (None, "", err) s'
    | None =>
        match resp with
        | Some r =>
            match ec2.VpcPeeringConnections r with
            | Some pc :: _ =>
                match ec2.Status pc with
                | Some status =>
                    if String.eqb (code_of status) "failed"
                    then Val (None, code_of status,
                              Some (errors_New (aws_StringValue (ec2.Message status)))) s'
                    else Val (Some pc, code_of status, None) s'
                | None => Val (None, "", None) s'
                end
            | _ => Val (None, "", None) s'
            end
        | None => Val (None, "", None) s'
        end
    end.
Proof.
  intros Hdescribe.
  unfold vpcPeeringConnectionRefreshState, func, bind,
    conn_DescribeVpcPeeringConnections, remote, after.
  change {| ec2.VpcPeeringConnectionIds := [Some id] |} with (describe_input id).
  rewrite Hdescribe. cbn [fst snd]. unfold code_of.
  destruct err as [e|].
  - rewrite ErrMessageContains_empty. by destruct (ErrCodeEquals _ _).
  - destruct resp as [r|]; [|reflexivity]. unfold pure, return_.
    destruct (ec2.VpcPeeringConnections r) as [|[pc|] rest]; try reflexivity.
    destruct (ec2.Status pc) as [status|]; [|reflexivity].
    by destruct (String.eqb _ _).
Qed.

Lemma refresh_shows (id : string) (s : St W)
    (resp : option ec2.DescribeVpcPeeringConnectionsOutput)
    (pc : ec2.VpcPeeringConnection) (status : ec2.VpcPeeringConnectionStateReason)
    (w' : W) :
  api_DescribeVpcPeeringConnections conn (describe_input id) (world s)
    = ((resp, None), w') →
  shows resp pc status →
  vpcPeeringConnectionRefreshState conn id s
  = let s' := after s w' (Call_DescribeVpcPeeringConnections (describe_input id)) in
    if String.eqb (code_of status) "failed"
    then Val (None, code_of status,
              Some (errors_New (aws_StringValue (ec2.Message status)))) s'
    else Val (Some pc, code_of status, None) s'.
Proof.
  intros Hdescribe (r & rest & -> & Hr & Hstatus).
  rewrite (refresh_of_answer _ _ _ _ _ Hdescribe). by rewrite Hr, Hstatus.
Qed.

(** X1.  An error of [DescribeVpcPeeringConnections] that is not the
    not-found one is returned as it is, with a nil object and the empty
    status. *)
Theorem refresh_state_passes_other_errors
    (id : string) (s : St W)
    (resp : option ec2.DescribeVpcPeeringConnectionsOutput) (e : error) (w' : W) :
  api_DescribeVpcPeeringConnections conn (describe_input id) (world s)
    = ((resp, Some e), w') →
  ErrCodeEquals (Some e) "InvalidVpcPeeringConnectionID.NotFound" = false →
  vpcPeeringConnectionRefreshState conn id s
  = Val (None, "", Some e)
        (after s w' (Call_DescribeVpcPeeringConnections (describe_input id))).
Proof.
  intros Hdescribe Hcode. rewrite (refresh_of_answer _ _ _ _ _ Hdescribe).
  by rewrite Hcode.
Qed.

(** X2.  When the first connection of a successful answer has a status
    whose code is not [failed], the poller returns that connection, the
    code and no error, whatever else the answer holds. *)
Theorem refresh_state_reports_status
    (id : string) (s : St W)
    (resp : option ec2.DescribeVpcPeeringConnectionsOutput)
    (pc : ec2.VpcPeeringConnection) (status : ec2.VpcPeeringConnectionStateReason)
    (w' : W) :
  api_DescribeVpcPeeringConnections conn (describe_input id) (world s)
    = ((resp, None), w') →
  shows resp pc status →
  code_of status ≠ "failed" →
  vpcPeeringConnectionRefreshState conn id s
  = Val (Some pc, code_of status, None)
        (after s w' (Call_DescribeVpcPeeringConnections (describe_input id))).
Proof.
  intros Hdescribe Hshows Hcode%String.eqb_neq.
  rewrite (refresh_shows _ _ _ _ _ _ Hdescribe Hshows). by rewrite Hcode.
Qed.

(** X3.  Whatever the remote side answers, the poller returns (it does
    not panic on a nil response, connection or status), and what it
    returns is of one of four shapes: a connection with its own status
    code, which is not [failed], and no error; nothing with the status
    [deleted] and no error; nothing with the empty status, with or
    without an error; nothing with the status [failed] and an error made
    of a message.  An object and an error never come together. *)
Theorem refresh_state_shapes (id : string) (s : St W) :
  ∃ pcRaw code err s',
    vpcPeeringConnectionRefreshState conn id s = Val (pcRaw, code, err) s'
    ∧ match pcRaw with
      | Some pc =>
          err = None
          ∧ ∃ status, ec2.Status pc = Some status
                      ∧ code = code_of status ∧ code ≠ "failed"
      | None =>
          (code = "deleted" ∧ err = None)
          ∨ code = ""
          ∨ (code = "failed" ∧ ∃ message, err = Some (errors_New message))
      end.
Proof.
  destruct (api_DescribeVpcPeeringConnections conn (describe_input id) (world s))
    as [[resp err] w'] eqn:Hdescribe.
  rewrite (refresh_of_answer _ _ _ _ _ Hdescribe). cbv zeta.
  assert (Hnothing : ∀ (code : string) (err : option error) (s' : St W),
            (code = "deleted" ∧ err = None) ∨ code = ""
            ∨ (code = "failed" ∧ ∃ message, err = Some (errors_New message)) →
            ∃ pcRaw code' err' s'',
              Val (None, code, err) s' = Val (pcRaw, code', err') s''
              ∧ match pcRaw with
                | Some pc =>
                    err' = None
                    ∧ ∃ status, ec2.Status pc = Some status
                                ∧ code' = code_of status ∧ code' ≠ "failed"
                | None =>
                    (code' = "deleted" ∧ err' = None) ∨ code' = ""
                    ∨ (code' = "failed" ∧ ∃ message, err' = Some (errors_New message))
                end).
  { intros code err0 s' H. by exists None, code, err0, s'. }
  destruct err as [e|].
  { destruct (ErrCodeEquals _ _); apply Hnothing; auto. }
  destruct resp as [r|]; [|apply Hnothing; auto].
  destruct (ec2.VpcPeeringConnections r) as [|[pc|] rest]; try (apply Hnothing; by auto).
  destruct (ec2.Status pc) as [status|] eqn:Hstatus; [|apply Hnothing; by auto].
  destruct (String.eqb _ _) eqn:Hfailed.
  - apply String.eqb_eq in Hfailed. apply Hnothing. right. right. eauto.
  - apply String.eqb_neq in Hfailed.
    eexists (Some pc), _, _, _. split; [reflexivity|]. eauto.
Qed.

(** X4.  A poll is exactly one call of [DescribeVpcPeeringConnections],
    for the one identifier asked for, and leaves the resource data as
    it is. *)
Theorem refresh_state_is_one_describe (id : string) (s : St W) :
  let s' := final (vpcPeeringConnectionRefreshState conn id s) in
  rd s' = rd s
  ∧ issued s s'
    = [Call_DescribeVpcPeeringConnections
         {| ec2.VpcPeeringConnectionIds := [Some id] |}].
Proof.
  destruct (refresh_state conn id s) as (r & ->). simpl. split; [reflexivity|].
  by apply issued_app.
Qed.

(** ** The wait for availability, poll by poll *)

Lemma call_return {A} (f : Fn A) (s : St W) :
  func (bind (call f) (λ r, return_ r)) s = f s.
Proof. unfold func, bind, call. by destruct (f s). Qed.

Lemma waitLoop_step (conf : StateChangeConf W) (n tick : nat) (last : string)
    (s s1 : St W) res (code : string) (err : option error) :
  Refresh conf s = Val (res, code, err) s1 →
  waitLoop conf (S n) tick last s
  = match err with
    | Some _ => Val (res, err) s1
    | None =>
        match res with
        | None =>
            match Target conf with
            | [] => Val (None, None) s1
            | _ :: _ =>
                if Nat.ltb NotFoundChecks (S tick)
                then Val (None, Some (resource_NotFoundError "couldn't find resource")) s1
                else waitLoop conf n (S tick) code s1
            end
        | Some _ =>
            if one_of code (Target conf) then Val (res, None) s1
            else if one_of code (Pending conf) then waitLoop conf n O code s1
            else match Pending conf with
                 | _ :: _ =>
                     Val (res, Some (resource_UnexpectedStateError code (Target conf))) s1
                 | [] => waitLoop conf n O code s1
                 end
        end
    end.
Proof.
  intros Hrefresh. cbn [waitLoop]. unfold func at 1. unfold bind at 1 2. unfold call at 1.
  rewrite Hrefresh. destruct err as [e|]; [reflexivity|]. unfold pure.
  destruct res as [pc|].
  - destruct (one_of code (Target conf)); [reflexivity|].
    destruct (one_of code (Pending conf)); [apply call_return|].
    destruct (Pending conf); [apply call_return|reflexivity].
  - destruct (Target conf); [reflexivity|].
    destruct (Nat.ltb _ _); [reflexivity|apply call_return].
Qed.

(** The outcome of a wait for availability whose first poll sees the
    status [status] on a connection. *)
Lemma wait_first_poll (id : string) (timeout : Duration) (n : nat) (s : St W)
    (resp : option ec2.DescribeVpcPeeringConnectionsOutput)
    (pc : ec2.VpcPeeringConnection) (status : ec2.VpcPeeringConnectionStateReason)
    (w' : W) :
  pollBudget conn timeout = S n →
  api_DescribeVpcPeeringConnections conn (describe_input id) (world s)
    = ((resp, None), w') →
  shows resp pc status →
  one_of (code_of status) ["initiating-request"; "provisioning"] = false →
  vpcPeeringConnectionWaitUntilAvailable conn id timeout s
  = let s' := after s w' (Call_DescribeVpcPeeringConnections (describe_input id)) in
    if String.eqb (code_of status) "failed"
    then Val (Some (wait_error id (errors_New (aws_StringValue (ec2.Message status))))) s'
    else if one_of (code_of status) available_targets then Val None s'
    else Val (Some (wait_error id
                      (resource_UnexpectedStateError (code_of status) available_targets))) s'.
Proof.
  intros Hbudget Hdescribe Hshows Hpending.
  rewrite wait_until_available_eq. unfold WaitForState.
  cbn [StateTimeout available_conf]. rewrite Hbudget.
  pose proof (refresh_shows id s _ _ _ _ Hdescribe Hshows) as Hrefresh. cbv zeta in *.
  destruct (String.eqb (code_of status) "failed").
  - erewrite waitLoop_step by exact Hrefresh. reflexivity.
  - erewrite waitLoop_step by exact Hrefresh.
    cbn [Target Pending available_conf]. fold available_targets.
    rewrite Hpending. by destruct (one_of (code_of status) available_targets).
Qed.

(** X5.  A wait for availability that finds the connection pending
    acceptance or active at its first poll returns nil after that one
    call. *)
Theorem wait_until_available_stops_at_target
    (id : string) (timeout : Duration) (n : nat) (s : St W)
    (resp : option ec2.DescribeVpcPeeringConnectionsOutput)
    (pc : ec2.VpcPeeringConnection) (status : ec2.VpcPeeringConnectionStateReason)
    (w' : W) :
  pollBudget conn timeout = S n →
  api_DescribeVpcPeeringConnections conn (describe_input id) (world s)
    = ((resp, None), w') →
  shows resp pc status →
  code_of status = "pending-acceptance" ∨ code_of status = "active" →
  vpcPeeringConnectionWaitUntilAvailable conn id timeout s
  = Val None (after s w' (Call_DescribeVpcPeeringConnections (describe_input id))).
Proof.
  intros Hbudget Hdescribe Hshows Hcode.
  rewrite (wait_first_poll _ _ _ _ _ _ _ _ Hbudget Hdescribe Hshows);
    by destruct Hcode as [-> | ->].
Qed.

(** X6.  A wait for availability that finds the connection in the
    status [failed] does not wait for the timeout: the first poll ends it
    with an error that carries the message of the status. *)
Theorem wait_until_available_fails_fast
    (id : string) (timeout : Duration) (n : nat) (s : St W)
    (resp : option ec2.DescribeVpcPeeringConnectionsOutput)
    (pc : ec2.VpcPeeringConnection) (status : ec2.VpcPeeringConnectionStateReason)
    (w' : W) :
  pollBudget conn timeout = S n →
  api_DescribeVpcPeeringConnections conn (describe_input id) (world s)
    = ((resp, None), w') →
  shows resp pc status →
  code_of status = "failed" →
  vpcPeeringConnectionWaitUntilAvailable conn id timeout s
  = Val (Some (fmt_Errorf
                 "Error waiting for VPC Peering Connection (%s) to become available: %s"
                 [id] (Some (errors_New (aws_StringValue (ec2.Message status))))))
        (after s w' (Call_DescribeVpcPeeringConnections (describe_input id))).
Proof.
  intros Hbudget Hdescribe Hshows Hcode.
  rewrite (wait_first_poll _ _ _ _ _ _ _ _ Hbudget Hdescribe Hshows);
    by rewrite Hcode.
Qed.

(** X7.  A wait for availability that finds the connection in a status
    other than the two pending ones, the two targets and [failed] (a
    rejected, expired, deleting or deleted connection) ends at once with
    the error of an unexpected state that names the status. *)
Theorem wait_until_available_rejects_other_statuses
    (id : string) (timeout : Duration) (n : nat) (s : St W)
    (resp : option ec2.DescribeVpcPeeringConnectionsOutput)
    (pc : ec2.VpcPeeringConnection) (status : ec2.VpcPeeringConnectionStateReason)
    (w' : W) :
  pollBudget conn timeout = S n →
  api_DescribeVpcPeeringConnections conn (describe_input id) (world s)
    = ((resp, None), w') →
  shows resp pc status →
  one_of (code_of status)
    ["initiating-request"; "provisioning"; "pending-acceptance"; "active"; "failed"]
    = false →
  vpcPeeringConnectionWaitUntilAvailable conn id timeout s
  = Val (Some (fmt_Errorf
                 "Error waiting for VPC Peering Connection (%s) to become available: %s"
                 [id]
                 (Some (resource_UnexpectedStateError
                          (code_of status) ["pending-acceptance"; "active"]))))
        (after s w' (Call_DescribeVpcPeeringConnections (describe_input id))).
Proof.
  intros Hbudget Hdescribe Hshows Hcode.
  unfold one_of in Hcode. cbn [existsb] in Hcode.
  repeat (apply orb_false_iff in Hcode as [? Hcode]).
  rewrite (wait_first_poll _ _ _ _ _ _ _ _ Hbudget Hdescribe Hshows).
  - cbv zeta. unfold available_targets, one_of. cbn [existsb].
    by repeat match goal with H : String.eqb _ _ = false |- _ => rewrite H; clear H end.
  - unfold one_of. cbn [existsb].
    by repeat match goal with H : String.eqb _ _ = false |- _ => rewrite H; clear H end.
Qed.

(** X8.  As long as every poll finds the connection initiating or
    provisioning, the wait for availability goes on polling: it ends
    with the error of a timeout, after as many calls of
    [DescribeVpcPeeringConnections] as the timeout leaves room for and
    none other, the resource data untouched. *)
Theorem wait_until_available_times_out_while_pending
    (still_pending : W → Prop) (id : string) (timeout : Duration) (s : St W) :
  (∀ w, still_pending w →
     ∃ resp pc status w',
       api_DescribeVpcPeeringConnections conn (describe_input id) w = ((resp, None), w')
       ∧ shows resp pc status
       ∧ (code_of status = "initiating-request" ∨ code_of status = "provisioning")
       ∧ still_pending w') →
  still_pending (world s) →
  ∃ last s',
    vpcPeeringConnectionWaitUntilAvailable conn id timeout s
    = Val (Some (fmt_Errorf
                   "Error waiting for VPC Peering Connection (%s) to become available: %s"
                   [id]
                   (Some (resource_TimeoutError last ["pending-acceptance"; "active"]))))
          s'
    ∧ rd s' = rd s
    ∧ issued s s'
      = replicate (pollBudget conn timeout)
          (Call_DescribeVpcPeeringConnections (describe_input id)).
Proof.
  intros Hpending Hs.
  assert (Hloop : ∀ n tick last s0, still_pending (world s0) →
            ∃ last' s',
              waitLoop (available_conf conn id timeout) n tick last s0
              = Val (None, Some (resource_TimeoutError last' ["pending-acceptance"; "active"]))
                    s'
              ∧ rd s' = rd s0
              ∧ calls s' = calls s0
                  ++ replicate n (Call_DescribeVpcPeeringConnections (describe_input id))).
  { induction n as [|n IH]; intros tick last s0 Hs0.
    - exists last, s0. cbn. by rewrite app_nil_r.
    - destruct (Hpending _ Hs0) as (resp & pc & status & w' & Hdescribe & Hshows & Hcode & Hw').
      pose proof (refresh_shows id s0 _ _ _ _ Hdescribe Hshows) as Hrefresh.
      cbv zeta in Hrefresh.
      assert (Hnot : String.eqb (code_of status) "failed" = false
                     ∧ one_of (code_of status) ["pending-acceptance"; "active"] = false
                     ∧ one_of (code_of status) ["initiating-request"; "provisioning"] = true)
        by (by destruct Hcode as [-> | ->]).
      destruct Hnot as (Hfailed & Htarget & Hpend). rewrite Hfailed in Hrefresh.
      erewrite waitLoop_step by exact Hrefresh.
      cbn [Target Pending available_conf]. rewrite Htarget, Hpend.
      destruct (IH O (code_of status)
                  (after s0 w' (Call_DescribeVpcPeeringConnections (describe_input id))) Hw')
        as (last' & s' & Hrun & Hrd & Hcalls).
      exists last', s'. split; [exact Hrun|]. split; [exact Hrd|].
      rewrite Hcalls. cbn. by rewrite <- app_assoc. }
  destruct (Hloop (pollBudget conn timeout) O "" s Hs) as (last & s' & Hrun & Hrd & Hcalls).
  exists last, s'. rewrite wait_until_available_eq. unfold WaitForState.
  cbn [StateTimeout available_conf] in *. rewrite Hrun.
  split; [reflexivity|]. split; [exact Hrd|]. by apply issued_app.
Qed.

(** ** The update handler, step by step *)

Ltac traces_step :=
  first
    [ match goal with
      | |- traces _ (bind _ _) => apply traces_bind; [|intros]
      | |- traces _ (pure _) => apply traces_pure
      | |- traces _ (return_ _) => apply traces_return
      | |- traces _ panic => apply traces_panic
      | |- traces _ get_d => apply traces_get_d
      | |- traces _ (d_SetId _) => apply traces_d_SetId
      | |- traces _ (d_Set _ _) => apply traces_d_Set
      | |- traces _ (deref _) => apply traces_deref
      | |- traces _ (remote _ _) => apply traces_remote; reflexivity
      | |- traces _ (call _) => apply traces_call
      | |- traces_fn _ (func _) => apply traces_func
      | |- traces _ (match ?x with _ => _ end) => destruct x
      | |- traces _ (if ?b then _ else _) => destruct b
      end ].
Ltac traces_auto := repeat traces_step.

Lemma final_func {R} (body : Body R R) (s : St W) :
  final (func body s) = ostate (body s).
Proof. unfold func. by destruct (body s). Qed.

Lemma update_eq_rest (meta : AWSClient) (s : St W) :
  resourceVPCPeeringConnectionUpdate conn meta s
  = func (bind (update_tags conn) (λ _, update_rest conn meta)) s.
Proof. reflexivity. Qed.

Lemma update_tags_eq (s : St W) :
  update_tags conn s
  = if HasChange (rd s) "tags_all" && negb (IsNewResource (rd s)) then
      match pkg_UpdateTags conn (Id (rd s)) (GetChange (rd s) "tags_all").1
              (GetChange (rd s) "tags_all").2 (world s) with
      | (Some e, w') =>
          Return (Some (fmt_Errorf "error updating EC2 VPC Peering Connection (%s) tags: %s"
                                   [Id (rd s)] (Some e)))
                 (after s w' (Call_UpdateTags (Id (rd s)) (GetChange (rd s) "tags_all").1
                                              (GetChange (rd s) "tags_all").2))
      | (None, w') =>
          Next tt (after s w' (Call_UpdateTags (Id (rd s)) (GetChange (rd s) "tags_all").1
                                               (GetChange (rd s) "tags_all").2))
      end
    else Next tt s.
Proof.
  unfold update_tags, bind, get_d, UpdateTags, remote, after.
  destruct (_ && _); [|reflexivity].
  destruct (GetChange _ _) as [o n]. cbn [fst snd].
  by destruct (pkg_UpdateTags _ _ _ _ _) as [[e|] w'].
Qed.

Lemma update_rest_traces (meta : AWSClient) (P : Call → bool) :
  (∀ c, is_Describe c || is_Accept c || is_Modify c || is_Find c = true → P c = true) →
  traces P (update_rest conn meta).
Proof.
  intros HP. unfold update_rest. traces_auto.
  - unfold update_refresh. traces_auto.
    eapply traces_fn_weaken, polls_traces, refresh_state_polls.
    intros c Hc. apply HP. by rewrite Hc.
  - eapply traces_weaken, update_accept_traces.
    intros c [Hc|Hc]%orb_true_iff; apply HP; rewrite Hc; by rewrite ?orb_true_r.
  - eapply traces_weaken, update_options_traces.
    intros c Hc. apply HP. rewrite Hc. by rewrite !orb_true_r.
  - eapply traces_fn_weaken, read_traces.
    intros c Hc. apply HP. rewrite Hc. by rewrite !orb_true_r.
Qed.

Lemma update_tags_calls (meta : AWSClient) (s : St W) :
  existsb is_UpdateTags (issued s (final (resourceVPCPeeringConnectionUpdate conn meta s)))
  = HasChange (rd s) "tags_all" && negb (IsNewResource (rd s)).
Proof.
  rewrite update_eq_rest, final_func. unfold bind at 1. rewrite update_tags_eq.
  assert (Hrest : ∀ s1, ∃ l, calls (ostate (update_rest conn meta s1)) = calls s1 ++ l
                             ∧ existsb is_UpdateTags l = false).
  { intros s1.
    destruct (update_rest_traces meta not_UpdateTags (λ c, ltac:(by destruct c)) s1)
      as (l & Hl & HP).
    exists l. split; [exact Hl|]. eapply no_such_call, HP.
    intros c. unfold not_UpdateTags. by destruct (is_UpdateTags c). }
  destruct (_ && _).
  - destruct (pkg_UpdateTags _ _ _ _ _) as [[e|] w'].
    + cbn [ostate]. erewrite issued_app; [|reflexivity]. reflexivity.
    + match goal with |- context [update_rest conn meta ?s1] =>
        destruct (Hrest s1) as (l & Hl & Hno) end.
      cbn [after calls] in Hl. rewrite <- app_assoc in Hl.
      rewrite (issued_app _ _ _ Hl). reflexivity.
  - destruct (Hrest s) as (l & Hl & Hno). by rewrite (issued_app _ _ _ Hl).
Qed.

(** X9.  Over all runs of the update handler, [UpdateTags] is called
    exactly when [tags_all] has changed and the resource is not new; the
    resource being created gets its tags from the create call alone. *)
Theorem update_calls_UpdateTags_iff_tags_changed (meta : AWSClient) (s : St W) :
  existsb is_UpdateTags (issued s (final (resourceVPCPeeringConnectionUpdate conn meta s)))
  = HasChange (rd s) "tags_all" && negb (IsNewResource (rd s)).
Proof. apply update_tags_calls. Qed.

(** X10.  When the tag update fails, the update handler returns its
    error and stops: the remote side has seen [UpdateTags] and nothing
    else, and the status is not refreshed. *)
Theorem update_stops_on_tag_error
    (meta : AWSClient) (s : St W) (e : error) (w' : W) :
  let d := rd s in
  let o := fst (GetChange d "tags_all") in
  let n := snd (GetChange d "tags_all") in
  HasChange d "tags_all" = true →
  IsNewResource d = false →
  pkg_UpdateTags conn (Id d) o n (world s) = (Some e, w') →
  resourceVPCPeeringConnectionUpdate conn meta s
  = Val (Some (fmt_Errorf "error updating EC2 VPC Peering Connection (%s) tags: %s"
                          [Id d] (Some e)))
        (after s w' (Call_UpdateTags (Id d) o n)).
Proof.
  intros d o n Hchanged Hnew Htags.
  rewrite update_eq_rest. unfold func.
  erewrite bind_Return; [reflexivity|].
  rewrite update_tags_eq. fold d. rewrite Hchanged, Hnew. cbn [negb andb].
  fold o n. by rewrite Htags.
Qed.

(** X11.  Updating a connection whose status is [failed] fails, whatever
    the changes: once the tags are dealt with, the handler returns the
    reading error with the message of the status, after the one call
    that refreshed the status. *)
Theorem update_of_failed_connection
    (meta : AWSClient) (s s1 : St W)
    (resp : option ec2.DescribeVpcPeeringConnectionsOutput)
    (pc : ec2.VpcPeeringConnection) (status : ec2.VpcPeeringConnectionStateReason)
    (w' : W) :
  update_tags conn s = Next tt s1 →
  api_DescribeVpcPeeringConnections conn (describe_input (Id (rd s))) (world s1)
    = ((resp, None), w') →
  shows resp pc status →
  code_of status = "failed" →
  resourceVPCPeeringConnectionUpdate conn meta s
  = Val (Some (fmt_Errorf "Error reading VPC Peering Connection: %s" []
                          (Some (errors_New (aws_StringValue (ec2.Message status))))))
        (after s1 w' (Call_DescribeVpcPeeringConnections (describe_input (Id (rd s))))).
Proof.
  intros Htags Hdescribe Hshows Hcode.
  destruct (update_tags_issued _ _ _ Htags) as (Hrd & _).
  rewrite update_eq_rest. unfold func. rewrite (bind_Next _ _ _ _ _ Htags).
  unfold update_rest. erewrite bind_Return; [reflexivity|].
  rewrite update_refresh_eq, Hrd.
  rewrite (refresh_shows _ _ _ _ _ _ Hdescribe Hshows). by rewrite Hcode.
Qed.

(** X12.  An update with nothing to do is a read: when no tag is to be
    updated, the connection is there in a status other than [failed],
    nothing is to be accepted and no peering option has changed, the
    update handler refreshes the status and does what the read handler
    does from there. *)
Theorem update_without_changes_is_read
    (meta : AWSClient) (s : St W)
    (resp : option ec2.DescribeVpcPeeringConnectionsOutput)
    (pc : ec2.VpcPeeringConnection) (status : ec2.VpcPeeringConnectionStateReason)
    (w' : W) :
  let d := rd s in
  HasChange d "tags_all" && negb (IsNewResource d) = false →
  api_DescribeVpcPeeringConnections conn (describe_input (Id d)) (world s)
    = ((resp, None), w') →
  shows resp pc status →
  code_of status ≠ "failed" →
  accepting d (code_of status) = false →
  HasChanges d ["accepter"; "requester"] = false →
  resourceVPCPeeringConnectionUpdate conn meta s
  = resourceVPCPeeringConnectionRead conn meta
      (after s w' (Call_DescribeVpcPeeringConnections (describe_input (Id d)))).
Proof.
  intros d Htags Hdescribe Hshows Hcode%String.eqb_neq Hacc Hchanged.
  rewrite update_eq_rest. unfold func.
  erewrite bind_Next; [|rewrite update_tags_eq; fold d; rewrite Htags; reflexivity].
  unfold update_rest.
  erewrite bind_Next;
    [|rewrite update_refresh_eq; fold d;
      rewrite (refresh_shows _ _ _ _ _ _ Hdescribe Hshows); cbv zeta;
      rewrite Hcode; reflexivity].
  cbv beta iota.
  erewrite bind_Next; [|rewrite update_accept_eq; cbn [after rd]; fold d;
                        rewrite Hacc; reflexivity].
  erewrite bind_Next; [|unfold update_options, bind, get_d; cbn [after rd]; fold d;
                        rewrite Hchanged; reflexivity].
  apply call_return.
Qed.

(** X13.  When the handler gets to changed peering options with the
    status code [active] or [provisioning] on a connection that has both
    sides, it calls [ModifyVpcPeeringConnectionOptions] once, with the
    options of each side that changed (and only those), expanded for a
    peering across regions exactly when the regions of the two sides
    differ.  An error of that call is returned and nothing is read;
    otherwise the handler goes on with the read. *)
Theorem update_modifies_changed_options
    (meta : AWSClient) (s s1 s2 s3 : St W) (pc : ec2.VpcPeeringConnection)
    (requesterInfo accepterInfo : ec2.VpcPeeringConnectionVpcInfo)
    (refreshed statusCode : string) (merr : option error) (w' : W) :
  let d := rd s in
  let req := modify_request conn d requesterInfo accepterInfo in
  let s4 := after s3 w' (Call_ModifyVpcPeeringConnectionOptions req) in
  update_tags conn s = Next tt s1 →
  update_refresh conn s1 = Next (pc, refreshed) s2 →
  update_accept conn refreshed s2 = Next statusCode s3 →
  HasChanges d ["accepter"; "requester"] = true →
  statusCode = "active" ∨ statusCode = "provisioning" →
  ec2.RequesterVpcInfo pc = Some requesterInfo →
  ec2.AccepterVpcInfo pc = Some accepterInfo →
  api_ModifyVpcPeeringConnectionOptions conn req (world s3) = (merr, w') →
  resourceVPCPeeringConnectionUpdate conn meta s
  = match merr with
    | Some e =>
        Val (Some (fmt_Errorf "error modifying VPC Peering Connection (%s) Options: %s"
                              [Id d] (Some e))) s4
    | None => resourceVPCPeeringConnectionRead conn meta s4
    end.
Proof.
  intros d req s4 Htags Hrefresh Haccept Hchanged Hcode Hrequester Haccepter Hmodify.
  destruct (update_reaches_options _ _ _ _ _ _ _ _ Htags Hrefresh Haccept) as (Hrd & _).
  rewrite (update_from_accept conn meta _ _ _ _ _ Htags Hrefresh).
  unfold func. rewrite (bind_Next _ _ _ _ _ Haccept).
  assert (Hcond : String.eqb statusCode ec2.VpcPeeringConnectionStateReasonCodeActive
                  || String.eqb statusCode
                       ec2.VpcPeeringConnectionStateReasonCodeProvisioning = true)
    by (by destruct Hcode as [-> | ->]).
  assert (Hoptions :
    update_options conn pc statusCode s3
    = match merr with
      | Some e =>
          Return (Some (fmt_Errorf "error modifying VPC Peering Connection (%s) Options: %s"
                                   [Id d] (Some e))) s4
      | None => Next tt s4
      end).
  { unfold update_options, bind, get_d. rewrite Hrd. fold d. rewrite Hchanged, Hcond.
    rewrite Hrequester, Haccepter. cbn [deref pure].
    subst s4 req. unfold modify_request in *.
    destruct (HasChange d "accepter"), (HasChange d "requester");
      cbn [Get attr String.eqb Ascii.eqb Bool.eqb as_list deref pure];
      unfold conn_ModifyVpcPeeringConnectionOptions, remote, after;
      rewrite Hmodify; by destruct merr. }
  unfold bind at 1. rewrite Hoptions. destruct merr as [e|]; [reflexivity|].
  apply call_return.
Qed.

Lemma update_traces (meta : AWSClient) :
  traces_fn update_call (resourceVPCPeeringConnectionUpdate conn meta).
Proof.
  assert (H : traces update_call (bind (update_tags conn) (λ _, update_rest conn meta))).
  { apply traces_bind; [|intros _].
    - eapply (traces_weaken is_UpdateTags);
        [intros c Hc; unfold update_call; by rewrite Hc
        |unfold update_tags, UpdateTags; traces_auto].
    - apply update_rest_traces. intros c. unfold update_call.
      destruct (is_UpdateTags c); [done|]. by cbn [orb]. }
  intros s. rewrite update_eq_rest, final_func. apply H.
Qed.

(** X14.  Whatever happens, the update handler calls nothing but
    [UpdateTags], [DescribeVpcPeeringConnections],
    [AcceptVpcPeeringConnection], [ModifyVpcPeeringConnectionOptions] and
    the finder of the read handler: it never creates or deletes a
    connection. *)
Theorem update_calls_only_its_five (meta : AWSClient) (s : St W) :
  forallb update_call
    (issued s (final (resourceVPCPeeringConnectionUpdate conn meta s))) = true.
Proof.
  destruct (update_traces meta s) as (l & Hl & HP). by rewrite (issued_app _ _ _ Hl).
Qed.

(** ** What the handlers leave of the resource data *)

Lemma keeps_refl (s : St W) : keeps_config s s.
Proof. unfold keeps_config. auto 10. Qed.

Lemma keeps_same (s s' : St W) : rd s' = rd s → keeps_config s s'.
Proof. intros H. unfold keeps_config. rewrite H. auto 10. Qed.

Lemma keeps_trans (s1 s2 s3 : St W) :
  keeps_config s1 s2 → keeps_config s2 s3 → keeps_config s1 s3.
Proof.
  unfold keeps_config. intros (H1 & H2 & H3 & H4 & H5) (H1' & H2' & H3' & H4' & H5').
  rewrite H1', H2', H3', H4'. repeat split; try done.
  destruct H5' as [-> | ->]; auto.
Qed.

Lemma set_attr_keeps_auto_accept (a a' : Attrs) (key : string) (v : Value) :
  String.eqb key "auto_accept" = false →
  set_attr a key v = Some a' → auto_accept a' = auto_accept a.
Proof.
  intros Hkey. unfold set_attr. rewrite ?Hkey.
  destruct v; try discriminate;
    repeat match goal with
           | |- context [String.eqb key ?k] => destruct (String.eqb key k)
           end;
    intros [= <-] || discriminate; reflexivity.
Qed.

Section Steps.
Context {R : Type}.

Lemma steps_pure {A} (a : A) : steps (pure a : Body R A).
Proof. intros s. apply keeps_refl. Qed.

Lemma steps_return {A} (r : R) : steps (return_ r : Body R A).
Proof. intros s. apply keeps_refl. Qed.

Lemma steps_panic {A} : steps (panic : Body R A).
Proof. intros s. apply keeps_refl. Qed.

Lemma steps_get_d : steps (get_d : Body R ResourceData).
Proof. intros s. apply keeps_refl. Qed.

Lemma steps_deref {A} (p : option A) : steps (deref p : Body R A).
Proof. destruct p; [apply steps_pure | apply steps_panic]. Qed.

Lemma steps_clear_id : steps (d_SetId "" : Body R unit).
Proof. intros s. unfold keeps_config. simpl. auto 10. Qed.

Lemma steps_d_Set (key : string) (v : option Value) :
  String.eqb key "auto_accept" = false → steps (d_Set key v : Body R (option error)).
Proof.
  intros Hkey s. unfold d_Set, Set_.
  destruct (Schema key); [|by apply keeps_same].
  destruct (write_value _) as [v'|]; [|by apply keeps_same].
  destruct (set_attr _ _ _) as [a'|] eqn:Hset; [|by apply keeps_same].
  unfold keeps_config. simpl.
  rewrite (set_attr_keeps_auto_accept _ _ _ _ Hkey Hset). auto 10.
Qed.

Lemma steps_remote {A} (c : Call) (op : W → A * W) : steps (remote c op : Body R A).
Proof. intros s. unfold remote. destruct (op _). by apply keeps_same. Qed.

Lemma steps_bind {A B} (m : Body R A) (k : A → Body R B) :
  steps m → (∀ a, steps (k a)) → steps (bind m k).
Proof.
  intros Hm Hk s. unfold bind. specialize (Hm s).
  destruct (m s) as [a s'|r s'|s']; simpl in *; [|done..].
  eapply keeps_trans; [exact Hm | apply Hk].
Qed.

Lemma steps_call {A} (f : Fn A) : steps_fn f → steps (call f : Body R A).
Proof. intros Hf s. unfold call. specialize (Hf s). by destruct (f s). Qed.

Lemma steps_func (body : Body R R) : steps body → steps_fn (func body).
Proof. intros Hb s. unfold func. specialize (Hb s). by destruct (body s). Qed.
End Steps.

Lemma polls_steps {A} (f : Fn A) : polls f → steps_fn f.
Proof. intros Hf s. destruct (Hf s) as (r & s' & -> & Hrd & _). by apply keeps_same. Qed.

Ltac steps_step :=
  first
    [ match goal with
      | |- steps (bind _ _) => apply steps_bind; [|intros]
      | |- steps (pure _) => apply steps_pure
      | |- steps (return_ _) => apply steps_return
      | |- steps panic => apply steps_panic
      | |- steps get_d => apply steps_get_d
      | |- steps (d_SetId "") => apply steps_clear_id
      | |- steps (d_Set _ _) => apply steps_d_Set; reflexivity
      | |- steps (deref _) => apply steps_deref
      | |- steps (remote _ _) => apply steps_remote
      | |- steps (call _) => apply steps_call
      | |- steps_fn (func _) => apply steps_func
      | |- steps (match ?x with _ => _ end) => destruct x
      | |- steps (if ?b then _ else _) => destruct b
      end ].
Ltac steps_auto := repeat steps_step.

Lemma read_steps (meta : AWSClient) : steps_fn (resourceVPCPeeringConnectionRead conn meta).
Proof.
  unfold resourceVPCPeeringConnectionRead, FindVPCPeeringConnectionByID, set_error.
  steps_auto.
Qed.

Lemma update_steps (meta : AWSClient) :
  steps_fn (resourceVPCPeeringConnectionUpdate conn meta).
Proof.
  unfold resourceVPCPeeringConnectionUpdate. steps_auto.
  - unfold update_tags, UpdateTags. steps_auto.
  - unfold update_refresh. steps_auto. apply polls_steps, refresh_state_polls.
  - unfold update_accept. steps_auto.
    + match goal with
      | |- steps_fn (resourceVPCPeeringConnectionAccept conn ?i) =>
          intros st; destruct (accept_state conn i st) as (w' & ->); by apply keeps_same
      end.
    + apply polls_steps, wait_until_available_polls.
  - unfold update_options, conn_ModifyVpcPeeringConnectionOptions. steps_auto.
  - apply read_steps.
Qed.

(** X15.  Whatever the remote side answers, the read and the update
    handler leave alone what the resource data holds of the prior state,
    of the timeouts and of whether the resource is new, never write
    [auto_accept], and leave the identifier as it is or clear it: they
    never give the resource another identifier. *)
Theorem read_and_update_keep_the_configuration (meta : AWSClient) (s : St W) :
  keeps_config s (final (resourceVPCPeeringConnectionRead conn meta s))
  ∧ keeps_config s (final (resourceVPCPeeringConnectionUpdate conn meta s)).
Proof. split; [apply read_steps | apply update_steps]. Qed.

(** ** The read handler, in full *)

Lemma read_of_answer (meta : AWSClient) (s : St W)
    (found : option ec2.VpcPeeringConnection) (err : option error) (w' : W) :
  pkg_FindVPCPeeringConnectionByID conn (Id (rd s)) (world s) = ((found, err), w') →
  let s1 := after s w' (Call_FindVPCPeeringConnectionByID (Id (rd s))) in
  (negb (IsNewResource (rd s)) && tfresource_NotFound conn err = true →
   resourceVPCPeeringConnectionRead conn meta s
   = Val None {| rd := SetId (rd s) ""; world := w'; calls := calls s1 |})
  ∧ (negb (IsNewResource (rd s)) && tfresource_NotFound conn err = false →
     ∀ e, err = Some e →
       resourceVPCPeeringConnectionRead conn meta s
       = Val (Some (fmt_Errorf "error reading EC2 VPC Peering Connection (%s): %w"
                               [Id (rd s)] (Some e))) s1).
Proof.
  intros Hfind s1.
  unfold resourceVPCPeeringConnectionRead, func, FindVPCPeeringConnectionByID.
  erewrite bind_Next by reflexivity.
  erewrite bind_Next by (unfold remote; rewrite Hfind; reflexivity).
  cbv beta iota zeta. split.
  - intros ->. reflexivity.
  - intros -> e ->. reflexivity.
Qed.

(** X16.  When the finder reports the connection missing and the
    resource is not new, the read handler clears the identifier and
    returns nil; no attribute is written. *)
Theorem read_of_missing_connection_clears_id
    (meta : AWSClient) (s : St W)
    (found : option ec2.VpcPeeringConnection) (err : option error) (w' : W) :
  pkg_FindVPCPeeringConnectionByID conn (Id (rd s)) (world s) = ((found, err), w') →
  IsNewResource (rd s) = false →
  tfresource_NotFound conn err = true →
  resourceVPCPeeringConnectionRead conn meta s
  = Val None
        {| rd := SetId (rd s) ""; world := w';
           calls := calls s ++ [Call_FindVPCPeeringConnectionByID (Id (rd s))] |}.
Proof.
  intros Hfind Hnew Hmissing.
  apply (proj1 (read_of_answer meta s _ _ _ Hfind)). by rewrite Hnew, Hmissing.
Qed.

(** X17.  For a resource that is new, a missing connection is an error
    like any other: the read handler returns the finder's error wrapped,
    and keeps the identifier and every attribute. *)
Theorem read_of_new_resource_returns_the_error
    (meta : AWSClient) (s : St W)
    (found : option ec2.VpcPeeringConnection) (e : error) (w' : W) :
  pkg_FindVPCPeeringConnectionByID conn (Id (rd s)) (world s) = ((found, Some e), w') →
  IsNewResource (rd s) = true ∨ tfresource_NotFound conn (Some e) = false →
  let wrapped := fmt_Errorf "error reading EC2 VPC Peering Connection (%s): %w"
                            [Id (rd s)] (Some e) in
  resourceVPCPeeringConnectionRead conn meta s
  = Val (Some wrapped) (after s w' (Call_FindVPCPeeringConnectionByID (Id (rd s))))
  ∧ errors_Unwrap wrapped = Some e.
Proof.
  intros Hfind Hcase wrapped. split; [|reflexivity].
  apply (proj2 (read_of_answer meta s _ _ _ Hfind)); [|reflexivity].
  destruct Hcase as [-> | ->]; [reflexivity | apply andb_false_r].
Qed.

(** X18.  A read that finds a connection with its status and both
    sides returns nil after the one call of the finder, keeps the
    identifier, and stores what the connection shows: the status code as
    [accept_status], the accepter's region as [peer_region], the tags as
    the tag helpers filter them, and for each side its peering options
    as the nested schema holds them: no element when the side has no
    options, a nil element when it has options and reports none of the
    three, and else one map with the three attributes, an option that
    is not reported being false. *)
Theorem read_stores_what_the_connection_shows
    (meta : AWSClient) (s : St W)
    (pc : ec2.VpcPeeringConnection) (status : ec2.VpcPeeringConnectionStateReason)
    (accepterInfo requesterInfo : ec2.VpcPeeringConnectionVpcInfo) (w' : W) :
  pkg_FindVPCPeeringConnectionByID conn (Id (rd s)) (world s) = ((Some pc, None), w') →
  tfresource_NotFound conn None = false →
  ec2.Status pc = Some status →
  ec2.AccepterVpcInfo pc = Some accepterInfo →
  ec2.RequesterVpcInfo pc = Some requesterInfo →
  let stored (side : ec2.VpcPeeringConnectionVpcInfo) :=
    match ec2.PeeringOptions side with
    | None => []
    | Some o =>
        match ec2.AllowDnsResolutionFromRemoteVpc o,
              ec2.AllowEgressFromLocalClassicLinkToRemoteVpc o,
              ec2.AllowEgressFromLocalVpcToRemoteClassicLink o with
        | None, None, None => [None]
        | dns, classic, vpc =>
            [Some (<["allow_classic_link_to_remote_vpc" := aws_BoolValue classic]>
                     (<["allow_remote_vpc_dns_resolution" := aws_BoolValue dns]>
                        (<["allow_vpc_to_remote_classic_link" := aws_BoolValue vpc]> ∅)))]
        end
    end in
  ∃ s',
    resourceVPCPeeringConnectionRead conn meta s = Val None s'
    ∧ issued s s' = [Call_FindVPCPeeringConnectionByID (Id (rd s))]
    ∧ Id (rd s') = Id (rd s)
    ∧ Get (rd s') "accept_status" = VString (aws_StringValue (ec2.Code status))
    ∧ Get (rd s') "peer_region" = VString (aws_StringValue (ec2.Region accepterInfo))
    ∧ Get (rd s') "accepter" = VList (stored accepterInfo)
    ∧ Get (rd s') "requester" = VList (stored requesterInfo)
    ∧ let tags := IgnoreConfig_ conn (IgnoreAWS conn (KeyValueTags_of conn (ec2.Tags pc)))
                                (IgnoreTagsConfig meta) in
      Get (rd s') "tags"
      = VMap (Map conn (RemoveDefaultConfig conn tags (DefaultTagsConfig meta)))
      ∧ Get (rd s') "tags_all" = VMap (Map conn tags).
Proof.
  intros Hfind Hnotfound Hstatus Haccepter Hrequester stored.
  assert (Hstored : ∀ side, stored_options side = stored side).
  { intros side. unfold stored_options, stored, stored_element.
    destruct (ec2.PeeringOptions side) as [[[dns|] [classic|] [vpc|]]|]; reflexivity. }
  eexists. split; [exact (read_found conn meta s _ _ _ _ _ Hfind Hnotfound Hstatus
                            Haccepter Hrequester)|].
  split; [by apply issued_app|].
  cbn [rd with_attrs Id rd_id]. unfold Get, read_attrs.
  cbn [rd_attrs attr String.eqb Ascii.eqb Bool.eqb accept_status peer_region accepter
       requester tags tags_all].
  rewrite !Hstored. repeat split.
Qed.

(** X19.  Reading twice is reading once: when the finder gives the same
    complete connection again, a second read leaves the resource data
    exactly as the first one left it. *)
Theorem read_is_idempotent
    (meta : AWSClient) (s : St W)
    (pc : ec2.VpcPeeringConnection) (status : ec2.VpcPeeringConnectionStateReason)
    (accepterInfo requesterInfo : ec2.VpcPeeringConnectionVpcInfo) (w1 w2 : W) :
  pkg_FindVPCPeeringConnectionByID conn (Id (rd s)) (world s) = ((Some pc, None), w1) →
  pkg_FindVPCPeeringConnectionByID conn (Id (rd s)) w1 = ((Some pc, None), w2) →
  tfresource_NotFound conn None = false →
  ec2.Status pc = Some status →
  ec2.AccepterVpcInfo pc = Some accepterInfo →
  ec2.RequesterVpcInfo pc = Some requesterInfo →
  let s1 := final (resourceVPCPeeringConnectionRead conn meta s) in
  let s2 := final (resourceVPCPeeringConnectionRead conn meta s1) in
  resourceVPCPeeringConnectionRead conn meta s = Val None s1
  ∧ resourceVPCPeeringConnectionRead conn meta s1 = Val None s2
  ∧ rd s2 = rd s1.
Proof.
  intros Hfind1 Hfind2 Hnotfound Hstatus Haccepter Hrequester s1 s2.
  pose proof (read_found conn meta s _ _ _ _ _ Hfind1 Hnotfound Hstatus Haccepter Hrequester)
    as Hread1.
  assert (Hs1 : s1 = {| rd := with_attrs (rd s)
                             (read_attrs conn meta pc status accepterInfo requesterInfo
                                (rd_attrs (rd s)));
                        world := w1;
                        calls := calls s ++ [Call_FindVPCPeeringConnectionByID (Id (rd s))] |})
    by (subst s1; by rewrite Hread1).
  assert (Hread2 := read_found conn meta s1 pc status accepterInfo requesterInfo w2).
  rewrite Hs1 in Hread2 at 1 2. cbn [rd world with_attrs Id rd_id] in Hread2.
  specialize (Hread2 Hfind2 Hnotfound Hstatus Haccepter Hrequester).
  split; [by rewrite Hread1, Hs1|]. subst s2. rewrite Hread2. cbn [final].
  split; [reflexivity|]. rewrite Hs1. reflexivity.
Qed.

(** ** The create handler, past its check *)

(** The handler from line 127 on. *)
Lemma create_reaches_the_call (meta : AWSClient) (s : St W) :
  snd (GetOk (rd s) "peer_region") && snd (GetOk (rd s) "auto_accept") = false →
  resourceVPCPeeringConnectionCreate conn meta s
  = func (
      let* (output, err) := conn_CreateVpcPeeringConnection conn
                              (create_input conn meta (rd s)) in
      let* _ := match err with
                | Some e =>
                    return_ (Some (fmt_Errorf
                      "error creating EC2 VPC Peering Connection: %w" [] (Some e)))
                | None => pure tt
                end in
      let* output := deref output in
      let* pc := deref (ec2.CreatedVpcPeeringConnection output) in
      let* _ := d_SetId (aws_StringValue (ec2.VpcPeeringConnectionId pc)) in
      let* d := get_d in
      let* (_, err) := WaitVPCPeeringConnectionActive conn (Id d) (Timeout d TimeoutCreate) in
      let* _ := match err with
                | Some e =>
                    return_ (Some (fmt_Errorf
                      "error waiting for EC2 VPC Peering Connection (%s) create: %w" [Id d]
                      (Some e)))
                | None => pure tt
                end in
      let* r := call (resourceVPCPeeringConnectionUpdate conn meta) in
      return_ r) s.
Proof.
  intros Hcheck.
  unfold resourceVPCPeeringConnectionCreate, create_input, func, bind at 1 2 3 4 5 6, get_d.
  cbn [Get attr String.eqb Ascii.eqb Bool.eqb as_map as_string deref pure].
  unfold GetOk in *. cbn [Get attr String.eqb Ascii.eqb Bool.eqb fst snd] in *.
  destruct (negb (is_zero (VString (peer_owner_id (rd_attrs (rd s)))))),
           (negb (is_zero (VString (peer_region (rd_attrs (rd s)))))) eqn:Hregion;
    cbn [as_string deref pure andb] in *; try rewrite Hcheck; reflexivity.
Qed.

Lemma create_of_answer (meta : AWSClient) (s : St W)
    (output : option ec2.CreateVpcPeeringConnectionOutput) (err : option error) (w1 : W) :
  snd (GetOk (rd s) "peer_region") && snd (GetOk (rd s) "auto_accept") = false →
  let input := create_input conn meta (rd s) in
  api_CreateVpcPeeringConnection conn input (world s) = ((output, err), w1) →
  let s1 := after s w1 (Call_CreateVpcPeeringConnection input) in
  let r := resourceVPCPeeringConnectionCreate conn meta s in
  match err, output ≫= ec2.CreatedVpcPeeringConnection with
  | Some e, _ =>
      r = Val (Some (fmt_Errorf "error creating EC2 VPC Peering Connection: %w" []
                                (Some e))) s1
  | None, None => r = Panicked s1
  | None, Some pc =>
      let id := aws_StringValue (ec2.VpcPeeringConnectionId pc) in
      let timeout := Timeout (rd s) TimeoutCreate in
      let '(_, werr, w2) := pkg_WaitVPCPeeringConnectionActive conn id timeout w1 in
      let s2 := {| rd := SetId (rd s) id; world := w2;
                   calls := calls s ++ [Call_CreateVpcPeeringConnection input;
                                        Call_WaitVPCPeeringConnectionActive id timeout] |} in
      match werr with
      | Some e =>
          r = Val (Some (fmt_Errorf
                           "error waiting for EC2 VPC Peering Connection (%s) create: %w"
                           [id] (Some e))) s2
      | None => r = resourceVPCPeeringConnectionUpdate conn meta s2
      end
  end.
Proof.
  intros Hcheck input Hcreate s1 r.
  assert (Hremote : conn_CreateVpcPeeringConnection (R := option error) conn input s
                    = Next (output, err) s1)
    by (unfold conn_CreateVpcPeeringConnection, remote; by rewrite Hcreate).
  assert (Hr : r = func (
      let* _ := match err with
                | Some e =>
                    return_ (Some (fmt_Errorf
                      "error creating EC2 VPC Peering Connection: %w" [] (Some e)))
                | None => pure tt
                end in
      let* output := deref output in
      let* pc := deref (ec2.CreatedVpcPeeringConnection output) in
      let* _ := d_SetId (aws_StringValue (ec2.VpcPeeringConnectionId pc)) in
      let* d := get_d in
      let* (_, err) := WaitVPCPeeringConnectionActive conn (Id d) (Timeout d TimeoutCreate) in
      let* _ := match err with
                | Some e =>
                    return_ (Some (fmt_Errorf
                      "error waiting for EC2 VPC Peering Connection (%s) create: %w" [Id d]
                      (Some e)))
                | None => pure tt
                end in
      let* r := call (resourceVPCPeeringConnectionUpdate conn meta) in
      return_ r) s1).
  { subst r. rewrite (create_reaches_the_call meta s Hcheck). fold input. unfold func.
    by erewrite bind_Next by exact Hremote. }
  clearbody r. subst r. clear Hremote.
  destruct err as [e|]; [reflexivity|].
  destruct output as [out|]; [|reflexivity]. cbn [mbind option_bind].
  destruct (ec2.CreatedVpcPeeringConnection out) as [pc|] eqn:Hpc.
  2: { unfold func. erewrite bind_Next by reflexivity. erewrite bind_Next by reflexivity.
       by rewrite Hpc. }
  destruct (pkg_WaitVPCPeeringConnectionActive conn _ _ w1) as [[found werr] w2] eqn:Hwait.
  assert (Hwaited :
    WaitVPCPeeringConnectionActive (R := option error) conn
      (aws_StringValue (ec2.VpcPeeringConnectionId pc)) (Timeout (rd s) TimeoutCreate)
      {| rd := SetId (rd s) (aws_StringValue (ec2.VpcPeeringConnectionId pc));
         world := w1; calls := calls s1 |}
    = Next (found, werr)
        {| rd := SetId (rd s) (aws_StringValue (ec2.VpcPeeringConnectionId pc));
           world := w2;
           calls := calls s ++ [Call_CreateVpcPeeringConnection input;
                                Call_WaitVPCPeeringConnectionActive
                                  (aws_StringValue (ec2.VpcPeeringConnectionId pc))
                                  (Timeout (rd s) TimeoutCreate)] |}).
  { unfold WaitVPCPeeringConnectionActive, remote. cbn [rd world calls s1 after].
    rewrite Hwait, <- app_assoc. reflexivity. }
  assert (Hprefix : ∀ k : Body (option error) (option error),
    func (
      let* _ := pure tt in
      let* output := deref (Some out) in
      let* pc := deref (ec2.CreatedVpcPeeringConnection output) in
      let* _ := d_SetId (aws_StringValue (ec2.VpcPeeringConnectionId pc)) in
      let* d := get_d in
      let* (_, err) := WaitVPCPeeringConnectionActive conn (Id d) (Timeout d TimeoutCreate) in
      let* _ := match err with
                | Some e =>
                    return_ (Some (fmt_Errorf
                      "error waiting for EC2 VPC Peering Connection (%s) create: %w" [Id d]
                      (Some e)))
                | None => pure tt
                end in
      k) s1
    = func (
      let* _ := match werr with
                | Some e =>
                    return_ (Some (fmt_Errorf
                      "error waiting for EC2 VPC Peering Connection (%s) create: %w"
                      [aws_StringValue (ec2.VpcPeeringConnectionId pc)] (Some e)))
                | None => pure tt
                end in
      k)
      {| rd := SetId (rd s) (aws_StringValue (ec2.VpcPeeringConnectionId pc));
         world := w2;
         calls := calls s ++ [Call_CreateVpcPeeringConnection input;
                              Call_WaitVPCPeeringConnectionActive
                                (aws_StringValue (ec2.VpcPeeringConnectionId pc))
                                (Timeout (rd s) TimeoutCreate)] |}).
  { intros k. unfold func.
    erewrite bind_Next by reflexivity. erewrite bind_Next by reflexivity.
    rewrite Hpc.
    erewrite bind_Next by reflexivity. erewrite bind_Next by reflexivity.
    erewrite bind_Next by reflexivity. cbv beta.
    by erewrite bind_Next by exact Hwaited. }
  rewrite Hprefix. destruct werr as [e|]; [reflexivity|].
  unfold func at 1. erewrite bind_Next by reflexivity. apply call_return.
Qed.

(** X20.  When [peer_region] and [auto_accept] are not both set, the
    create handler sends one request, built from the configuration:
    [peer_owner_id] and [peer_region] only when they are set.  An error
    of [CreateVpcPeeringConnection] is returned wrapped, nothing else is
    called and the resource gets no identifier. *)
Theorem create_returns_the_api_error
    (meta : AWSClient) (s : St W)
    (output : option ec2.CreateVpcPeeringConnectionOutput) (e : error) (w1 : W) :
  snd (GetOk (rd s) "peer_region") && snd (GetOk (rd s) "auto_accept") = false →
  let input := create_input conn meta (rd s) in
  api_CreateVpcPeeringConnection conn input (world s) = ((output, Some e), w1) →
  let wrapped := fmt_Errorf "error creating EC2 VPC Peering Connection: %w" [] (Some e) in
  ∃ s',
    resourceVPCPeeringConnectionCreate conn meta s = Val (Some wrapped) s'
    ∧ errors_Unwrap wrapped = Some e
    ∧ issued s s' = [Call_CreateVpcPeeringConnection input]
    ∧ rd s' = rd s.
Proof.
  intros Hcheck input Hcreate wrapped.
  pose proof (create_of_answer meta s _ _ _ Hcheck Hcreate) as Hr.
  cbv beta iota zeta in Hr. eexists. split; [exact Hr|].
  split; [reflexivity|]. split; [by apply issued_app | reflexivity].
Qed.

(** X21.  After a successful create call the handler takes the
    identifier of the connection it returned, waits for it with the
    create timeout, and then is the update handler on the resource data
    with that identifier: its result is the create handler's. *)
Theorem create_then_is_update
    (meta : AWSClient) (s : St W)
    (output : ec2.CreateVpcPeeringConnectionOutput) (pc : ec2.VpcPeeringConnection)
    (found : option ec2.VpcPeeringConnection) (w1 w2 : W) :
  snd (GetOk (rd s) "peer_region") && snd (GetOk (rd s) "auto_accept") = false →
  let input := create_input conn meta (rd s) in
  let id := aws_StringValue (ec2.VpcPeeringConnectionId pc) in
  let timeout := Timeout (rd s) TimeoutCreate in
  api_CreateVpcPeeringConnection conn input (world s) = ((Some output, None), w1) →
  ec2.CreatedVpcPeeringConnection output = Some pc →
  pkg_WaitVPCPeeringConnectionActive conn id timeout w1 = ((found, None), w2) →
  resourceVPCPeeringConnectionCreate conn meta s
  = resourceVPCPeeringConnectionUpdate conn meta
      {| rd := SetId (rd s) id; world := w2;
         calls := calls s ++ [Call_CreateVpcPeeringConnection input;
                              Call_WaitVPCPeeringConnectionActive id timeout] |}.
Proof.
  intros Hcheck input id timeout Hcreate Hpc Hwait.
  pose proof (create_of_answer meta s _ _ _ Hcheck Hcreate) as Hr.
  cbn [mbind option_bind] in Hr. rewrite Hpc in Hr. cbv beta iota zeta in Hr.
  fold id timeout in Hr. by rewrite Hwait in Hr.
Qed.

(** X22.  When the wait after the create call fails, the create handler
    returns the error wrapped and does not go on to the update; the
    resource keeps the identifier of the connection that was created. *)
Theorem create_keeps_the_id_when_the_wait_fails
    (meta : AWSClient) (s : St W)
    (output : ec2.CreateVpcPeeringConnectionOutput) (pc : ec2.VpcPeeringConnection)
    (found : option ec2.VpcPeeringConnection) (e : error) (w1 w2 : W) :
  snd (GetOk (rd s) "peer_region") && snd (GetOk (rd s) "auto_accept") = false →
  let input := create_input conn meta (rd s) in
  let id := aws_StringValue (ec2.VpcPeeringConnectionId pc) in
  let timeout := Timeout (rd s) TimeoutCreate in
  api_CreateVpcPeeringConnection conn input (world s) = ((Some output, None), w1) →
  ec2.CreatedVpcPeeringConnection output = Some pc →
  pkg_WaitVPCPeeringConnectionActive conn id timeout w1 = ((found, Some e), w2) →
  let wrapped := fmt_Errorf "error waiting for EC2 VPC Peering Connection (%s) create: %w"
                            [id] (Some e) in
  ∃ s',
    resourceVPCPeeringConnectionCreate conn meta s = Val (Some wrapped) s'
    ∧ errors_Unwrap wrapped = Some e
    ∧ Id (rd s') = id
    ∧ issued s s' = [Call_CreateVpcPeeringConnection input;
                     Call_WaitVPCPeeringConnectionActive id timeout].
Proof.
  intros Hcheck input id timeout Hcreate Hpc Hwait wrapped.
  pose proof (create_of_answer meta s _ _ _ Hcheck Hcreate) as Hr.
  cbn [mbind option_bind] in Hr. rewrite Hpc in Hr. cbv beta iota zeta in Hr.
  fold id timeout in Hr. rewrite Hwait in Hr.
  eexists. split; [exact Hr|]. split; [reflexivity|]. split; [reflexivity|].
  by apply issued_app.
Qed.

Lemma peer_region_check (d : ResourceData) :
  snd (GetOk d "peer_region") && snd (GetOk d "auto_accept") = true
  ∨ snd (GetOk d "peer_region") && snd (GetOk d "auto_accept") = false.
Proof. destruct (_ && _); auto. Qed.

Lemma create_conflict (meta : AWSClient) (s : St W) :
  snd (GetOk (rd s) "peer_region") && snd (GetOk (rd s) "auto_accept") = true →
  resourceVPCPeeringConnectionCreate conn meta s = Val (Some peer_region_error) s.
Proof.
  intros [Hregion Hauto]%andb_true_iff.
  unfold resourceVPCPeeringConnectionCreate, func, bind, get_d.
  cbn [Get attr String.eqb Ascii.eqb Bool.eqb as_map as_string deref pure].
  unfold GetOk in *. cbn [Get attr String.eqb Ascii.eqb Bool.eqb fst snd] in *.
  destruct (negb (is_zero (VString (peer_owner_id (rd_attrs (rd s)))))).
  - cbn [as_string deref pure]. rewrite Hregion, Hauto. reflexivity.
  - cbn [pure]. rewrite Hregion, Hauto. reflexivity.
Qed.

(** X23.  Creating a resource never calls [UpdateTags]: the tags go out
    with the create request, and the update the create handler ends with
    skips its tag step for a resource that is new. *)
Theorem create_never_updates_tags (meta : AWSClient) (s : St W) :
  IsNewResource (rd s) = true →
  existsb is_UpdateTags (issued s (final (resourceVPCPeeringConnectionCreate conn meta s)))
  = false.
Proof.
  intros Hnew.
  destruct (peer_region_check (rd s)) as [Hcheck|Hcheck].
  { rewrite (create_conflict meta s Hcheck). cbn [final].
    rewrite (issued_app s s []); [reflexivity | by rewrite app_nil_r]. }
  destruct (api_CreateVpcPeeringConnection conn (create_input conn meta (rd s)) (world s))
    as [[output err] w1] eqn:Hcreate.
  pose proof (create_of_answer meta s _ _ _ Hcheck Hcreate) as Hr.
  cbv beta iota zeta in Hr.
  destruct err as [e|].
  { rewrite Hr. cbn [final after]. erewrite issued_app by reflexivity. reflexivity. }
  destruct (output ≫= ec2.CreatedVpcPeeringConnection) as [pc|].
  2: { rewrite Hr. cbn [final after]. erewrite issued_app by reflexivity. reflexivity. }
  destruct (pkg_WaitVPCPeeringConnectionActive conn _ _ w1) as [[found werr] w2].
  destruct werr as [e|].
  { rewrite Hr. cbn [final after]. erewrite issued_app by reflexivity. reflexivity. }
  rewrite Hr.
  match goal with |- context [resourceVPCPeeringConnectionUpdate conn meta ?s2] =>
    pose proof (update_tags_calls meta s2) as Hupdate;
    destruct (update_traces meta s2) as (l & Hl & _);
    rewrite (issued_app s2 _ l Hl) in Hupdate end.
  cbn [rd SetId IsNewResource rd_new calls] in Hupdate, Hl.
  unfold IsNewResource in Hnew. rewrite Hnew, andb_false_r in Hupdate.
  rewrite <- app_assoc in Hl. rewrite (issued_app s _ _ Hl).
  cbn [app existsb is_UpdateTags orb]. exact Hupdate.
Qed.

(** ** Accepting *)

(** X24.  The accept function makes one call, for the identifier it is
    given, and leaves the resource data alone; with an error of the call
    it returns the empty status code and that error, without looking at
    the response. *)
Theorem accept_is_one_call (id : string) (s : St W) :
  let input := {| ec2.AcceptVpcPeeringConnectionId := Some id |} in
  let r := resourceVPCPeeringConnectionAccept conn id s in
  rd (final r) = rd s
  ∧ issued s (final r) = [Call_AcceptVpcPeeringConnection input]
  ∧ ∀ resp e w', api_AcceptVpcPeeringConnection conn input (world s) = ((resp, Some e), w') →
      r = Val ("", Some e) (after s w' (Call_AcceptVpcPeeringConnection input)).
Proof.
  intros input r. subst r. destruct (accept_state conn id s) as (w' & Hfinal).
  rewrite Hfinal. split; [reflexivity|]. split; [by apply issued_app|].
  intros resp e w1 Haccept.
  unfold resourceVPCPeeringConnectionAccept, func, bind, conn_AcceptVpcPeeringConnection,
    remote. fold input. by rewrite Haccept.
Qed.

Lemma update_accept_failure (s : St W) (resp : option ec2.AcceptVpcPeeringConnectionOutput)
    (e : error) (w' : W) :
  snd (GetOk (rd s) "auto_accept") = true →
  let input := {| ec2.AcceptVpcPeeringConnectionId := Some (Id (rd s)) |} in
  api_AcceptVpcPeeringConnection conn input (world s) = ((resp, Some e), w') →
  update_accept conn "pending-acceptance" s
  = Return (Some (fmt_Errorf "Unable to accept VPC Peering Connection: %s" [] (Some e)))
           (after s w' (Call_AcceptVpcPeeringConnection input)).
Proof.
  intros Hauto input Haccept. rewrite update_accept_eq. unfold accepting.
  rewrite Hauto. cbn [andb String.eqb Ascii.eqb Bool.eqb].
  unfold resourceVPCPeeringConnectionAccept, func, bind, conn_AcceptVpcPeeringConnection,
    remote. fold input. by rewrite Haccept.
Qed.

(** X25.  When the update handler is to accept a connection pending
    acceptance and [AcceptVpcPeeringConnection] fails, it returns that
    error and stops after the call: it does not wait, change options or
    read. *)
Theorem update_stops_when_accept_fails
    (meta : AWSClient) (s s1 s2 : St W) (pc : ec2.VpcPeeringConnection)
    (resp : option ec2.AcceptVpcPeeringConnectionOutput) (e : error) (w' : W) :
  let input := {| ec2.AcceptVpcPeeringConnectionId := Some (Id (rd s)) |} in
  update_tags conn s = Next tt s1 →
  update_refresh conn s1 = Next (pc, "pending-acceptance") s2 →
  snd (GetOk (rd s) "auto_accept") = true →
  api_AcceptVpcPeeringConnection conn input (world s2) = ((resp, Some e), w') →
  resourceVPCPeeringConnectionUpdate conn meta s
  = Val (Some (fmt_Errorf "Unable to accept VPC Peering Connection: %s" [] (Some e)))
        (after s2 w' (Call_AcceptVpcPeeringConnection input)).
Proof.
  intros input Htags Hrefresh Hauto Haccept.
  destruct (update_tags_issued _ _ _ Htags) as (Hrd1 & _).
  destruct (update_refresh_next _ _ _ _ _ Hrefresh) as (w2 & Hs2).
  assert (Hrd : rd s2 = rd s) by (subst s2; exact Hrd1).
  rewrite (update_from_accept conn meta _ _ _ _ _ Htags Hrefresh). unfold func.
  erewrite bind_Return; [reflexivity|].
  subst input. rewrite <- Hrd in *. by apply (update_accept_failure s2 resp).
Qed.


(** ** The delete handler, whatever the answers *)

(** X27.  The delete handler never panics and never touches the
    resource data; it calls [DeleteVpcPeeringConnection] once for the
    identifier, and after it nothing, or the waiter for the deleted
    state with the delete timeout. *)
Theorem delete_is_one_call_and_maybe_a_wait (meta : AWSClient) (s : St W) :
  let id := Id (rd s) in
  let delete := Call_DeleteVpcPeeringConnection
                  {| ec2.DeleteVpcPeeringConnectionId := Some id |} in
  ∃ r s',
    resourceVPCPeeringConnectionDelete conn meta s = Val r s'
    ∧ rd s' = rd s
    ∧ (issued s s' = [delete]
       ∨ issued s s' = [delete; Call_WaitVPCPeeringConnectionDeleted
                                  id (Timeout (rd s) TimeoutDelete)]).
Proof.
  intros id delete.
  unfold resourceVPCPeeringConnectionDelete, func, bind, get_d,
    conn_DeleteVpcPeeringConnection, WaitVPCPeeringConnectionDeleted, remote.
  fold id.
  destruct (api_DeleteVpcPeeringConnection _ _ _) as [err w1].
  destruct (ErrCodeEquals err _);
    [eexists _, _; split; [reflexivity|]; split; [reflexivity|]; left; by apply issued_app|].
  unfold pure.
  destruct (ErrMessageContains err _ _);
    [eexists _, _; split; [reflexivity|]; split; [reflexivity|]; left; by apply issued_app|].
  destruct err as [e|];
    [eexists _, _; split; [reflexivity|]; split; [reflexivity|]; left; by apply issued_app|].
  cbn [rd world calls].
  destruct (pkg_WaitVPCPeeringConnectionDeleted _ _ _ _) as [[found werr] w2].
  destruct werr as [e|];
    (eexists _, _; split; [reflexivity|]; split; [reflexivity|]; right;
     apply issued_app; cbn [calls]; by rewrite <- app_assoc).
Qed.

(** ** The peering options as the resource stores them *)

Lemma flatten_lookup (o : ec2.VpcPeeringConnectionOptionsDescription) :
  ∃ m, flattenVpcPeeringConnectionOptionsDescription (Some o) = Some m
    ∧ m !! "allow_remote_vpc_dns_resolution" = ec2.AllowDnsResolutionFromRemoteVpc o
    ∧ m !! "allow_classic_link_to_remote_vpc"
      = ec2.AllowEgressFromLocalClassicLinkToRemoteVpc o
    ∧ m !! "allow_vpc_to_remote_classic_link"
      = ec2.AllowEgressFromLocalVpcToRemoteClassicLink o
    ∧ ∀ key, key ∉ vpcPeeringConnectionOptionsSchema → m !! key = None.
Proof.
  eexists. split; [reflexivity|]. destruct o as [[a|] [b|] [c|]]; cbn;
    (split; [by simplify_map_eq|split; [by simplify_map_eq|split; [by simplify_map_eq|]]]);
    intros key Hkey; unfold vpcPeeringConnectionOptionsSchema in Hkey;
    repeat (rewrite lookup_insert_ne by (intros <-; apply Hkey; set_solver));
    apply lookup_empty.
Qed.

(** X28.  The map that flattening returns for the peering options of
    one side has a key for each option the remote side reports, with its
    value, and no other key: an option that is not reported is left out
    of that map, not entered as false. *)
Theorem flatten_stores_the_reported_options
    (o : ec2.VpcPeeringConnectionOptionsDescription) :
  ∃ m, flattenVpcPeeringConnectionOptionsDescription (Some o) = Some m
    ∧ m !! "allow_remote_vpc_dns_resolution" = ec2.AllowDnsResolutionFromRemoteVpc o
    ∧ m !! "allow_classic_link_to_remote_vpc"
      = ec2.AllowEgressFromLocalClassicLinkToRemoteVpc o
    ∧ m !! "allow_vpc_to_remote_classic_link"
      = ec2.AllowEgressFromLocalVpcToRemoteClassicLink o
    ∧ ∀ key, key ∉ vpcPeeringConnectionOptionsSchema → m !! key = None.
Proof. apply flatten_lookup. Qed.

(** X29.  Nothing is lost by flattening: two descriptions of peering
    options are flattened to the same value exactly when they are the
    same, nil included. *)
Theorem flatten_is_injective (a b : option ec2.VpcPeeringConnectionOptionsDescription) :
  flattenVpcPeeringConnectionOptionsDescription a
  = flattenVpcPeeringConnectionOptionsDescription b
  ↔ a = b.
Proof.
  split; [|by intros ->].
  destruct a as [a|], b as [b|]; [|discriminate..|done].
  destruct (flatten_lookup a) as (ma & Ha & Ha1 & Ha2 & Ha3 & _).
  destruct (flatten_lookup b) as (mb & Hb & Hb1 & Hb2 & Hb3 & _).
  rewrite Ha, Hb. intros [= ->].
  destruct a, b. cbn in *. congruence.
Qed.
End More.

(** * The handlers on the simulated remote side *)

Module Run.
Import Sim.

(** The poller at a remote side without the connection. *)
Lemma refresh_state_not_found_is_deleted_witness :
  vpcPeeringConnectionRefreshState host "pcx-1" (start idle None)
  = Val (None, "deleted", None)
        (after (start idle None) None
               (Call_DescribeVpcPeeringConnections (describe_input "pcx-1"))).
Proof.
  apply (refresh_state_not_found_is_deleted host "pcx-1" (start idle None)
           None not_found None); reflexivity.
Defined.

(** The poller at a connection that failed. *)
Lemma refresh_state_failed_is_error_witness :
  vpcPeeringConnectionRefreshState host "pcx-1" (start idle (Some failed_pcx))
  = Val (None, "failed", Some (errors_New "Failed due to incorrect VPC-ID"))
        (after (start idle (Some failed_pcx)) (Some failed_pcx)
               (Call_DescribeVpcPeeringConnections (describe_input "pcx-1"))).
Proof.
  apply (refresh_state_failed_is_error host "pcx-1" (start idle (Some failed_pcx))
           {| ec2.VpcPeeringConnections := [Some failed_pcx] |} failed_pcx []
           {| ec2.Code := Some "failed";
              ec2.Message := Some "Failed due to incorrect VPC-ID" |}
           (Some failed_pcx)); reflexivity.
Defined.

(** The poller at a connection whose status does not show yet. *)
Lemma refresh_state_not_visible_is_empty_witness :
  vpcPeeringConnectionRefreshState host "pcx-1" (start idle (Some blank_pcx))
  = Val (None, "", None)
        (after (start idle (Some blank_pcx)) (Some blank_pcx)
               (Call_DescribeVpcPeeringConnections (describe_input "pcx-1"))).
Proof.
  apply (refresh_state_not_visible_is_empty host "pcx-1" (start idle (Some blank_pcx))
           (Some {| ec2.VpcPeeringConnections := [Some blank_pcx] |})
           (Some blank_pcx)); [reflexivity|].
  right. right. right. eexists _, blank_pcx, []. repeat split; reflexivity.
Defined.

(** Creating with both [peer_region] and [auto_accept]. *)
Lemma create_refuses_peer_region_with_auto_accept_witness :
  resourceVPCPeeringConnectionCreate host meta (start cross_region None)
  = Val (Some (fmt_Errorf
           "`peer_region` cannot be set whilst `auto_accept` is `true` when creating an EC2 VPC Peering Connection"
           [] None)) (start cross_region None).
Proof.
  apply (proj1 (create_refuses_peer_region_with_auto_accept host meta
                  (start cross_region None) eq_refl eq_refl)).
Defined.

(** Deleting a failed connection is refused by the remote side with the
    invalid transition, which the handler takes for a success. *)
Lemma delete_tolerates_gone_then_waits_witness :
  resourceVPCPeeringConnectionDelete host meta (start idle (Some failed_pcx))
  = Val None
        (after (start idle (Some failed_pcx)) (Some failed_pcx)
               (Call_DeleteVpcPeeringConnection
                  {| ec2.DeleteVpcPeeringConnectionId := Some "pcx-1" |})).
Proof.
  apply (proj1 (proj2
           (delete_tolerates_gone_then_waits host meta (start idle (Some failed_pcx))
              (Some invalid_transition) (Some failed_pcx) eq_refl))).
  reflexivity.
Defined.

(** The connection is gone when the update handler refreshes. *)
Lemma update_clears_id_when_gone_witness :
  resourceVPCPeeringConnectionUpdate host meta (start idle None)
  = Val None
        {| rd := SetId idle "";
           world := None;
           calls := [Call_DescribeVpcPeeringConnections (describe_input "pcx-1")] |}.
Proof.
  apply (proj1
           (update_clears_id_when_gone host meta (start idle None) (start idle None)
              (after (start idle None) None
                     (Call_DescribeVpcPeeringConnections (describe_input "pcx-1")))
              "deleted" eq_refl eq_refl)).
Defined.

(** Updating with [auto_accept] a connection pending acceptance. *)
Lemma update_accepts_iff_pending_acceptance_witness :
  existsb is_Accept
    (issued (start auto (Some pending_pcx))
       (final (resourceVPCPeeringConnectionUpdate host meta
                 (start auto (Some pending_pcx))))) = true.
Proof.
  apply (proj1
           (update_accepts_iff_pending_acceptance host meta
              (start auto (Some pending_pcx)) (start auto (Some pending_pcx))
              (after (start auto (Some pending_pcx)) (Some pending_pcx)
                     (Call_DescribeVpcPeeringConnections (describe_input "pcx-1")))
              (Some pending_pcx) "pending-acceptance" None eq_refl eq_refl)).
  split; reflexivity.
Defined.

(** The accepter options change on a connection that is still pending
    acceptance, without [auto_accept]. *)
Lemma update_options_need_active_witness :
  resourceVPCPeeringConnectionUpdate host meta (start changed (Some pending_pcx))
  = Val (Some (fmt_Errorf
           "Unable to modify peering options. The VPC Peering Connection %q is not active. Please set `auto_accept` attribute to `true`, or activate VPC Peering Connection manually."
           ["pcx-1"] None))
        (after (start changed (Some pending_pcx)) (Some pending_pcx)
               (Call_DescribeVpcPeeringConnections (describe_input "pcx-1"))).
Proof.
  apply (proj2
           (update_options_need_active host meta (start changed (Some pending_pcx))
              eq_refl)
           (start changed (Some pending_pcx))
           (after (start changed (Some pending_pcx)) (Some pending_pcx)
                  (Call_DescribeVpcPeeringConnections (describe_input "pcx-1")))
           (after (start changed (Some pending_pcx)) (Some pending_pcx)
                  (Call_DescribeVpcPeeringConnections (describe_input "pcx-1")))
           pending_pcx "pending-acceptance" "pending-acceptance"
           eq_refl eq_refl eq_refl);
    discriminate.
Defined.

(** The caller owns the accepter side of an active connection: the
    two VPCs of the configuration change places. *)
Lemma read_sets_role_by_account_witness :
  ∃ s',
    resourceVPCPeeringConnectionRead host accepter_meta (start idle (Some active_pcx))
    = Val None s'
    ∧ Get (rd s') "peer_owner_id" = VString "111111111111"
    ∧ Get (rd s') "peer_vpc_id" = VString "vpc-a"
    ∧ Get (rd s') "vpc_id" = VString "vpc-b".
Proof.
  destruct (read_sets_role_by_account host accepter_meta (start idle (Some active_pcx))
              active_pcx {| ec2.Code := Some "active"; ec2.Message := Some "Active" |}
              (info "222222222222" "vpc-b" "eu-west-1")
              (info "111111111111" "vpc-a" "eu-west-1")
              (Some active_pcx) eq_refl eq_refl eq_refl eq_refl eq_refl)
    as (s' & Hread & Hrole).
  exists s'. split; [exact Hread | exact Hrole].
Defined.

(** The accepter options change on a connection that failed: the status
    is neither [active] nor [provisioning], and the handler returns the
    error of the refresh, not the one about the peering options. *)
Lemma update_options_need_active_counterexample :
  let s := start changed (Some failed_pcx) in
  let r := resourceVPCPeeringConnectionUpdate host meta s in
  HasChanges (rd s) ["accepter"; "requester"] = true
  ∧ vpcPeeringConnectionRefreshState host "pcx-1" s
    = Val (None, "failed", Some (errors_New "Failed due to incorrect VPC-ID"))
          (after s (Some failed_pcx)
                 (Call_DescribeVpcPeeringConnections (describe_input "pcx-1")))
  ∧ r = Val (Some (fmt_Errorf "Error reading VPC Peering Connection: %s" []
                              (Some (errors_New "Failed due to incorrect VPC-ID"))))
            (after s (Some failed_pcx)
                   (Call_DescribeVpcPeeringConnections (describe_input "pcx-1")))
  ∧ (∀ s', r ≠ Val (Some (not_active_error "pcx-1")) s')
  ∧ existsb is_Modify (issued s (final r)) = false.
Proof.
  intros s r.
  assert (Hr : r = Val (Some (fmt_Errorf "Error reading VPC Peering Connection: %s" []
                                (Some (errors_New "Failed due to incorrect VPC-ID"))))
                       (after s (Some failed_pcx)
                          (Call_DescribeVpcPeeringConnections (describe_input "pcx-1"))))
    by (vm_compute; reflexivity).
  split; [vm_compute; reflexivity|]. split; [vm_compute; reflexivity|].
  split; [exact Hr|]. split; [|rewrite Hr; vm_compute; reflexivity].
  intros s'. rewrite Hr. discriminate.
Qed.

(** Whole runs: creating with [auto_accept] creates, waits, refreshes,
    accepts, waits for the connection to be available and reads it. *)
Example create_with_auto_accept_run :
  let r := resourceVPCPeeringConnectionCreate host meta (start fresh None) in
  r = Val None (final r)
  ∧ calls (final r)
    = [Call_CreateVpcPeeringConnection
         {| ec2.PeerOwnerId := None; ec2.PeerRegion := None;
            ec2.PeerVpcId := Some "vpc-b"; ec2.TagSpecifications := [];
            ec2.CreateVpcId := Some "vpc-a" |};
       Call_WaitVPCPeeringConnectionActive "pcx-1" (1 * time_Minute);
       Call_DescribeVpcPeeringConnections (describe_input "pcx-1");
       Call_AcceptVpcPeeringConnection
         {| ec2.AcceptVpcPeeringConnectionId := Some "pcx-1" |};
       Call_DescribeVpcPeeringConnections (describe_input "pcx-1");
       Call_FindVPCPeeringConnectionByID "pcx-1"]
  ∧ Id (rd (final r)) = "pcx-1"
  ∧ Get (rd (final r)) "accept_status" = VString "active".
Proof. vm_compute. repeat split; reflexivity. Qed.

(** Deleting an active connection deletes it and waits. *)
Example delete_active_run :
  let r := resourceVPCPeeringConnectionDelete host meta (start idle (Some active_pcx)) in
  r = Val None (final r)
  ∧ world (final r) = None
  ∧ calls (final r)
    = [Call_DeleteVpcPeeringConnection
         {| ec2.DeleteVpcPeeringConnectionId := Some "pcx-1" |};
       Call_WaitVPCPeeringConnectionDeleted "pcx-1" (1 * time_Minute)].
Proof. vm_compute. repeat split; reflexivity. Qed.

(** A wait that runs out of polls times out. *)
Example wait_times_out :
  WaitForState host
    {| Pending := ["pending-acceptance"]; Target := ["active"];
       Refresh := vpcPeeringConnectionRefreshState host "pcx-1";
       StateTimeout := 1 * time_Minute |}
    (start idle (Some pending_pcx))
  = Val (None, Some (resource_TimeoutError "pending-acceptance" ["active"]))
        {| rd := idle; world := Some pending_pcx;
           calls := [Call_DescribeVpcPeeringConnections (describe_input "pcx-1");
                     Call_DescribeVpcPeeringConnections (describe_input "pcx-1");
                     Call_DescribeVpcPeeringConnections (describe_input "pcx-1")] |}.
Proof. vm_compute. reflexivity. Qed.
End Run.

(** * The handlers on remote sides that fail *)

Module RunMore.
Import Sim Faulty.

(** The poller at a remote side that throttles. *)
Lemma refresh_state_passes_other_errors_witness :
  vpcPeeringConnectionRefreshState unreachable "pcx-1" (start idle (Some active_pcx))
  = Val (None, "", Some throttled)
        (after (start idle (Some active_pcx)) (Some active_pcx)
               (Call_DescribeVpcPeeringConnections (describe_input "pcx-1"))).
Proof.
  apply (refresh_state_passes_other_errors unreachable "pcx-1"
           (start idle (Some active_pcx)) None throttled (Some active_pcx));
    reflexivity.
Defined.

(** The poller at an active connection. *)
Lemma refresh_state_reports_status_witness :
  vpcPeeringConnectionRefreshState host "pcx-1" (start idle (Some active_pcx))
  = Val (Some active_pcx, "active", None)
        (after (start idle (Some active_pcx)) (Some active_pcx)
               (Call_DescribeVpcPeeringConnections (describe_input "pcx-1"))).
Proof.
  apply (refresh_state_reports_status host "pcx-1" (start idle (Some active_pcx))
           (Some {| ec2.VpcPeeringConnections := [Some active_pcx] |}) active_pcx
           {| ec2.Code := Some "active"; ec2.Message := Some "Active" |}
           (Some active_pcx)); [reflexivity| |discriminate].
  eexists _, []. repeat split; reflexivity.
Defined.

(** Waiting for a connection that is pending acceptance. *)
Lemma wait_until_available_stops_at_target_witness :
  vpcPeeringConnectionWaitUntilAvailable host "pcx-1" (1 * time_Minute)
    (start idle (Some pending_pcx))
  = Val None
        (after (start idle (Some pending_pcx)) (Some pending_pcx)
               (Call_DescribeVpcPeeringConnections (describe_input "pcx-1"))).
Proof.
  apply (wait_until_available_stops_at_target host "pcx-1" (1 * time_Minute) 2
           (start idle (Some pending_pcx))
           (Some {| ec2.VpcPeeringConnections := [Some pending_pcx] |}) pending_pcx
           {| ec2.Code := Some "pending-acceptance";
              ec2.Message := Some "Pending Acceptance" |}
           (Some pending_pcx)); [reflexivity|reflexivity| |left; reflexivity].
  eexists _, []. repeat split; reflexivity.
Defined.

(** Waiting for a connection that failed. *)
Lemma wait_until_available_fails_fast_witness :
  vpcPeeringConnectionWaitUntilAvailable host "pcx-1" (1 * time_Minute)
    (start idle (Some failed_pcx))
  = Val (Some (fmt_Errorf
                 "Error waiting for VPC Peering Connection (%s) to become available: %s"
                 ["pcx-1"] (Some (errors_New "Failed due to incorrect VPC-ID"))))
        (after (start idle (Some failed_pcx)) (Some failed_pcx)
               (Call_DescribeVpcPeeringConnections (describe_input "pcx-1"))).
Proof.
  apply (wait_until_available_fails_fast host "pcx-1" (1 * time_Minute) 2
           (start idle (Some failed_pcx))
           (Some {| ec2.VpcPeeringConnections := [Some failed_pcx] |}) failed_pcx
           {| ec2.Code := Some "failed";
              ec2.Message := Some "Failed due to incorrect VPC-ID" |}
           (Some failed_pcx)); [reflexivity|reflexivity| |reflexivity].
  eexists _, []. repeat split; reflexivity.
Defined.

(** Waiting for a connection that was rejected. *)
Lemma wait_until_available_rejects_other_statuses_witness :
  vpcPeeringConnectionWaitUntilAvailable host "pcx-1" (1 * time_Minute)
    (start idle (Some rejected_pcx))
  = Val (Some (fmt_Errorf
                 "Error waiting for VPC Peering Connection (%s) to become available: %s"
                 ["pcx-1"]
                 (Some (resource_UnexpectedStateError
                          "rejected" ["pending-acceptance"; "active"]))))
        (after (start idle (Some rejected_pcx)) (Some rejected_pcx)
               (Call_DescribeVpcPeeringConnections (describe_input "pcx-1"))).
Proof.
  apply (wait_until_available_rejects_other_statuses host "pcx-1" (1 * time_Minute) 2
           (start idle (Some rejected_pcx))
           (Some {| ec2.VpcPeeringConnections := [Some rejected_pcx] |}) rejected_pcx
           {| ec2.Code := Some "rejected";
              ec2.Message := Some "Rejected by 222222222222" |}
           (Some rejected_pcx)); [reflexivity|reflexivity| |reflexivity].
  eexists _, []. repeat split; reflexivity.
Defined.

(** Waiting for a connection that stays provisioning: three polls. *)
Lemma wait_until_available_times_out_while_pending_witness :
  ∃ last s',
    vpcPeeringConnectionWaitUntilAvailable host "pcx-1" (1 * time_Minute)
      (start idle (Some provisioning_pcx))
    = Val (Some (fmt_Errorf
                   "Error waiting for VPC Peering Connection (%s) to become available: %s"
                   ["pcx-1"]
                   (Some (resource_TimeoutError last ["pending-acceptance"; "active"]))))
          s'
    ∧ rd s' = idle
    ∧ issued (start idle (Some provisioning_pcx)) s'
      = replicate 3 (Call_DescribeVpcPeeringConnections (describe_input "pcx-1")).
Proof.
  apply (wait_until_available_times_out_while_pending host
           (λ w, w = Some provisioning_pcx) "pcx-1" (1 * time_Minute)
           (start idle (Some provisioning_pcx))); [|reflexivity].
  intros w ->.
  exists (Some {| ec2.VpcPeeringConnections := [Some provisioning_pcx] |}),
    provisioning_pcx,
    {| ec2.Code := Some "provisioning"; ec2.Message := Some "Provisioning" |},
    (Some provisioning_pcx).
  split; [reflexivity|]. split; [|split; [right; reflexivity|reflexivity]].
  eexists _, []. repeat split; reflexivity.
Defined.

(** Updating the tags at a remote side that refuses. *)
Lemma update_stops_on_tag_error_witness :
  resourceVPCPeeringConnectionUpdate read_only meta (start retagged (Some active_pcx))
  = Val (Some (fmt_Errorf "error updating EC2 VPC Peering Connection (%s) tags: %s"
                          ["pcx-1"] (Some denied)))
        (after (start retagged (Some active_pcx)) (Some active_pcx)
               (Call_UpdateTags "pcx-1" (VMap ∅) (VMap {["Name" := "peer"]}))).
Proof.
  apply (update_stops_on_tag_error read_only meta (start retagged (Some active_pcx))
           denied (Some active_pcx)); vm_compute; reflexivity.
Defined.

(** Updating a connection that failed. *)
Lemma update_of_failed_connection_witness :
  resourceVPCPeeringConnectionUpdate host meta (start idle (Some failed_pcx))
  = Val (Some (fmt_Errorf "Error reading VPC Peering Connection: %s" []
                          (Some (errors_New "Failed due to incorrect VPC-ID"))))
        (after (start idle (Some failed_pcx)) (Some failed_pcx)
               (Call_DescribeVpcPeeringConnections (describe_input "pcx-1"))).
Proof.
  apply (update_of_failed_connection host meta (start idle (Some failed_pcx))
           (start idle (Some failed_pcx))
           (Some {| ec2.VpcPeeringConnections := [Some failed_pcx] |}) failed_pcx
           {| ec2.Code := Some "failed";
              ec2.Message := Some "Failed due to incorrect VPC-ID" |}
           (Some failed_pcx)); [reflexivity|reflexivity| |reflexivity].
  eexists _, []. repeat split; reflexivity.
Defined.

(** Updating an active connection with nothing to change. *)
Lemma update_without_changes_is_read_witness :
  resourceVPCPeeringConnectionUpdate host meta (start idle (Some active_pcx))
  = resourceVPCPeeringConnectionRead host meta
      (after (start idle (Some active_pcx)) (Some active_pcx)
             (Call_DescribeVpcPeeringConnections (describe_input "pcx-1"))).
Proof.
  apply (update_without_changes_is_read host meta (start idle (Some active_pcx))
           (Some {| ec2.VpcPeeringConnections := [Some active_pcx] |}) active_pcx
           {| ec2.Code := Some "active"; ec2.Message := Some "Active" |}
           (Some active_pcx));
    [reflexivity|reflexivity| |discriminate|reflexivity|reflexivity].
  eexists _, []. repeat split; reflexivity.
Defined.

(** The accepter options of an active connection change. *)
Lemma update_modifies_changed_options_witness :
  let s3 := after (start changed (Some active_pcx)) (Some active_pcx)
                  (Call_DescribeVpcPeeringConnections (describe_input "pcx-1")) in
  resourceVPCPeeringConnectionUpdate host meta (start changed (Some active_pcx))
  = resourceVPCPeeringConnectionRead host meta
      (after s3 (Some active_pcx)
         (Call_ModifyVpcPeeringConnectionOptions
            {| ec2.AccepterPeeringConnectionOptions := None;
               ec2.RequesterPeeringConnectionOptions := None;
               ec2.ModifyVpcPeeringConnectionId := Some "pcx-1" |})).
Proof.
  intros s3.
  apply (update_modifies_changed_options host meta (start changed (Some active_pcx))
           (start changed (Some active_pcx)) s3 s3 active_pcx
           (info "111111111111" "vpc-a" "eu-west-1")
           (info "222222222222" "vpc-b" "eu-west-1")
           "active" "active" None (Some active_pcx));
    [reflexivity|reflexivity|reflexivity|vm_compute; reflexivity|left; reflexivity
    |reflexivity|reflexivity|reflexivity].
Defined.

(** Reading a connection that is gone. *)
Lemma read_of_missing_connection_clears_id_witness :
  resourceVPCPeeringConnectionRead host meta (start idle None)
  = Val None
        {| rd := SetId idle ""; world := None;
           calls := [Call_FindVPCPeeringConnectionByID "pcx-1"] |}.
Proof.
  apply (read_of_missing_connection_clears_id host meta (start idle None)
           None (Some (resource_NotFoundError "not found")) None); reflexivity.
Defined.

(** Reading a new resource whose connection does not show. *)
Lemma read_of_new_resource_returns_the_error_witness :
  resourceVPCPeeringConnectionRead host meta (start unborn None)
  = Val (Some (fmt_Errorf "error reading EC2 VPC Peering Connection (%s): %w" [""]
                          (Some (resource_NotFoundError "not found"))))
        (after (start unborn None) None (Call_FindVPCPeeringConnectionByID "")).
Proof.
  apply (proj1 (read_of_new_resource_returns_the_error host meta (start unborn None)
                  None (resource_NotFoundError "not found") None eq_refl
                  (or_introl eq_refl))).
Defined.

(** Reading a connection whose accepter reports one option and whose
    requester reports none. *)
Lemma read_stores_what_the_connection_shows_witness :
  ∃ s',
    resourceVPCPeeringConnectionRead host meta (start idle (Some resolving_pcx))
    = Val None s'
    ∧ Id (rd s') = "pcx-1"
    ∧ Get (rd s') "accept_status" = VString "active"
    ∧ Get (rd s') "peer_region" = VString "eu-west-1"
    ∧ Get (rd s') "accepter"
      = VList [Some {["allow_classic_link_to_remote_vpc" := false;
                      "allow_remote_vpc_dns_resolution" := true;
                      "allow_vpc_to_remote_classic_link" := false]}]
    ∧ Get (rd s') "requester" = VList [None].
Proof.
  destruct (read_stores_what_the_connection_shows host meta
              (start idle (Some resolving_pcx)) resolving_pcx
              {| ec2.Code := Some "active"; ec2.Message := Some "Active" |}
              {| ec2.OwnerId := Some "222222222222";
                 ec2.PeeringOptions :=
                   Some {| ec2.AllowDnsResolutionFromRemoteVpc := Some true;
                           ec2.AllowEgressFromLocalClassicLinkToRemoteVpc := None;
                           ec2.AllowEgressFromLocalVpcToRemoteClassicLink := None |};
                 ec2.Region := Some "eu-west-1"; ec2.VpcId := Some "vpc-b" |}
              {| ec2.OwnerId := Some "111111111111";
                 ec2.PeeringOptions :=
                   Some {| ec2.AllowDnsResolutionFromRemoteVpc := None;
                           ec2.AllowEgressFromLocalClassicLinkToRemoteVpc := None;
                           ec2.AllowEgressFromLocalVpcToRemoteClassicLink := None |};
                 ec2.Region := Some "eu-west-1"; ec2.VpcId := Some "vpc-a" |}
              (Some resolving_pcx) eq_refl eq_refl eq_refl eq_refl eq_refl)
    as (s' & Hread & _ & Hid & Hstatus & Hregion & Haccepter & Hrequester & _).
  exists s'. split; [exact Hread|]. split; [exact Hid|]. split; [exact Hstatus|].
  split; [exact Hregion|]. split; [|exact Hrequester].
  rewrite Haccepter. vm_compute. reflexivity.
Defined.

(** Reading an active connection twice. *)
Lemma read_is_idempotent_witness :
  let s1 := final (resourceVPCPeeringConnectionRead host meta
                     (start idle (Some active_pcx))) in
  rd (final (resourceVPCPeeringConnectionRead host meta s1)) = rd s1.
Proof.
  apply (read_is_idempotent host meta (start idle (Some active_pcx))
           active_pcx {| ec2.Code := Some "active"; ec2.Message := Some "Active" |}
           (info "222222222222" "vpc-b" "eu-west-1")
           (info "111111111111" "vpc-a" "eu-west-1")
           (Some active_pcx) (Some active_pcx)
           eq_refl eq_refl eq_refl eq_refl eq_refl eq_refl).
Defined.

(** Creating at a remote side that refuses. *)
Lemma create_returns_the_api_error_witness :
  ∃ s',
    resourceVPCPeeringConnectionCreate read_only meta (start unborn None)
    = Val (Some (fmt_Errorf "error creating EC2 VPC Peering Connection: %w" []
                            (Some denied))) s'
    ∧ rd s' = unborn.
Proof.
  destruct (create_returns_the_api_error read_only meta (start unborn None)
              None denied None eq_refl eq_refl)
    as (s' & Hcreate & _ & _ & Hrd).
  exists s'. split; assumption.
Defined.

(** Creating with [auto_accept]: the update follows the wait. *)
Lemma create_then_is_update_witness :
  resourceVPCPeeringConnectionCreate host meta (start fresh None)
  = resourceVPCPeeringConnectionUpdate host meta
      {| rd := SetId fresh "pcx-1"; world := Some pending_pcx;
         calls := [Call_CreateVpcPeeringConnection (create_input host meta fresh);
                   Call_WaitVPCPeeringConnectionActive "pcx-1" (1 * time_Minute)] |}.
Proof.
  apply (create_then_is_update host meta (start fresh None)
           {| ec2.CreatedVpcPeeringConnection := Some pending_pcx |} pending_pcx
           (Some pending_pcx) (Some pending_pcx) (Some pending_pcx)
           eq_refl eq_refl eq_refl eq_refl).
Defined.

(** Creating a connection that does not get active in time. *)
Lemma create_keeps_the_id_when_the_wait_fails_witness :
  ∃ s',
    resourceVPCPeeringConnectionCreate stuck meta (start unborn None)
    = Val (Some (fmt_Errorf "error waiting for EC2 VPC Peering Connection (%s) create: %w"
                            ["pcx-1"] (Some timed_out))) s'
    ∧ Id (rd s') = "pcx-1".
Proof.
  destruct (create_keeps_the_id_when_the_wait_fails stuck meta (start unborn None)
              {| ec2.CreatedVpcPeeringConnection := Some pending_pcx |} pending_pcx
              None timed_out (Some pending_pcx) (Some pending_pcx)
              eq_refl eq_refl eq_refl eq_refl)
    as (s' & Hcreate & _ & Hid & _).
  exists s'. split; assumption.
Defined.

(** Creating with [auto_accept] updates no tags. *)
Lemma create_never_updates_tags_witness :
  existsb is_UpdateTags
    (issued (start fresh None)
       (final (resourceVPCPeeringConnectionCreate host meta (start fresh None)))) = false.
Proof. apply (create_never_updates_tags host meta (start fresh None) eq_refl). Defined.

(** Accepting at a remote side that refuses. *)
Lemma update_stops_when_accept_fails_witness :
  let s2 := after (start auto (Some pending_pcx)) (Some pending_pcx)
                  (Call_DescribeVpcPeeringConnections (describe_input "pcx-1")) in
  resourceVPCPeeringConnectionUpdate read_only meta (start auto (Some pending_pcx))
  = Val (Some (fmt_Errorf "Unable to accept VPC Peering Connection: %s" [] (Some denied)))
        (after s2 (Some pending_pcx)
           (Call_AcceptVpcPeeringConnection
              {| ec2.AcceptVpcPeeringConnectionId := Some "pcx-1" |})).
Proof.
  intros s2.
  apply (update_stops_when_accept_fails read_only meta (start auto (Some pending_pcx))
           (start auto (Some pending_pcx)) s2 pending_pcx None denied (Some pending_pcx)
           eq_refl eq_refl eq_refl eq_refl).
Defined.

End RunMore.
